(** * Accessibility audit reports: summary, JSON and HTML rendering, orchestration

    A shallow embedding of the report logic of the two command line tools of
    this repository:

    - [axe-playwright/index.mjs], class [AccessibilityTester]
      ([generateSummary], [generateJSONReport], [generateHTMLReport],
      [runAudit], [runWithAxePlaywright], [runMultipleBrowsers], [run]);
    - [axe-webdriverio/index.mjs] ([runAccessibilityTest],
      [generateHTMLReport]).

    JavaScript values are modelled at the types the scan result has: lengths
    and counters are naturals of type [N] (a JS array has fewer than 2^32
    elements, so every count below is an exactly represented double), a
    counter that may be [NaN] is a [jsnum], a plain JS object used as a
    string-keyed table is an ordered association list with the key order of
    [OrdinaryOwnPropertyKeys], and a thrown exception is the left injection
    of a sum.  The calls into the browser driver, the scan engine, the file
    system and the clock are the environment of a run: what they return and
    whether they fail is a parameter.  Console output is left out: the calls
    of [console.log] and [console.error] return nothing, never throw, and
    nothing reads what they print. *)

From Stdlib Require Import String Ascii List NArith ZArith Bool Lia.
From Stdlib Require Import PeanoNat DecimalString DecimalN DecimalFacts.
Import ListNotations.

Local Open Scope list_scope.
Local Open Scope string_scope.

(** ** JavaScript preliminaries *)

(** The double quote character, for markup and JSON text. *)
Definition dq : string := String (ascii_of_nat 34) EmptyString.

(** The line feed of a template literal that spans lines. *)
Definition nl : string := String (ascii_of_nat 10) EmptyString.

(** [String(n)] for a non-negative integer below 10^21: its decimal digits. *)
Definition string_of_N (n : N) : string :=
  NilZero.string_of_uint (N.to_uint n).

(** Reading a string of decimal digits back (no sign, no exponent). *)
Definition N_of_string (s : string) : option N :=
  match NilZero.uint_of_string s with
  | Some d => Some (N.of_uint d)
  | None => None
  end.

(** A number that a counter slot can hold: a count, or [NaN]. *)
Inductive jsnum : Type :=
| Num (n : N)
| NaN.

(** [String(x)] of a [jsnum]. *)
Definition string_of_jsnum (x : jsnum) : string :=
  match x with
  | Num n => string_of_N n
  | NaN => "NaN"
  end.

(** What the code throws.  [TypeError] is what a property read on
    [undefined] raises ([results.passes.length] with [passes] absent) and
    what [new URL] raises on an invalid address; [ExternalError] carries the
    message of a failure raised by a collaborator (browser driver, scan
    engine, file system). *)
Inductive error : Type :=
| TypeError (message : string)
| ExternalError (message : string).

Definition error_message (e : error) : string :=
  match e with
  | TypeError m => m
  | ExternalError m => m
  end.

Definition result (A : Type) : Type := (error + A)%type.

Definition ok {A : Type} (a : A) : result A := inr a.
Definition throw {A : Type} (e : error) : result A := inl e.

Definition rbind {A B : Type} (m : result A) (k : A -> result B) : result B :=
  match m with
  | inl e => inl e
  | inr a => k a
  end.

Declare Scope result_scope.
Delimit Scope result_scope with result.
Notation "x <- m ;; k" := (rbind m (fun x => k))
  (at level 100, m at next level, right associativity) : result_scope.
Local Open Scope result_scope.

(** [xs.join(sep)] on an array of strings. *)
Definition join (sep : string) (xs : list string) : string :=
  String.concat sep xs.

(** [xs.slice(0, n)]. *)
Definition slice0 {A : Type} (n : nat) (xs : list A) : list A := firstn n xs.

(** [xs.length]. *)
Definition len {A : Type} (xs : list A) : N := N.of_nat (List.length xs).

(** ** Plain objects as ordered tables *)

Module JsObject.

Section Table.
Variable V : Type.

Definition t : Type := list (string * V).

Fixpoint get (k : string) (o : t) : option V :=
      match o with
      | [] => None
      | (k', v) :: o' => if String.eqb k k' then Some v else get k o'
      end.

Definition keys (o : t) : list string := map fst o.

Fixpoint replace (k : string) (v : V) (o : t) : t :=
      match o with
      | [] => []
      | (k', v') :: o' =>
          if String.eqb k k' then (k', v) :: o' else (k', v') :: replace k v o'
      end.

End Table.

Arguments get {V} k o.
Arguments keys {V} o.
Arguments replace {V} k v o.

  (** An array index key: the canonical decimal text of an integer below
      2^32 - 1.  Such keys are enumerated first, in ascending numeric order;
      all other string keys follow in creation order. *)
Definition array_index (k : string) : option N :=
    match N_of_string k with
    | Some n =>
        if (String.eqb (string_of_N n) k && N.ltb n 4294967295)%bool
        then Some n else None
    | None => None
    end.

Section Create.
Variable V : Type.

    (** Position of a new array-index key [n] among the leading index keys. *)
Fixpoint insert_index (n : N) (k : string) (v : V) (o : t V) : t V :=
      match o with
      | [] => [(k, v)]
      | (k', v') :: o' =>
          match array_index k' with
          | Some n' =>
              if N.ltb n n' then (k, v) :: o
              else (k', v') :: insert_index n k v o'
          | None => (k, v) :: o
          end
      end.

    (** Creation of an own data property that does not exist yet. *)
Definition create (k : string) (v : V) (o : t V) : t V :=
      match array_index k with
      | Some n => insert_index n k v o
      | None => (o ++ [(k, v)])%list
      end.

    (** [o[k] = v] on a table of own data properties. *)
Definition set (k : string) (v : V) (o : t V) : t V :=
      match get k o with
      | Some _ => replace k v o
      | None => create k v o
      end.

End Create.

Arguments insert_index {V} n k v o.
Arguments create {V} k v o.
Arguments set {V} k v o.

End JsObject.

(** ** Data model: the scan result of the engine *)

(** [violation.impact]: a string, [null], or absent. *)
Inductive impact_value : Type :=
| ImpactUndefined
| ImpactNull
| ImpactString (s : string).

(** Truthiness, as [if (violation.impact)] tests it. *)
Definition truthy (i : impact_value) : bool :=
  match i with
  | ImpactString s => negb (String.eqb s "")
  | _ => false
  end.

(** [String(impact)], as a template literal interpolates it. *)
Definition string_of_impact (i : impact_value) : string :=
  match i with
  | ImpactUndefined => "undefined"
  | ImpactNull => "null"
  | ImpactString s => s
  end.

Module AffectedNode.
Record t : Type := mk {
    target : list string;
    html : option string
  }.
End AffectedNode.

Module RuleOutcome.
Record t : Type := mk {
    id : string;
    description : string;
    help : string;
    helpUrl : string;
    impact : impact_value;
    tags : list string;
    nodes : list AffectedNode.t
  }.
End RuleOutcome.

(** The four category keys are optional: [None] is a key that is absent
    (reads as [undefined]), [Some []] is a key holding an empty array. *)
Module ScanResult.
Record t : Type := mk {
    url : string;
    timestamp : string;
    testEngine : option string;
    passes : option (list RuleOutcome.t);
    violations : option (list RuleOutcome.t);
    incomplete : option (list RuleOutcome.t);
    inapplicable : option (list RuleOutcome.t)
  }.

  (** All four category keys are present. *)
Definition has_categories (r : t) : bool :=
    match passes r, violations r, incomplete r, inapplicable r with
    | Some _, Some _, Some _, Some _ => true
    | _, _, _, _ => false
    end.
End ScanResult.

Module Summary.
Record t : Type := mk {
    url : string;
    timestamp : string;
    browser : string;
    totalElements : N;
    passes : N;
    violations : N;
    incomplete : N;
    inapplicable : N;
    violationsByImpact : JsObject.t jsnum
  }.

Definition with_violationsByImpact (o : JsObject.t jsnum) (s : t) : t :=
    mk (url s) (timestamp s) (browser s) (totalElements s) (passes s)
       (violations s) (incomplete s) (inapplicable s) o.
End Summary.

(** ** [generateSummary] *)

(** [xs.length] where [xs] may be [undefined]. *)
Definition length_of {A : Type} (xs : option (list A)) : result N :=
  match xs with
  | Some l => ok (len l)
  | None =>
      throw (TypeError "Cannot read properties of undefined (reading 'length')")
  end.

(** [xs.forEach] where [xs] may be [undefined]; the receiver is returned. *)
Definition array_of {A : Type} (xs : option (list A)) : result (list A) :=
  match xs with
  | Some l => ok l
  | None =>
      throw (TypeError "Cannot read properties of undefined (reading 'forEach')")
  end.

(** [x + 1] on the value read from a slot: an own count, or anything else
    ([undefined], or what [Object.prototype] holds under that name: a
    function or an object), which [ToNumber] turns into [NaN]. *)
Definition plus_one (slot : option jsnum) : jsnum :=
  match slot with
  | Some (Num n) => Num (n + 1)
  | Some NaN => NaN
  | None => NaN
  end.

(** [o[k]++] on an object created by an object literal.  A key that is not
    an own property is created, except ["__proto__"]: that name is an
    accessor of the prototype whose setter ignores a number. *)
Definition increment (k : string) (o : JsObject.t jsnum) : JsObject.t jsnum :=
  match JsObject.get k o with
  | Some v => JsObject.replace k (plus_one (Some v)) o
  | None =>
      if String.eqb k "__proto__" then o
      else JsObject.create k (plus_one None) o
  end.

Definition violationsByImpact0 : JsObject.t jsnum :=
  [("critical", Num 0); ("serious", Num 0); ("moderate", Num 0);
   ("minor", Num 0)].

(** The body of the [forEach] callback. *)
Definition count_impact (vbi : JsObject.t jsnum) (violation : RuleOutcome.t)
  : JsObject.t jsnum :=
  if truthy (RuleOutcome.impact violation)
  then increment (string_of_impact (RuleOutcome.impact violation)) vbi
  else vbi.

(** [generateSummary(results)]; [this_browser] is [this.browser]. *)
Definition generateSummary (this_browser : string) (results : ScanResult.t)
  : result Summary.t :=
  p1 <- length_of (ScanResult.passes results) ;;
  v1 <- length_of (ScanResult.violations results) ;;
  i1 <- length_of (ScanResult.incomplete results) ;;
  n1 <- length_of (ScanResult.inapplicable results) ;;
  p <- length_of (ScanResult.passes results) ;;
  v <- length_of (ScanResult.violations results) ;;
  i <- length_of (ScanResult.incomplete results) ;;
  n <- length_of (ScanResult.inapplicable results) ;;
  let summary :=
    Summary.mk (ScanResult.url results) (ScanResult.timestamp results)
      this_browser (p1 + v1 + i1 + n1) p v i n violationsByImpact0 in
  vs <- array_of (ScanResult.violations results) ;;
  ok (Summary.with_violationsByImpact
        (fold_left count_impact vs (Summary.violationsByImpact summary))
        summary).

(** The four impact levels the summary has a bucket for. *)
Definition recognized_levels : list string :=
  ["critical"; "serious"; "moderate"; "minor"].

Definition recognized (i : impact_value) : bool :=
  match i with
  | ImpactString s => existsb (String.eqb s) recognized_levels
  | _ => false
  end.

(** [a + b] on counter values. *)
Definition jsnum_add (a b : jsnum) : jsnum :=
  match a, b with
  | Num x, Num y => Num (x + y)
  | _, _ => NaN
  end.

(** Reading [o[k]] as a number ([undefined] gives [NaN]). *)
Definition bucket (k : string) (o : JsObject.t jsnum) : jsnum :=
  match JsObject.get k o with
  | Some v => v
  | None => NaN
  end.

(** The sum of the four recognized buckets of a summary. *)
Definition impact_sum (s : Summary.t) : jsnum :=
  let o := Summary.violationsByImpact s in
  jsnum_add (jsnum_add (jsnum_add (bucket "critical" o) (bucket "serious" o))
               (bucket "moderate" o)) (bucket "minor" o).

(** The scan result with its violations replaced. *)
Definition with_violations (vs : list RuleOutcome.t) (r : ScanResult.t)
  : ScanResult.t :=
  ScanResult.mk (ScanResult.url r) (ScanResult.timestamp r)
    (ScanResult.testEngine r) (ScanResult.passes r) (Some vs)
    (ScanResult.incomplete r) (ScanResult.inapplicable r).

(** [violation.impact === k]. *)
Definition has_impact (k : string) (v : RuleOutcome.t) : bool :=
  match RuleOutcome.impact v with
  | ImpactString s => String.eqb s k
  | _ => false
  end.

(** How many of the violations carry the impact [k]. *)
Definition count_level (k : string) (vs : list RuleOutcome.t) : N :=
  len (filter (has_impact k) vs).

(** A rule outcome that carries nothing but an impact. *)
Definition outcome_with_impact (i : impact_value) : RuleOutcome.t :=
  RuleOutcome.mk "rule" "" "" "" i [] [].

(** "A violation whose impact is unrecognized or missing is not reflected in
    any impact bucket of the summary": leaving such a violation out of the
    input leaves [violationsByImpact] as it is. *)
Definition unrecognized_impact_not_reflected : Prop :=
  forall b r vs1 v vs2 s s',
    ScanResult.violations r = Some (vs1 ++ v :: vs2)%list ->
    recognized (RuleOutcome.impact v) = false ->
    generateSummary b r = ok s ->
    generateSummary b (with_violations (vs1 ++ vs2)%list r) = ok s' ->
    Summary.violationsByImpact s = Summary.violationsByImpact s'.

(** The input of the concrete scenario: ten passes, one violation of impact
    "serious" with four affected nodes, nothing incomplete, two inapplicable
    rules. *)
Definition scenario_node : AffectedNode.t := AffectedNode.mk ["#main"] None.

Definition scenario_violation : RuleOutcome.t :=
  RuleOutcome.mk "color-contrast" "" "" "" (ImpactString "serious") []
    (repeat scenario_node 4).

Definition scenario : ScanResult.t :=
  ScanResult.mk "https://example.com/" "2024-01-15T10:30:00.000Z" None
    (Some (repeat (outcome_with_impact ImpactNull) 10))
    (Some [scenario_violation])
    (Some [])
    (Some (repeat (outcome_with_impact ImpactUndefined) 2)).

(** ** The tester object and the platform *)

Module Viewport.
Record t : Type := mk { width : N; height : N }.
End Viewport.

Module AxeOptions.
Record run_only : Type := mk_run_only {
    type : string;
    values : option (list string)
  }.
Record t : Type := mk { runOnly : option run_only }.
End AxeOptions.

(** The fields of an [AccessibilityTester]; [reportDir] is [undefined] until
    [init] has run. *)
Module Tester.
Record t : Type := mk {
    url : string;
    outputDir : string;
    browser : string;
    headed : bool;
    viewport : Viewport.t;
    axeOptions : AxeOptions.t;
    timestamp : string;
    reportDir : option string
  }.
End Tester.

(** What the code takes from the JavaScript platform and from the scan
    engine's package, as functions of their arguments:
    [hostname u] is [new URL(u).hostname], [None] when the constructor throws;
    [Date s] is the time value of [new Date(s)] in milliseconds, [None] for
    an invalid date; [toLocaleString] formats a time value in the locale and
    time zone of the host; [toISOString] is the ISO-8601 text of a valid
    time value; [path_join] is [path.join] on two strings;
    [axeCore_version] is [axeCore.version]. *)
Module Platform.
Record t : Type := mk {
    hostname : string -> option string;
    Date : string -> option Z;
    toLocaleString : option Z -> string;
    toISOString : Z -> string;
    path_join : string -> string -> string;
    axeCore_version : string
  }.
End Platform.

(** [c.toUpperCase()] on the letters a to z; other bytes are kept. *)
Definition upper_ascii (c : ascii) : ascii :=
  let n := nat_of_ascii c in
  if (Nat.leb 97 n && Nat.leb n 122)%bool then ascii_of_nat (n - 32) else c.

Fixpoint toUpperCase (s : string) : string :=
  match s with
  | EmptyString => EmptyString
  | String c s' => String (upper_ascii c) (toUpperCase s')
  end.

(** [s.charAt(0)]. *)
Definition charAt0 (s : string) : string :=
  match s with
  | EmptyString => EmptyString
  | String c _ => String c EmptyString
  end.

(** [s.slice(1)]. *)
Definition slice1 (s : string) : string :=
  match s with
  | EmptyString => EmptyString
  | String _ s' => s'
  end.

(** [String(o[k])] for a slot of a counter table. *)
Definition string_of_slot (slot : option jsnum) : string :=
  match slot with
  | Some x => string_of_jsnum x
  | None => "undefined"
  end.

(** [this.axeOptions.runOnly?.values?.join(", ") || "All"]. *)
Definition rules_applied (o : AxeOptions.t) : string :=
  match AxeOptions.runOnly o with
  | Some ro =>
      match AxeOptions.values ro with
      | Some vs => if String.eqb (join ", " vs) "" then "All" else join ", " vs
      | None => "All"
      end
  | None => "All"
  end.

(** ** The HTML report of the Playwright tool *)

(** [nodes.slice(0, 3).map(node => node.target.join(" "))]: the selectors of
    the affected nodes that are listed. *)
Definition shown_targets (nodes : list AffectedNode.t) : list string :=
  map (fun node => join " " (AffectedNode.target node)) (slice0 3 nodes).

(** The suffix that tells how many affected nodes are not listed:
    [violation.nodes.length > 3 ? `...` : ""]. *)
Definition more_indicator (nodes : list AffectedNode.t) : string :=
  if N.ltb 3 (len nodes)
  then "<br>... and " ++ string_of_N (len nodes - 3) ++ " more"
  else "".

(** The static text of the block of affected elements: before the listed
    selectors, between them and the indicator, and after the indicator. *)
Definition affected_opening : string :=
  "
                            <div class=" ++ dq ++ "affected-elements" ++ dq ++ ">
                                ".

Definition affected_middle : string :=
  "
                                ".

Definition affected_closing : string :=
  "
                            </div>
                        ".

(** The block of affected elements of a violation:
    [violation.nodes.length > 0 ? `...` : ""]. *)
Definition affected_elements (violation : RuleOutcome.t) : string :=
  if N.ltb 0 (len (RuleOutcome.nodes violation))
  then affected_opening
       ++ join "<br>" (shown_targets (RuleOutcome.nodes violation))
       ++ affected_middle
       ++ more_indicator (RuleOutcome.nodes violation)
       ++ affected_closing
  else "".

(** The detail block of one violation, the body of the [map] callback. *)
Definition violation_block (violation : RuleOutcome.t) : string :=
  "
                <div class=" ++ dq ++ "violation" ++ dq ++ ">
                    <div class=" ++ dq ++ "violation-header" ++ dq ++ ">
                        <div class=" ++ dq ++ "violation-title" ++ dq ++ ">"
  ++ RuleOutcome.help violation
  ++ "</div>
                        <span class=" ++ dq ++ "violation-impact "
  ++ string_of_impact (RuleOutcome.impact violation)
  ++ dq ++ ">"
  ++ string_of_impact (RuleOutcome.impact violation)
  ++ "</span>
                    </div>
                    <div class=" ++ dq ++ "violation-description" ++ dq ++ ">
                        "
  ++ RuleOutcome.description violation
  ++ "
                    </div>
                    <div class=" ++ dq ++ "violation-details" ++ dq ++ ">
                        <strong>Rule ID:</strong> "
  ++ RuleOutcome.id violation
  ++ "<br>
                        <strong>WCAG:</strong> "
  ++ join ", " (RuleOutcome.tags violation)
  ++ "<br>
                        <strong>Elements Affected:</strong> "
  ++ string_of_N (len (RuleOutcome.nodes violation))
  ++ "
                        "
  ++ affected_elements violation
  ++ "
                        <a href=" ++ dq
  ++ RuleOutcome.helpUrl violation
  ++ dq ++ " target=" ++ dq ++ "_blank" ++ dq ++ " class=" ++ dq ++ "help-link" ++ dq ++ ">
                            Learn more about this issue →
                        </a>
                    </div>
                </div>
            ".

(** The branch rendered when [summary.violations > 0]: the impact table and
    one detail block per violation. *)
Definition violations_section (summary : Summary.t)
  (violations : list RuleOutcome.t) : string :=
  "
        <div class=" ++ dq ++ "impact-summary" ++ dq ++ ">
            <h2>Violations by Impact Level</h2>
            <div class=" ++ dq ++ "impact-grid" ++ dq ++ ">
                <div class=" ++ dq ++ "impact-item critical" ++ dq ++ ">
                    Critical: "
  ++ string_of_slot (JsObject.get "critical" (Summary.violationsByImpact summary))
  ++ "
                </div>
                <div class=" ++ dq ++ "impact-item serious" ++ dq ++ ">
                    Serious: "
  ++ string_of_slot (JsObject.get "serious" (Summary.violationsByImpact summary))
  ++ "
                </div>
                <div class=" ++ dq ++ "impact-item moderate" ++ dq ++ ">
                    Moderate: "
  ++ string_of_slot (JsObject.get "moderate" (Summary.violationsByImpact summary))
  ++ "
                </div>
                <div class=" ++ dq ++ "impact-item minor" ++ dq ++ ">
                    Minor: "
  ++ string_of_slot (JsObject.get "minor" (Summary.violationsByImpact summary))
  ++ "
                </div>
            </div>
        </div>

        <div class=" ++ dq ++ "violations-section" ++ dq ++ ">
            <h2>Violation Details</h2>
            "
  ++ join "" (map violation_block violations)
  ++ "
        </div>
        ".

(** The branch rendered when there is no violation. *)
Definition no_violations_notice : string :=
  "
        <div class=" ++ dq ++ "impact-summary" ++ dq ++ ">
            <h2 style=" ++ dq ++ "color: #10b981; text-align: center;" ++ dq ++ ">✅ No accessibility violations found!</h2>
        </div>
        ".

(** The document, given the values the template reads: [host] is
    [new URL(this.url).hostname]. *)
Definition html_document (P : Platform.t) (this : Tester.t) (host : string)
  (summary : Summary.t) (violations : list RuleOutcome.t) : string :=
  "<!DOCTYPE html>
<html lang=" ++ dq ++ "en" ++ dq ++ ">
<head>
    <meta charset=" ++ dq ++ "UTF-8" ++ dq ++ ">
    <meta name=" ++ dq ++ "viewport" ++ dq ++ " content=" ++ dq ++ "width=device-width, initial-scale=1.0" ++ dq ++ ">
    <title>Accessibility Report - "
  ++ host
  ++ "</title>
    <style>
        * { margin: 0; padding: 0; box-sizing: border-box; }
        body {
            font-family: -apple-system, BlinkMacSystemFont, 'Segoe UI', Roboto, Oxygen, Ubuntu, sans-serif;
            line-height: 1.6;
            color: #333;
            background: #f5f5f5;
        }
        .container {
            max-width: 1200px;
            margin: 0 auto;
            padding: 20px;
        }
        header {
            background: linear-gradient(135deg, #667eea 0%, #764ba2 100%);
            color: white;
            padding: 30px 0;
            margin-bottom: 30px;
            border-radius: 10px;
        }
        h1 {
            text-align: center;
            font-size: 2.5em;
            margin-bottom: 10px;
        }
        .header-info {
            text-align: center;
            opacity: 0.9;
        }
        .browser-info {
            text-align: center;
            margin-top: 10px;
            font-size: 1.1em;
        }
        .summary {
            display: grid;
            grid-template-columns: repeat(auto-fit, minmax(200px, 1fr));
            gap: 20px;
            margin-bottom: 40px;
        }
        .stat-card {
            background: white;
            padding: 20px;
            border-radius: 10px;
            box-shadow: 0 2px 10px rgba(0,0,0,0.1);
            text-align: center;
            transition: transform 0.3s;
        }
        .stat-card:hover {
            transform: translateY(-5px);
        }
        .stat-number {
            font-size: 2.5em;
            font-weight: bold;
            margin-bottom: 10px;
        }
        .stat-label {
            color: #666;
            font-size: 0.9em;
            text-transform: uppercase;
            letter-spacing: 1px;
        }
        .passes { color: #10b981; }
        .violations { color: #ef4444; }
        .incomplete { color: #f59e0b; }
        .inapplicable { color: #6b7280; }
        .impact-summary {
            background: white;
            padding: 30px;
            border-radius: 10px;
            margin-bottom: 40px;
            box-shadow: 0 2px 10px rgba(0,0,0,0.1);
        }
        .impact-grid {
            display: grid;
            grid-template-columns: repeat(auto-fit, minmax(150px, 1fr));
            gap: 15px;
            margin-top: 20px;
        }
        .impact-item {
            padding: 15px;
            border-radius: 8px;
            text-align: center;
            font-weight: bold;
        }
        .critical { background: #fee2e2; color: #991b1b; }
        .serious { background: #fed7aa; color: #c2410c; }
        .moderate { background: #fef3c7; color: #d97706; }
        .minor { background: #dbeafe; color: #1e40af; }
        .violations-section {
            background: white;
            padding: 30px;
            border-radius: 10px;
            box-shadow: 0 2px 10px rgba(0,0,0,0.1);
        }
        .violation {
            border-left: 4px solid #ef4444;
            padding: 20px;
            margin: 20px 0;
            background: #fef2f2;
            border-radius: 0 8px 8px 0;
        }
        .violation-header {
            display: flex;
            justify-content: space-between;
            align-items: center;
            margin-bottom: 15px;
        }
        .violation-title {
            font-size: 1.2em;
            font-weight: bold;
            color: #1f2937;
        }
        .violation-impact {
            padding: 5px 12px;
            border-radius: 20px;
            font-size: 0.85em;
            font-weight: bold;
            text-transform: uppercase;
        }
        .violation-description {
            color: #4b5563;
            margin-bottom: 15px;
            line-height: 1.6;
        }
        .violation-details {
            margin-top: 15px;
            padding-top: 15px;
            border-top: 1px solid #e5e7eb;
        }
        .affected-elements {
            background: white;
            padding: 10px;
            border-radius: 5px;
            margin-top: 10px;
            font-family: 'Courier New', monospace;
            font-size: 0.9em;
            overflow-x: auto;
        }
        .help-link {
            display: inline-block;
            margin-top: 10px;
            color: #3b82f6;
            text-decoration: none;
            font-weight: 500;
        }
        .help-link:hover {
            text-decoration: underline;
        }
        .screenshot-section {
            margin-top: 40px;
            background: white;
            padding: 30px;
            border-radius: 10px;
            box-shadow: 0 2px 10px rgba(0,0,0,0.1);
        }
        .screenshot-img {
            width: 100%;
            border-radius: 8px;
            border: 1px solid #e5e7eb;
        }
        footer {
            text-align: center;
            margin-top: 40px;
            padding: 20px;
            color: #6b7280;
        }
        .test-info {
            background: #f3f4f6;
            padding: 15px;
            border-radius: 8px;
            margin-top: 20px;
        }
        .test-info-item {
            display: flex;
            justify-content: space-between;
            margin: 5px 0;
        }
        .test-info-label {
            font-weight: bold;
            color: #4b5563;
        }
    </style>
</head>
<body>
    <div class=" ++ dq ++ "container" ++ dq ++ ">
        <header>
            <h1>Accessibility Report</h1>
            <div class=" ++ dq ++ "header-info" ++ dq ++ ">
                <p>"
  ++ host
  ++ "</p>
                <p>"
  ++ Platform.toLocaleString P (Platform.Date P (Summary.timestamp summary))
  ++ "</p>
                <div class=" ++ dq ++ "browser-info" ++ dq ++ ">
                    🖥️ Browser: "
  ++ (toUpperCase (charAt0 (Tester.browser this)) ++ slice1 (Tester.browser this))
  ++ "
                </div>
            </div>
        </header>

        <div class=" ++ dq ++ "summary" ++ dq ++ ">
            <div class=" ++ dq ++ "stat-card" ++ dq ++ ">
                <div class=" ++ dq ++ "stat-number passes" ++ dq ++ ">"
  ++ string_of_N (Summary.passes summary)
  ++ "</div>
                <div class=" ++ dq ++ "stat-label" ++ dq ++ ">Passed</div>
            </div>
            <div class=" ++ dq ++ "stat-card" ++ dq ++ ">
                <div class=" ++ dq ++ "stat-number violations" ++ dq ++ ">"
  ++ string_of_N (Summary.violations summary)
  ++ "</div>
                <div class=" ++ dq ++ "stat-label" ++ dq ++ ">Violations</div>
            </div>
            <div class=" ++ dq ++ "stat-card" ++ dq ++ ">
                <div class=" ++ dq ++ "stat-number incomplete" ++ dq ++ ">"
  ++ string_of_N (Summary.incomplete summary)
  ++ "</div>
                <div class=" ++ dq ++ "stat-label" ++ dq ++ ">Incomplete</div>
            </div>
            <div class=" ++ dq ++ "stat-card" ++ dq ++ ">
                <div class=" ++ dq ++ "stat-number inapplicable" ++ dq ++ ">"
  ++ string_of_N (Summary.inapplicable summary)
  ++ "</div>
                <div class=" ++ dq ++ "stat-label" ++ dq ++ ">Not Applicable</div>
            </div>
        </div>

        "
  ++ (if N.ltb 0 (Summary.violations summary)
      then violations_section summary violations
      else no_violations_notice)
  ++ "

        <div class=" ++ dq ++ "test-info" ++ dq ++ ">
            <h3>Test Configuration</h3>
            <div class=" ++ dq ++ "test-info-item" ++ dq ++ ">
                <span class=" ++ dq ++ "test-info-label" ++ dq ++ ">Test Engine:</span>
                <span>axe-core "
  ++ Platform.axeCore_version P
  ++ "</span>
            </div>
            <div class=" ++ dq ++ "test-info-item" ++ dq ++ ">
                <span class=" ++ dq ++ "test-info-label" ++ dq ++ ">Test Framework:</span>
                <span>Playwright with axe-playwright</span>
            </div>
            <div class=" ++ dq ++ "test-info-item" ++ dq ++ ">
                <span class=" ++ dq ++ "test-info-label" ++ dq ++ ">Browser:</span>
                <span>"
  ++ Tester.browser this
  ++ "</span>
            </div>
            <div class=" ++ dq ++ "test-info-item" ++ dq ++ ">
                <span class=" ++ dq ++ "test-info-label" ++ dq ++ ">Viewport:</span>
                <span>"
  ++ string_of_N (Viewport.width (Tester.viewport this))
  ++ " x "
  ++ string_of_N (Viewport.height (Tester.viewport this))
  ++ "</span>
            </div>
            <div class=" ++ dq ++ "test-info-item" ++ dq ++ ">
                <span class=" ++ dq ++ "test-info-label" ++ dq ++ ">Rules Applied:</span>
                <span>"
  ++ rules_applied (Tester.axeOptions this)
  ++ "</span>
            </div>
        </div>

        <div class=" ++ dq ++ "screenshot-section" ++ dq ++ ">
            <h2>Page Screenshot</h2>
            <img src=" ++ dq ++ "screenshot.png" ++ dq ++ " alt=" ++ dq ++ "Screenshot of tested page" ++ dq ++ " class=" ++ dq ++ "screenshot-img" ++ dq ++ ">
        </div>

        <footer>
            <p>Generated with axe-core "
  ++ Platform.axeCore_version P
  ++ " and Playwright</p>
        </footer>
    </div>
</body>
</html>".

(** [new URL(u).hostname]. *)
Definition hostname_of (P : Platform.t) (u : string) : result string :=
  match Platform.hostname P u with
  | Some h => ok h
  | None => throw (TypeError "Invalid URL")
  end.

(** [results.violations.map] where [violations] may be [undefined]. *)
Definition mapped_array_of {A : Type} (xs : option (list A)) : result (list A) :=
  match xs with
  | Some l => ok l
  | None =>
      throw (TypeError "Cannot read properties of undefined (reading 'map')")
  end.

(** The evaluation of the template literal of [generateHTMLReport]. *)
Definition html_template (P : Platform.t) (this : Tester.t)
  (summary : Summary.t) (results : ScanResult.t) : result string :=
  host <- hostname_of P (Tester.url this) ;;
  violations <- (if N.ltb 0 (Summary.violations summary)
                 then mapped_array_of (ScanResult.violations results)
                 else ok []) ;;
  ok (html_document P this host summary violations).

(** The text that [generateHTMLReport(results)] writes to [report.html]. *)
Definition generateHTMLReport_html (P : Platform.t) (this : Tester.t)
  (results : ScanResult.t) : result string :=
  summary <- generateSummary (Tester.browser this) results ;;
  html_template P this summary results.


(** ** JSON text *)

(** The backslash character. *)
Definition backslash : string := String (ascii_of_nat 92) EmptyString.

Module Json.

(** The values [JSON.stringify] meets in a report: a property whose value is
    [undefined] is left out when the value is built, so it has no constructor
    here.  Strings are sequences of bytes (the UTF-8 text of the file). *)
#[local] Unset Elimination Schemes.
Inductive value : Type :=
| VNull
| VBool (b : bool)
| VNumber (x : jsnum)
| VString (s : string)
| VArray (xs : list value)
| VObject (members : list (string * value)).
#[local] Set Elimination Schemes.

Definition hex_digit (n : nat) : ascii :=
  if Nat.ltb n 10 then ascii_of_nat (48 + n) else ascii_of_nat (87 + n).

(** One character of [QuoteJSONString]. *)
Definition escape_char (c : ascii) : string :=
  let n := nat_of_ascii c in
  if Nat.eqb n 8 then backslash ++ "b"
  else if Nat.eqb n 9 then backslash ++ "t"
  else if Nat.eqb n 10 then backslash ++ "n"
  else if Nat.eqb n 12 then backslash ++ "f"
  else if Nat.eqb n 13 then backslash ++ "r"
  else if Nat.eqb n 34 then backslash ++ dq
  else if Nat.eqb n 92 then backslash ++ backslash
  else if Nat.ltb n 32
       then backslash ++ "u00"
            ++ String (hex_digit (n / 16)) (String (hex_digit (n mod 16)) "")
       else String c "".

Fixpoint escape (s : string) : string :=
  match s with
  | EmptyString => EmptyString
  | String c s' => escape_char c ++ escape s'
  end.

(** [QuoteJSONString]. *)
Definition quote (s : string) : string := dq ++ escape s ++ dq.

Fixpoint spaces (n : nat) : string :=
  match n with
  | O => EmptyString
  | S n' => String " " (spaces n')
  end.

(** The separator between the items of a non-empty array or object whose
    items are indented by [indent] spaces. *)
Definition separator (indent : nat) : string := "," ++ nl ++ spaces indent.

(** [SerializeJSONProperty] with a gap of two spaces; [indent] is the
    indentation of the line the value starts on. *)
Fixpoint serialize (indent : nat) (v : value) : string :=
  match v with
  | VNull => "null"
  | VBool true => "true"
  | VBool false => "false"
  | VNumber (Num n) => string_of_N n
  | VNumber NaN => "null"
  | VString s => quote s
  | VArray [] => "[]"
  | VArray xs =>
      "[" ++ nl ++ spaces (indent + 2)
      ++ join (separator (indent + 2)) (map (serialize (indent + 2)) xs)
      ++ nl ++ spaces indent ++ "]"
  | VObject [] => "{}"
  | VObject members =>
      "{" ++ nl ++ spaces (indent + 2)
      ++ join (separator (indent + 2))
           (map (fun m => quote (fst m) ++ ": " ++ serialize (indent + 2) (snd m))
              members)
      ++ nl ++ spaces indent ++ "}"
  end.

(** [JSON.stringify(v, null, 2)]. *)
Definition stringify (v : value) : string := serialize 0 v.

(** *** Reading JSON text

    [JSON.parse] on the texts of the data model: the numbers it reads are the
    non-negative integers in decimal notation (a fraction, an exponent or a
    sign is refused), and an escape [\uXXXX] is read when it denotes a
    single byte (below 0080). *)

Definition is_whitespace (c : ascii) : bool :=
  let n := nat_of_ascii c in
  (Nat.eqb n 32 || Nat.eqb n 10 || Nat.eqb n 13 || Nat.eqb n 9)%bool.

Fixpoint skip_whitespace (s : string) : string :=
  match s with
  | EmptyString => EmptyString
  | String c s' => if is_whitespace c then skip_whitespace s' else s
  end.

Definition is_digit (c : ascii) : bool :=
  let n := nat_of_ascii c in (Nat.leb 48 n && Nat.leb n 57)%bool.

(** The longest prefix of digits, and what follows it. *)
Fixpoint span_digits (s : string) : string * string :=
  match s with
  | EmptyString => (EmptyString, EmptyString)
  | String c s' =>
      if is_digit c
      then (String c (fst (span_digits s')), snd (span_digits s'))
      else (EmptyString, s)
  end.

(** Does a fraction or an exponent follow? *)
Definition continues_number (s : string) : bool :=
  match s with
  | EmptyString => false
  | String c _ =>
      let n := nat_of_ascii c in
      (Nat.eqb n 46 || Nat.eqb n 101 || Nat.eqb n 69)%bool
  end.

Definition parse_number (s : string) : option (value * string) :=
  match N_of_string (fst (span_digits s)) with
  | Some n =>
      if (String.eqb (string_of_N n) (fst (span_digits s))
          && negb (continues_number (snd (span_digits s))))%bool
      then Some (VNumber (Num n), snd (span_digits s))
      else None
  | None => None
  end.

(** [s] without the prefix [p], when it starts with [p]. *)
Fixpoint strip_prefix (p s : string) : option string :=
  match p with
  | EmptyString => Some s
  | String c p' =>
      match s with
      | EmptyString => None
      | String d s' => if Ascii.eqb c d then strip_prefix p' s' else None
      end
  end.

Definition hex_value (c : ascii) : option nat :=
  let n := nat_of_ascii c in
  if (Nat.leb 48 n && Nat.leb n 57)%bool then Some (n - 48)
  else if (Nat.leb 97 n && Nat.leb n 102)%bool then Some (n - 87)
  else if (Nat.leb 65 n && Nat.leb n 70)%bool then Some (n - 55)
  else None.

(** The character a two-character escape stands for. *)
Definition unescape (c : ascii) : option ascii :=
  let n := nat_of_ascii c in
  if Nat.eqb n 34 then Some c
  else if Nat.eqb n 92 then Some c
  else if Nat.eqb n 47 then Some c
  else if Nat.eqb n 98 then Some (ascii_of_nat 8)
  else if Nat.eqb n 102 then Some (ascii_of_nat 12)
  else if Nat.eqb n 110 then Some (ascii_of_nat 10)
  else if Nat.eqb n 114 then Some (ascii_of_nat 13)
  else if Nat.eqb n 116 then Some (ascii_of_nat 9)
  else None.

Definition code_unit (h1 h2 h3 h4 : ascii) : option ascii :=
  match hex_value h1, hex_value h2, hex_value h3, hex_value h4 with
  | Some a, Some b, Some c, Some d =>
      let n := (((a * 16 + b) * 16 + c) * 16 + d)%nat in
      if Nat.ltb n 128 then Some (ascii_of_nat n) else None
  | _, _, _, _ => None
  end.

Definition cons_char (c : ascii) (r : option (string * string))
  : option (string * string) :=
  match r with
  | Some (s, rest) => Some (String c s, rest)
  | None => None
  end.

(** The characters of a string literal after its opening quote, up to the
    closing quote, and what follows it. *)
Fixpoint parse_chars (s : string) : option (string * string) :=
  match s with
  | EmptyString => None
  | String c s' =>
      if Nat.eqb (nat_of_ascii c) 34 then Some (EmptyString, s')
      else if Nat.eqb (nat_of_ascii c) 92 then
        match s' with
        | EmptyString => None
        | String e s'' =>
            if Nat.eqb (nat_of_ascii e) 117 then
              match s'' with
              | String h1 (String h2 (String h3 (String h4 s4))) =>
                  match code_unit h1 h2 h3 h4 with
                  | Some x => cons_char x (parse_chars s4)
                  | None => None
                  end
              | _ => None
              end
            else
              match unescape e with
              | Some x => cons_char x (parse_chars s'')
              | None => None
              end
        end
      else if Nat.ltb (nat_of_ascii c) 32 then None
      else cons_char c (parse_chars s')
  end.

(** [CreateDataProperty] for each member in the order of the text. *)
Definition rebuild (members : list (string * value)) : list (string * value) :=
  fold_left (fun o m => JsObject.set (fst m) (snd m) o) members [].

Definition literal (word : string) (v : value) (s : string)
  : option (value * string) :=
  match strip_prefix word s with
  | Some rest => Some (v, rest)
  | None => None
  end.

Fixpoint parse_value (fuel : nat) (s : string) : option (value * string) :=
  match fuel with
  | O => None
  | S fuel' =>
      match skip_whitespace s with
      | EmptyString => None
      | String c s' =>
          let n := nat_of_ascii c in
          if Nat.eqb n 110 then literal "ull" VNull s'
          else if Nat.eqb n 116 then literal "rue" (VBool true) s'
          else if Nat.eqb n 102 then literal "alse" (VBool false) s'
          else if Nat.eqb n 34 then
            match parse_chars s' with
            | Some (x, rest) => Some (VString x, rest)
            | None => None
            end
          else if Nat.eqb n 91 then
            match strip_prefix "]" (skip_whitespace s') with
            | Some rest => Some (VArray [], rest)
            | None =>
                match parse_elements fuel' s' with
                | Some (xs, rest) => Some (VArray xs, rest)
                | None => None
                end
            end
          else if Nat.eqb n 123 then
            match strip_prefix "}" (skip_whitespace s') with
            | Some rest => Some (VObject [], rest)
            | None =>
                match parse_members fuel' s' with
                | Some (ms, rest) => Some (VObject (rebuild ms), rest)
                | None => None
                end
            end
          else if is_digit c then parse_number (String c s')
          else None
      end
  end
with parse_elements (fuel : nat) (s : string) : option (list value * string) :=
  match fuel with
  | O => None
  | S fuel' =>
      match parse_value fuel' s with
      | Some (x, rest) =>
          match skip_whitespace rest with
          | String c rest' =>
              if Nat.eqb (nat_of_ascii c) 44 then
                match parse_elements fuel' rest' with
                | Some (xs, rest'') => Some (x :: xs, rest'')
                | None => None
                end
              else if Nat.eqb (nat_of_ascii c) 93 then Some ([x], rest')
              else None
          | EmptyString => None
          end
      | None => None
      end
  end
with parse_members (fuel : nat) (s : string)
  : option (list (string * value) * string) :=
  match fuel with
  | O => None
  | S fuel' =>
      match strip_prefix dq (skip_whitespace s) with
      | Some s1 =>
          match parse_chars s1 with
          | Some (k, s2) =>
              match strip_prefix ":" (skip_whitespace s2) with
              | Some s3 =>
                  match parse_value fuel' s3 with
                  | Some (x, rest) =>
                      match skip_whitespace rest with
                      | String c rest' =>
                          if Nat.eqb (nat_of_ascii c) 44 then
                            match parse_members fuel' rest' with
                            | Some (ms, rest'') => Some ((k, x) :: ms, rest'')
                            | None => None
                            end
                          else if Nat.eqb (nat_of_ascii c) 125
                               then Some ([(k, x)], rest')
                               else None
                      | EmptyString => None
                      end
                  | None => None
                  end
              | None => None
              end
          | None => None
          end
      | None => None
      end
  end.

(** [JSON.parse(s)]: one value, then nothing but white space. *)
Definition parse (s : string) : option value :=
  match parse_value (String.length s) s with
  | Some (v, rest) =>
      if String.eqb (skip_whitespace rest) "" then Some v else None
  | None => None
  end.

(** What reading the text of a value gives back: [NaN] was written as
    [null], and an object is built again member by member. *)
Fixpoint normalize (v : value) : value :=
  match v with
  | VNumber NaN => VNull
  | VArray xs => VArray (map normalize xs)
  | VObject ms => VObject (rebuild (map (fun m => (fst m, normalize (snd m))) ms))
  | _ => v
  end.

(** The order in which an object lists its keys: array indices first, in
    ascending order, then the other names, no key twice. *)
Definition key_before (k1 k2 : string) : bool :=
  match JsObject.array_index k1, JsObject.array_index k2 with
  | Some n1, Some n2 => N.ltb n1 n2
  | Some _, None => true
  | None, Some _ => false
  | None, None => negb (String.eqb k1 k2)
  end.

Fixpoint ordered (ks : list string) : bool :=
  match ks with
  | [] => true
  | k :: ks' => (forallb (key_before k) ks' && ordered ks')%bool
  end.

(** A value all of whose objects list their keys in that order. *)
Fixpoint well_formed (v : value) : bool :=
  match v with
  | VArray xs => forallb well_formed xs
  | VObject ms =>
      (ordered (map fst ms) && forallb (fun m => well_formed (snd m)) ms)%bool
  | _ => true
  end.

(** The number of values in a value: enough fuel to read its text. *)
Fixpoint size (v : value) : nat :=
  match v with
  | VArray xs => S (List.length xs + list_sum (map size xs))
  | VObject ms => S (List.length ms + list_sum (map (fun m => size (snd m)) ms))
  | _ => 1
  end.

End Json.

(** ** The JSON report *)

Module Report.
Record t : Type := mk {
  summary : Summary.t;
  results : ScanResult.t
}.
End Report.

(** The values of the objects of a report, property by property; an absent
    property ([undefined]) is left out, as [JSON.stringify] leaves it out. *)
Definition optional_member (k : string) (v : option Json.value)
  : list (string * Json.value) :=
  match v with
  | Some x => [(k, x)]
  | None => []
  end.

Definition value_of_strings (xs : list string) : Json.value :=
  Json.VArray (map Json.VString xs).

Definition value_of_impact (i : impact_value) : option Json.value :=
  match i with
  | ImpactUndefined => None
  | ImpactNull => Some Json.VNull
  | ImpactString s => Some (Json.VString s)
  end.

Definition value_of_node (n : AffectedNode.t) : Json.value :=
  Json.VObject
    ([("target", value_of_strings (AffectedNode.target n))]
     ++ optional_member "html" (option_map Json.VString (AffectedNode.html n))).

Definition value_of_outcome (o : RuleOutcome.t) : Json.value :=
  Json.VObject
    ([("id", Json.VString (RuleOutcome.id o));
      ("description", Json.VString (RuleOutcome.description o));
      ("help", Json.VString (RuleOutcome.help o));
      ("helpUrl", Json.VString (RuleOutcome.helpUrl o))]
     ++ optional_member "impact" (value_of_impact (RuleOutcome.impact o))
     ++ [("tags", value_of_strings (RuleOutcome.tags o));
         ("nodes", Json.VArray (map value_of_node (RuleOutcome.nodes o)))]).

Definition value_of_outcomes (xs : option (list RuleOutcome.t))
  : option Json.value :=
  option_map (fun l => Json.VArray (map value_of_outcome l)) xs.

Definition value_of_testEngine (v : option string) : option Json.value :=
  option_map (fun s => Json.VObject [("version", Json.VString s)]) v.

Definition value_of_results (r : ScanResult.t) : Json.value :=
  Json.VObject
    ([("url", Json.VString (ScanResult.url r));
      ("timestamp", Json.VString (ScanResult.timestamp r))]
     ++ optional_member "testEngine" (value_of_testEngine (ScanResult.testEngine r))
     ++ optional_member "passes" (value_of_outcomes (ScanResult.passes r))
     ++ optional_member "violations" (value_of_outcomes (ScanResult.violations r))
     ++ optional_member "incomplete" (value_of_outcomes (ScanResult.incomplete r))
     ++ optional_member "inapplicable"
          (value_of_outcomes (ScanResult.inapplicable r))).

Definition value_of_counters (o : JsObject.t jsnum) : Json.value :=
  Json.VObject (map (fun m => (fst m, Json.VNumber (snd m))) o).

Definition value_of_summary (s : Summary.t) : Json.value :=
  Json.VObject
    [("url", Json.VString (Summary.url s));
     ("timestamp", Json.VString (Summary.timestamp s));
     ("browser", Json.VString (Summary.browser s));
     ("totalElements", Json.VNumber (Num (Summary.totalElements s)));
     ("passes", Json.VNumber (Num (Summary.passes s)));
     ("violations", Json.VNumber (Num (Summary.violations s)));
     ("incomplete", Json.VNumber (Num (Summary.incomplete s)));
     ("inapplicable", Json.VNumber (Num (Summary.inapplicable s)));
     ("violationsByImpact", value_of_counters (Summary.violationsByImpact s))].

Definition value_of_report (r : Report.t) : Json.value :=
  Json.VObject
    [("summary", value_of_summary (Report.summary r));
     ("results", value_of_results (Report.results r))].

(** The object [{ summary: this.generateSummary(results), results: results }]
    that [generateJSONReport] builds, and the text it writes. *)
Definition build_report (this_browser : string) (results : ScanResult.t)
  : result Report.t :=
  summary <- generateSummary this_browser results ;;
  ok (Report.mk summary results).

Definition report_text (r : Report.t) : string :=
  Json.stringify (value_of_report r).

(** ** The world outside: browser driver, scan engine, file system, clock *)

Inductive engine : Type := chromium | firefox | webkit | chrome.

(** The calls into the collaborators. *)
Inductive call : Type :=
| fs_mkdir (path : string)
| fs_writeFile (path : string)
| engine_launch (e : engine)
| browser_newContext
| context_newPage
| page_goto (url : string)
| page_screenshot (path : string)
| page_evaluate_source
| injectAxe
| getViolations
| page_evaluate_run
| browser_url (url : string)
| axeBuilder_analyze.

(** How the collaborators behave during a run.  [fault label c] is the
    message of the error that call [c] raises while the engine named [label]
    is being tested, [None] when the call returns; [scan label] is what the
    scan resolves to and [found label] what [getViolations] resolves to;
    [clock n] is the time value of the [n]-th evaluation of [new Date()]. *)
Module Env.
Record t : Type := mk {
  fault : string -> call -> option string;
  scan : string -> ScanResult.t;
  found : string -> list RuleOutcome.t;
  clock : nat -> Z
}.
End Env.

(** What the run changes outside: the clock readings it consumed, the
    browser sessions it acquired ([launched] counts them, [open_sessions]
    lists the handles not closed yet), the directories it created and the
    files it wrote (latest first). *)
Module World.
Record t : Type := mk {
  clock_reads : nat;
  launched : nat;
  open_sessions : list nat;
  directories : list string;
  files : list (string * string)
}.

Definition initial : t := mk 0 0 [] [] [].
End World.

(** [xs] without the first occurrence of [h]. *)
Fixpoint remove_first (h : nat) (xs : list nat) : list nat :=
  match xs with
  | [] => []
  | x :: xs' => if Nat.eqb h x then xs' else x :: remove_first h xs'
  end.

(** ** Computations that change a state and may throw *)

Definition M (S A : Type) : Type := S -> S * result A.

Definition ret {S A : Type} (a : A) : M S A := fun s => (s, ok a).

Definition raise {S A : Type} (e : error) : M S A := fun s => (s, throw e).

Definition bind {S A B : Type} (m : M S A) (k : A -> M S B) : M S B :=
  fun s =>
    match m s with
    | (s', inr a) => k a s'
    | (s', inl e) => (s', inl e)
    end.

(** [try { m } catch (error) { handler error }]. *)
Definition try_catch {S A : Type} (m : M S A) (handler : error -> M S A)
  : M S A :=
  fun s =>
    match m s with
    | (s', inl e) => handler e s'
    | (s', inr a) => (s', inr a)
    end.

(** [try { m } finally { cleanup }]. *)
Definition try_finally {S A : Type} (m : M S A) (cleanup : M S unit) : M S A :=
  fun s =>
    match m s with
    | (s', r) =>
        match cleanup s' with
        | (s'', inr _) => (s'', r)
        | (s'', inl e) => (s'', inl e)
        end
    end.

(** A value or exception computed without touching the state. *)
Definition lift {S A : Type} (r : result A) : M S A := fun s => (s, r).

Declare Scope run_scope.
Delimit Scope run_scope with run.
Notation "x <- m ;; k" := (bind m (fun x => k))
  (at level 100, m at next level, right associativity) : run_scope.
Notation "m ;;; k" := (bind m (fun _ => k))
  (at level 100, right associativity) : run_scope.

(** *** Actions on the world *)

Section WorldActions.
Variable E : Env.t.

(** A call that returns nothing of interest. *)
Definition external (label : string) (c : call) : M World.t unit :=
  fun w =>
    match Env.fault E label c with
    | Some message => (w, throw (ExternalError message))
    | None => (w, ok tt)
    end.

(** [new Date()]: the next reading of the clock. *)
Definition new_Date : M World.t Z :=
  fun w =>
    (World.mk (S (World.clock_reads w)) (World.launched w)
       (World.open_sessions w) (World.directories w) (World.files w),
     ok (Env.clock E (World.clock_reads w))).

(** Acquiring a browser session: [chromium.launch], [remote] and the like. *)
Definition acquire (label : string) (e : engine) : M World.t nat :=
  fun w =>
    match Env.fault E label (engine_launch e) with
    | Some message => (w, throw (ExternalError message))
    | None =>
        (World.mk (World.clock_reads w) (S (World.launched w))
           (World.launched w :: World.open_sessions w) (World.directories w)
           (World.files w),
         ok (World.launched w))
    end.

(** Releasing it: [browser.close()], [browser.deleteSession()].  The call is
    the release itself: it closes the session and returns. *)
Definition release (handle : nat) : M World.t unit :=
  fun w =>
    (World.mk (World.clock_reads w) (World.launched w)
       (remove_first handle (World.open_sessions w)) (World.directories w)
       (World.files w),
     ok tt).

(** [fs.mkdir(path, { recursive: true })]. *)
Definition mkdir (label : string) (path : string) : M World.t unit :=
  fun w =>
    match Env.fault E label (fs_mkdir path) with
    | Some message => (w, throw (ExternalError message))
    | None =>
        (World.mk (World.clock_reads w) (World.launched w)
           (World.open_sessions w) (path :: World.directories w)
           (World.files w),
         ok tt)
    end.

(** [fs.writeFile(path, content)]. *)
Definition writeFile (label : string) (path content : string)
  : M World.t unit :=
  fun w =>
    match Env.fault E label (fs_writeFile path) with
    | Some message => (w, throw (ExternalError message))
    | None =>
        (World.mk (World.clock_reads w) (World.launched w)
           (World.open_sessions w) (World.directories w)
           ((path, content) :: World.files w),
         ok tt)
    end.

End WorldActions.

(** [s.replace(/[:.]/g, '-')]. *)
Fixpoint dashed (s : string) : string :=
  match s with
  | EmptyString => EmptyString
  | String c s' =>
      String (if (Ascii.eqb c ":" || Ascii.eqb c ".")%bool then "-"%char else c)
        (dashed s')
  end.

(** [c.toLowerCase()] on the letters A to Z; other bytes are kept. *)
Definition lower_ascii (c : ascii) : ascii :=
  let n := nat_of_ascii c in
  if (Nat.leb 65 n && Nat.leb n 90)%bool then ascii_of_nat (n + 32) else c.

Fixpoint toLowerCase (s : string) : string :=
  match s with
  | EmptyString => EmptyString
  | String c s' => String (lower_ascii c) (toLowerCase s')
  end.

(** ** The methods of [AccessibilityTester] *)

(** The state of a method call: the tester object, the world, and the local
    variable [browser] of the audit methods ([let browser;], read again in
    their [catch] block). *)
Module State.
Record t : Type := mk {
  this : Tester.t;
  world : World.t;
  browser_var : option nat
}.
End State.

Definition in_world {A : Type} (m : M World.t A) : M State.t A :=
  fun s =>
    match m (State.world s) with
    | (w', r) => (State.mk (State.this s) w' (State.browser_var s), r)
    end.

(** Reading a field of [this]. *)
Definition this_ {A : Type} (field : Tester.t -> A) : M State.t A :=
  fun s => (s, ok (field (State.this s))).

Definition update_this (f : Tester.t -> Tester.t) : M State.t unit :=
  fun s => (State.mk (f (State.this s)) (State.world s) (State.browser_var s),
            ok tt).

(** [this.browser = b]. *)
Definition set_browser (b : string) : M State.t unit :=
  update_this (fun t =>
    Tester.mk (Tester.url t) (Tester.outputDir t) b (Tester.headed t)
      (Tester.viewport t) (Tester.axeOptions t) (Tester.timestamp t)
      (Tester.reportDir t)).

(** [this.timestamp = ts]. *)
Definition set_timestamp (ts : string) : M State.t unit :=
  update_this (fun t =>
    Tester.mk (Tester.url t) (Tester.outputDir t) (Tester.browser t)
      (Tester.headed t) (Tester.viewport t) (Tester.axeOptions t) ts
      (Tester.reportDir t)).

(** [this.reportDir = dir]. *)
Definition set_reportDir (dir : string) : M State.t unit :=
  update_this (fun t =>
    Tester.mk (Tester.url t) (Tester.outputDir t) (Tester.browser t)
      (Tester.headed t) (Tester.viewport t) (Tester.axeOptions t)
      (Tester.timestamp t) (Some dir)).

(** The local variable [browser]. *)
Definition set_browser_var (b : option nat) : M State.t unit :=
  fun s => (State.mk (State.this s) (State.world s) b, ok tt).

Definition get_browser_var : M State.t (option nat) :=
  fun s => (s, ok (State.browser_var s)).

(** What the [results] object of [runMultipleBrowsers] holds for an engine:
    [{ success: true, summary, reportDir }] or [{ success: false, error }]. *)
Inductive outcome : Type :=
| Success (summary : Summary.t) (reportDir : option string)
| Failure (error : string).

Definition success (o : outcome) : bool :=
  match o with
  | Success _ _ => true
  | Failure _ => false
  end.

(** [results[browser] = v] on the object literal [{}]: the name "__proto__"
    is the accessor of the prototype, which creates no own property. *)
Definition assign {V : Type} (k : string) (v : V) (o : JsObject.t V)
  : JsObject.t V :=
  if String.eqb k "__proto__" then o else JsObject.set k v o.

Section Methods.
Variable P : Platform.t.
Variable E : Env.t.

Local Open Scope run_scope.

(** [path.join(this.reportDir, name)]; [path.join] throws on [undefined]. *)
Definition report_path (name : string) : M State.t string :=
  dir <- this_ Tester.reportDir ;;
  match dir with
  | Some d => ret (Platform.path_join P d name)
  | None =>
      raise (TypeError "The 'path' argument must be of type string. Received undefined")
  end.

(** A collaborator call made while testing the engine [this.browser]. *)
Definition call_out (c : call) : M State.t unit :=
  label <- this_ Tester.browser ;;
  in_world (external E label c).

Definition init : M State.t unit :=
  outputDir <- this_ Tester.outputDir ;;
  timestamp <- this_ Tester.timestamp ;;
  let reportDir := Platform.path_join P outputDir timestamp in
  label <- this_ Tester.browser ;;
  in_world (mkdir E label reportDir) ;;;
  set_reportDir reportDir.

(** The [switch] of [launchBrowser]. *)
Definition engine_of (browser : string) : engine :=
  let name := toLowerCase browser in
  if String.eqb name "firefox" then firefox
  else if (String.eqb name "webkit" || String.eqb name "safari")%bool
       then webkit
       else chromium.

Definition launchBrowser : M State.t nat :=
  browser <- this_ Tester.browser ;;
  in_world (acquire E browser (engine_of browser)).

(** [browser.close()]. *)
Definition browser_close (handle : nat) : M State.t unit :=
  in_world (release handle).

(** The [catch] block of the two audit methods:
    [if (browser) await browser.close(); throw error;]. *)
Definition close_and_rethrow {A : Type} (e : error) : M State.t A :=
  b <- get_browser_var ;;
  match b with
  | Some handle => browser_close handle ;;; raise e
  | None => raise e
  end.

(** The steps the two audit methods share: context, page, navigation and
    screenshot. *)
Definition open_page : M State.t unit :=
  call_out browser_newContext ;;;
  call_out context_newPage ;;;
  url <- this_ Tester.url ;;
  call_out (page_goto url) ;;;
  screenshotPath <- report_path "screenshot.png" ;;
  call_out (page_screenshot screenshotPath).

Definition runAudit : M State.t ScanResult.t :=
  set_browser_var None ;;;
  try_catch
    (browser <- launchBrowser ;;
     set_browser_var (Some browser) ;;;
     open_page ;;;
     call_out page_evaluate_source ;;;
     call_out page_evaluate_run ;;;
     label <- this_ Tester.browser ;;
     let results := Env.scan E label in
     browser_close browser ;;;
     ret results)
    close_and_rethrow.

Definition runWithAxePlaywright : M State.t ScanResult.t :=
  set_browser_var None ;;;
  try_catch
    (browser <- launchBrowser ;;
     set_browser_var (Some browser) ;;;
     open_page ;;;
     call_out injectAxe ;;;
     call_out getViolations ;;;
     label <- this_ Tester.browser ;;
     let violations := Env.found E label in
     call_out page_evaluate_run ;;;
     let results := Env.scan E label in
     browser_close browser ;;;
     ret (with_violations violations results))
    close_and_rethrow.

Definition generateJSONReport (results : ScanResult.t) : M State.t Report.t :=
  jsonPath <- report_path "report.json" ;;
  browser <- this_ Tester.browser ;;
  report <- lift (build_report browser results) ;;
  in_world (writeFile E browser jsonPath (report_text report)) ;;;
  ret report.

Definition generateHTMLReport (results : ScanResult.t) : M State.t unit :=
  browser <- this_ Tester.browser ;;
  summary <- lift (generateSummary browser results) ;;
  htmlPath <- report_path "report.html" ;;
  this <- this_ (fun t => t) ;;
  html <- lift (html_template P this summary results) ;;
  in_world (writeFile E browser htmlPath html).

(** [printConsoleSummary] only writes to the console. *)
Definition printConsoleSummary (summary : Summary.t) : M State.t unit :=
  ret tt.

(** The body of the [for] loop of [runMultipleBrowsers]. *)
Definition test_browser (browser : string) (results : JsObject.t outcome)
  : M State.t (JsObject.t outcome) :=
  set_browser browser ;;;
  now <- in_world (new_Date E) ;;
  set_timestamp (browser ++ "-" ++ dashed (Platform.toISOString P now)) ;;;
  try_catch
    (init ;;;
     auditResults <- runWithAxePlaywright ;;
     report <- generateJSONReport auditResults ;;
     generateHTMLReport auditResults ;;;
     printConsoleSummary (Report.summary report) ;;;
     reportDir <- this_ Tester.reportDir ;;
     ret (assign browser (Success (Report.summary report) reportDir) results))
    (fun error =>
       ret (assign browser (Failure (error_message error)) results)).

Fixpoint for_each_browser (browsers : list string)
  (results : JsObject.t outcome) : M State.t (JsObject.t outcome) :=
  match browsers with
  | [] => ret results
  | browser :: rest =>
      results' <- test_browser browser results ;;
      for_each_browser rest results'
  end.

Definition runMultipleBrowsers (browsers : list string)
  : M State.t (JsObject.t outcome) :=
  for_each_browser browsers [].

Definition run : M State.t Report.t :=
  try_catch
    (init ;;;
     results <- runWithAxePlaywright ;;
     report <- generateJSONReport results ;;
     generateHTMLReport results ;;;
     printConsoleSummary (Report.summary report) ;;;
     ret report)
    (fun error => raise error).

End Methods.

(** ** The WebdriverIO tool *)

Module Wdio.

  (** One table row per violation, the body of the [map] callback. *)
Definition violation_row (v : RuleOutcome.t) : string :=
  "
    <tr>
      <td>"
  ++ RuleOutcome.id v
  ++ "</td>
      <td>"
  ++ RuleOutcome.description v
  ++ "</td>
      <td><span class=" ++ dq ++ "impact impact-"
  ++ string_of_impact (RuleOutcome.impact v)
  ++ dq ++ ">"
  ++ string_of_impact (RuleOutcome.impact v)
  ++ "</span></td>
      <td>"
  ++ string_of_N (len (RuleOutcome.nodes v))
  ++ "</td>
      <td><a href=" ++ dq
  ++ RuleOutcome.helpUrl v
  ++ dq ++ " target=" ++ dq ++ "_blank" ++ dq ++ ">Help</a></td>
    </tr>
  ".

(** The branch rendered when [results.violations.length > 0]. *)
Definition violations_table (violationRows : string) : string :=
  "
        <h2>Violations</h2>
        <table>
            <thead>
                <tr>
                    <th>Rule ID</th>
                    <th>Description</th>
                    <th>Impact</th>
                    <th>Elements</th>
                    <th>Help</th>
                </tr>
            </thead>
            <tbody>
                "
  ++ violationRows
  ++ "
            </tbody>
        </table>
    ".

(** The text of the document before the time at which it is rendered. *)
Definition html_before_clock : string :=
  "<!DOCTYPE html>
<html lang=" ++ dq ++ "en" ++ dq ++ ">
<head>
    <meta charset=" ++ dq ++ "UTF-8" ++ dq ++ ">
    <meta name=" ++ dq ++ "viewport" ++ dq ++ " content=" ++ dq ++ "width=device-width, initial-scale=1.0" ++ dq ++ ">
    <title>Accessibility Report - ".

(** The text of the document after the time at which it is rendered:
    [version] is [results.testEngine.version], the four counts are the
    lengths of the category arrays. *)
Definition html_after_clock (P : Platform.t) (results : ScanResult.t)
  (version : string) (violations passes incomplete inapplicable : N)
  (violationRows : string) : string :=
  "</title>
    <style>
        body {
            font-family: -apple-system, BlinkMacSystemFont, 'Segoe UI', Roboto, sans-serif;
            line-height: 1.6;
            color: #333;
            max-width: 1200px;
            margin: 0 auto;
            padding: 20px;
            background: #f5f5f5;
        }
        .header {
            background: white;
            padding: 20px;
            border-radius: 8px;
            box-shadow: 0 2px 4px rgba(0,0,0,0.1);
            margin-bottom: 20px;
        }
        h1 {
            color: #2c3e50;
            margin: 0 0 10px 0;
        }
        .summary {
            display: grid;
            grid-template-columns: repeat(auto-fit, minmax(200px, 1fr));
            gap: 15px;
            margin: 20px 0;
        }
        .summary-card {
            background: white;
            padding: 15px;
            border-radius: 8px;
            box-shadow: 0 2px 4px rgba(0,0,0,0.1);
        }
        .summary-card h3 {
            margin: 0 0 5px 0;
            font-size: 14px;
            color: #666;
        }
        .summary-card .count {
            font-size: 28px;
            font-weight: bold;
        }
        .violations { color: #e74c3c; }
        .passes { color: #27ae60; }
        .incomplete { color: #f39c12; }
        .inapplicable { color: #95a5a6; }
        table {
            width: 100%;
            background: white;
            border-radius: 8px;
            box-shadow: 0 2px 4px rgba(0,0,0,0.1);
            overflow: hidden;
            margin-top: 20px;
        }
        th {
            background: #2c3e50;
            color: white;
            padding: 12px;
            text-align: left;
        }
        td {
            padding: 12px;
            border-bottom: 1px solid #ecf0f1;
        }
        tr:last-child td {
            border-bottom: none;
        }
        tr:hover {
            background: #f8f9fa;
        }
        .impact {
            padding: 3px 8px;
            border-radius: 4px;
            font-size: 12px;
            font-weight: bold;
            text-transform: uppercase;
        }
        .impact-critical { background: #e74c3c; color: white; }
        .impact-serious { background: #e67e22; color: white; }
        .impact-moderate { background: #f39c12; color: white; }
        .impact-minor { background: #95a5a6; color: white; }
        .metadata {
            color: #666;
            font-size: 14px;
        }
        a {
            color: #3498db;
            text-decoration: none;
        }
        a:hover {
            text-decoration: underline;
        }
    </style>
</head>
<body>
    <div class=" ++ dq ++ "header" ++ dq ++ ">
        <h1>Accessibility Test Report</h1>
        <div class=" ++ dq ++ "metadata" ++ dq ++ ">
            <p><strong>URL:</strong> "
  ++ ScanResult.url results
  ++ "</p>
            <p><strong>Tested on:</strong> "
  ++ Platform.toLocaleString P (Platform.Date P (ScanResult.timestamp results))
  ++ "</p>
            <p><strong>Test Engine:</strong> axe-core "
  ++ version
  ++ "</p>
        </div>
    </div>

    <div class=" ++ dq ++ "summary" ++ dq ++ ">
        <div class=" ++ dq ++ "summary-card" ++ dq ++ ">
            <h3>Violations</h3>
            <div class=" ++ dq ++ "count violations" ++ dq ++ ">"
  ++ string_of_N violations
  ++ "</div>
        </div>
        <div class=" ++ dq ++ "summary-card" ++ dq ++ ">
            <h3>Passes</h3>
            <div class=" ++ dq ++ "count passes" ++ dq ++ ">"
  ++ string_of_N passes
  ++ "</div>
        </div>
        <div class=" ++ dq ++ "summary-card" ++ dq ++ ">
            <h3>Incomplete</h3>
            <div class=" ++ dq ++ "count incomplete" ++ dq ++ ">"
  ++ string_of_N incomplete
  ++ "</div>
        </div>
        <div class=" ++ dq ++ "summary-card" ++ dq ++ ">
            <h3>Inapplicable</h3>
            <div class=" ++ dq ++ "count inapplicable" ++ dq ++ ">"
  ++ string_of_N inapplicable
  ++ "</div>
        </div>
    </div>

    "
  ++ (if N.ltb 0 violations
      then violations_table violationRows
      else "<h2>✓ No Violations Found</h2>")
  ++ "
</body>
</html>".

(** The document; [now] is the reading of the clock by [new Date()] in the
    title. *)
Definition html_document (P : Platform.t) (now : Z) (results : ScanResult.t)
  (version : string) (violations passes incomplete inapplicable : N)
  (violationRows : string) : string :=
  html_before_clock
  ++ Platform.toLocaleString P (Some now)
  ++ html_after_clock P results version violations passes incomplete
       inapplicable violationRows.

(** [results.violations.map(...)] where the array may be [undefined]. *)
Definition map_of {A B : Type} (f : A -> B) (xs : option (list A))
    : result (list B) :=
    match xs with
    | Some l => ok (map f l)
    | None =>
        throw (TypeError "Cannot read properties of undefined (reading 'map')")
    end.

  (** [results.testEngine.version]. *)
Definition testEngine_version (results : ScanResult.t) : result string :=
    match ScanResult.testEngine results with
    | Some v => ok v
    | None =>
        throw
          (TypeError "Cannot read properties of undefined (reading 'version')")
    end.

  (** [generateHTMLReport(results)]; [now] is what the clock shows when the
      template evaluates [new Date()]. *)
Definition generateHTMLReport (P : Platform.t) (now : Z)
    (results : ScanResult.t) : result string :=
    rows <- map_of violation_row (ScanResult.violations results) ;;
    let violationRows := join "" rows in
    version <- testEngine_version results ;;
    violations <- length_of (ScanResult.violations results) ;;
    passes <- length_of (ScanResult.passes results) ;;
    incomplete <- length_of (ScanResult.incomplete results) ;;
    inapplicable <- length_of (ScanResult.inapplicable results) ;;
    ok (html_document P now results version violations passes incomplete
          inapplicable violationRows).

(** The state of [runAccessibilityTest]: the world and the local variable
    [browser]. *)
Record state : Type := mk_state {
  world : World.t;
  browser_var : option nat
}.

Definition in_world {A : Type} (m : M World.t A) : M state A :=
  fun s =>
    match m (world s) with
    | (w', r) => (mk_state w' (browser_var s), r)
    end.

Definition set_browser_var (b : option nat) : M state unit :=
  fun s => (mk_state (world s) b, ok tt).

Definition get_browser_var : M state (option nat) :=
  fun s => (s, ok (browser_var s)).

Definition testUrl : string := "https://www.deque.com/axe/core-documentation/".

Section Run.
Variable P : Platform.t.
Variable E : Env.t.
(** [__dirname], the directory of the module. *)
Variable dirname : string.

Local Open Scope run_scope.

(** The [finally] block: [if (browser) await browser.deleteSession();]. *)
Definition delete_session : M state unit :=
  b <- get_browser_var ;;
  match b with
  | Some handle => in_world (release handle)
  | None => ret tt
  end.

(** The lines that print the four counts read the four lengths. *)
Definition print_counts (results : ScanResult.t) : M state unit :=
  _ <- lift (length_of (ScanResult.violations results)) ;;
  _ <- lift (length_of (ScanResult.passes results)) ;;
  _ <- lift (length_of (ScanResult.incomplete results)) ;;
  _ <- lift (length_of (ScanResult.inapplicable results)) ;;
  ret tt.

Definition runAccessibilityTest : M state unit :=
  set_browser_var None ;;;
  try_finally
    (try_catch
       (browser <- in_world (acquire E "chrome" chrome) ;;
        set_browser_var (Some browser) ;;;
        in_world (external E "chrome" (browser_url testUrl)) ;;;
        in_world (external E "chrome" axeBuilder_analyze) ;;;
        let results := Env.scan E "chrome" in
        print_counts results ;;;
        let reportDir := Platform.path_join P dirname "reports" in
        in_world (mkdir E "chrome" reportDir) ;;;
        now <- in_world (new_Date E) ;;
        let timestamp := dashed (Platform.toISOString P now) in
        let reportPath :=
          Platform.path_join P reportDir
            ("accessibility-report-" ++ timestamp ++ ".json") in
        in_world (writeFile E "chrome" reportPath
                    (Json.stringify (value_of_results results))) ;;;
        let htmlReportPath :=
          Platform.path_join P reportDir
            ("accessibility-report-" ++ timestamp ++ ".html") in
        now' <- in_world (new_Date E) ;;
        htmlReport <- lift (generateHTMLReport P now' results) ;;
        in_world (writeFile E "chrome" htmlReportPath htmlReport))
       (fun error => raise error))
    delete_session.

End Run.

End Wdio.

(** ** Statements of the specification that are compared with the code *)

(** [hay.includes(needle)]. *)
Fixpoint contains (needle hay : string) : bool :=
  if String.prefix needle hay then true
  else match hay with
       | EmptyString => false
       | String _ hay' => contains needle hay'
       end.

(** The indicator as the specification words it: "+N more". *)
Definition plus_more (n : N) : string := "+" ++ string_of_N n ++ " more".

(** "The affected-elements block shows a "+N more" indicator when the
    violation has more than 3 nodes, with N the number of nodes minus 3." *)
Definition plus_more_indicator_shown : Prop :=
  forall violation : RuleOutcome.t,
    (3 < len (RuleOutcome.nodes violation))%N ->
    contains (plus_more (len (RuleOutcome.nodes violation) - 3))
      (affected_elements violation) = true.

(** "For every pair of runs on the identical result, the HTML renderer yields
    byte-identical output", for the renderer of the WebdriverIO tool, whose
    runs may see different clock readings. *)
Definition html_rendering_deterministic : Prop :=
  forall (P : Platform.t) (now now' : Z) (results : ScanResult.t),
    Wdio.generateHTMLReport P now results =
    Wdio.generateHTMLReport P now' results.

(** A platform, a tester and a violation to evaluate the code on. *)
Definition sample_platform : Platform.t :=
  Platform.mk
    (fun u => if String.eqb u "" then None else Some u)
    (fun s => if String.eqb s "" then None else Some (Z.of_nat (String.length s)))
    (fun d => match d with
              | Some z => string_of_N (Z.to_N z)
              | None => "Invalid Date"
              end)
    (fun z => string_of_N (Z.to_N z))
    (fun a b => a ++ "/" ++ b)
    "4.10.0".

Definition sample_tester : Tester.t :=
  Tester.mk "https://playwright.dev/" "accessibility-reports" "chromium" false
    (Viewport.mk 1920 1080)
    (AxeOptions.mk
       (Some (AxeOptions.mk_run_only "tag"
                (Some ["wcag2a"; "wcag2aa"; "wcag21a"; "wcag21aa";
                       "best-practice"]))))
    "2024-01-15T10-30-00-000Z" None.

Definition five_nodes : list AffectedNode.t :=
  [AffectedNode.mk ["#a"] None; AffectedNode.mk ["#b"] None;
   AffectedNode.mk ["iframe"; "#c"] None; AffectedNode.mk ["#d"] None;
   AffectedNode.mk ["#e"] None].

Definition five_node_violation : RuleOutcome.t :=
  RuleOutcome.mk "image-alt" "Images must have alternate text" "" ""
    (ImpactString "critical") ["wcag2a"] five_nodes.

(** The configuration of a tester: the fields no method assigns. *)
Definition same_config (t t' : Tester.t) : Prop :=
  Tester.url t = Tester.url t' /\
  Tester.outputDir t = Tester.outputDir t' /\
  Tester.headed t = Tester.headed t' /\
  Tester.viewport t = Tester.viewport t' /\
  Tester.axeOptions t = Tester.axeOptions t'.

(** While the engine [b] is tested, navigation to [url] raises an error with
    message [msg], everything before it having worked. *)
Definition navigation_fails (E : Env.t) (url b msg : string) : Prop :=
  (forall path, Env.fault E b (fs_mkdir path) = None) /\
  Env.fault E b (engine_launch (engine_of b)) = None /\
  Env.fault E b browser_newContext = None /\
  Env.fault E b context_newPage = None /\
  Env.fault E b (page_goto url) = Some msg.

(** While the engine [b] is tested no collaborator fails, the scan result has
    its category sequences and the address of the tester is a valid URL. *)
Definition engine_succeeds (P : Platform.t) (E : Env.t) (t : Tester.t)
  (b : string) : Prop :=
  (forall c, Env.fault E b c = None) /\
  ScanResult.passes (Env.scan E b) <> None /\
  ScanResult.incomplete (Env.scan E b) <> None /\
  ScanResult.inapplicable (Env.scan E b) <> None /\
  Platform.hostname P (Tester.url t) <> None.

(** The summary of the scan of engine [b], as [runWithAxePlaywright] returns
    it to the report methods. *)
Definition engine_summary (E : Env.t) (b : string) : result Summary.t :=
  generateSummary b (with_violations (Env.found E b) (Env.scan E b)).

(** The default argument of [runMultipleBrowsers]. *)
Definition default_browsers : list string := ["chromium"; "firefox"; "webkit"].

(** An environment in which navigation fails while firefox is tested. *)
Definition sample_env : Env.t :=
  Env.mk
    (fun label c =>
       if String.eqb label "firefox"
       then match c with
            | page_goto _ => Some "net::ERR_NAME_NOT_RESOLVED"
            | _ => None
            end
       else None)
    (fun _ => scenario)
    (fun _ => [scenario_violation])
    (fun n => Z.of_nat n).

Definition sample_state : State.t :=
  State.mk sample_tester World.initial None.

(** How many entries of a results object satisfy [p]. *)
Definition count_outcomes (p : outcome -> bool) (o : JsObject.t outcome) : nat :=
  List.length (filter (fun m => p (snd m)) o).

Definition failure (o : outcome) : bool := negb (success o).

(** "No run writes configuration or state that a prior run wrote", for the
    field [this.browser], which every run assigns: the test of a second
    engine leaves in it what the test of the first engine wrote. *)
Definition runs_share_no_tester_state : Prop :=
  forall P E b1 b2 results s,
    Tester.browser
      (State.this
         (fst (test_browser P E b2 results
                 (fst (test_browser P E b1 results s))))) =
    Tester.browser (State.this (fst (test_browser P E b1 results s))).

(** Every character of [s] is a decimal digit. *)
Fixpoint all_digits (s : string) : bool :=
  match s with
  | EmptyString => true
  | String c s' => (Json.is_digit c && all_digits s')%bool
  end.

(** What may follow the text of a value inside a text written by
    [Json.serialize]: nothing, a comma or a line feed. *)
Definition delimited (rest : string) : bool :=
  match rest with
  | EmptyString => true
  | String c _ =>
      (Nat.eqb (nat_of_ascii c) 44 || Nat.eqb (nat_of_ascii c) 10)%bool
  end.

(** The first character of [s] starts a value: it is neither white space
    nor a closing bracket or brace. *)
Definition starts_value (s : string) : bool :=
  match s with
  | EmptyString => false
  | String c _ =>
      (negb (Json.is_whitespace c) && negb (Nat.eqb (nat_of_ascii c) 93)
       && negb (Nat.eqb (nat_of_ascii c) 125))%bool
  end.

(** Reading the text of [v] gives [v] back, in the form [Json.normalize]
    describes, whatever the indentation and whatever follows. *)
Definition reads_back (v : Json.value) : Prop :=
  forall indent fuel rest,
    (Json.size v <= fuel)%nat -> delimited rest = true ->
    Json.parse_value fuel (Json.serialize indent v ++ rest) =
    Some (Json.normalize v, rest).

(** The scenario with one more violation, of an impact the summary has no
    bucket for, and with one more violation that has no impact. *)
Definition scenario_with_unknown_impact : ScanResult.t :=
  with_violations
    [scenario_violation; outcome_with_impact (ImpactString "cosmetic")]
    scenario.

Definition scenario_with_missing_impact : ScanResult.t :=
  with_violations [scenario_violation; outcome_with_impact ImpactNull] scenario.

(** A tester whose report directory exists, as [init] leaves it. *)
Definition ready_tester : Tester.t :=
  Tester.mk "https://playwright.dev/" "accessibility-reports" "chromium" false
    (Viewport.mk 1920 1080) (Tester.axeOptions sample_tester)
    "2024-01-15T10-30-00-000Z"
    (Some "accessibility-reports/2024-01-15T10-30-00-000Z").

Definition ready_state : State.t := State.mk ready_tester World.initial None.

(** ** The command line of the Playwright tool *)

(** The options object: what [parseArgs] returns and the constructor reads.
    [None] is [null] or [undefined]. *)
Module Options.
Record t : Type := mk {
  url : option string;
  outputDir : option string;
  browser : option string;
  headed : bool;
  allBrowsers : bool;
  help : bool;
  viewport : option Viewport.t;
  axeOptions : option AxeOptions.t
}.

Definition with_url (v : option string) (o : t) : t :=
  mk v (outputDir o) (browser o) (headed o) (allBrowsers o) (help o)
    (viewport o) (axeOptions o).

Definition with_outputDir (v : option string) (o : t) : t :=
  mk (url o) v (browser o) (headed o) (allBrowsers o) (help o)
    (viewport o) (axeOptions o).

Definition with_browser (v : option string) (o : t) : t :=
  mk (url o) (outputDir o) v (headed o) (allBrowsers o) (help o)
    (viewport o) (axeOptions o).

Definition with_headed (o : t) : t :=
  mk (url o) (outputDir o) (browser o) true (allBrowsers o) (help o)
    (viewport o) (axeOptions o).

Definition with_allBrowsers (o : t) : t :=
  mk (url o) (outputDir o) (browser o) (headed o) true (help o)
    (viewport o) (axeOptions o).

Definition with_help (o : t) : t :=
  mk (url o) (outputDir o) (browser o) (headed o) (allBrowsers o) true
    (viewport o) (axeOptions o).
End Options.

(** The object literal [parseArgs] starts from. *)
Definition initial_options : Options.t :=
  Options.mk None None (Some "chromium") false false false None None.

(** The [for] loop of [parseArgs] over [args], from the current index on.  A
    flag that takes a value reads [args[++i]], which is [undefined] past the
    end of the array. *)
Fixpoint parse_loop (args : list string) (options : Options.t) : Options.t :=
  match args with
  | [] => options
  | arg :: rest =>
      if (String.eqb arg "--url" || String.eqb arg "-u")%bool then
        match rest with
        | value :: rest' => parse_loop rest' (Options.with_url (Some value) options)
        | [] => Options.with_url None options
        end
      else if (String.eqb arg "--output" || String.eqb arg "-o")%bool then
        match rest with
        | value :: rest' =>
            parse_loop rest' (Options.with_outputDir (Some value) options)
        | [] => Options.with_outputDir None options
        end
      else if (String.eqb arg "--browser" || String.eqb arg "-b")%bool then
        match rest with
        | value :: rest' =>
            parse_loop rest' (Options.with_browser (Some value) options)
        | [] => Options.with_browser None options
        end
      else if String.eqb arg "--headed" then
        parse_loop rest (Options.with_headed options)
      else if String.eqb arg "--all-browsers" then
        parse_loop rest (Options.with_allBrowsers options)
      else if (String.eqb arg "--help" || String.eqb arg "-h")%bool then
        parse_loop rest (Options.with_help options)
      else parse_loop rest options
  end.

(** What [parseArgs] does: it returns the options, or ends the process
    ([process.exit(0)] after the usage text). *)
Inductive parsed : Type :=
| Exit (code : N)
| Parsed (options : Options.t).

Definition parseArgs (args : list string) : parsed :=
  let options := parse_loop args initial_options in
  if Options.help options then Exit 0 else Parsed options.

(** [x || d] on a string that may be [null], [undefined] or empty. *)
Definition or_default (x : option string) (d : string) : string :=
  match x with
  | Some s => if String.eqb s "" then d else s
  | None => d
  end.

Definition default_url : string := "https://playwright.dev/".

Definition default_viewport : Viewport.t := Viewport.mk 1920 1080.

Definition default_axeOptions : AxeOptions.t :=
  AxeOptions.mk
    (Some (AxeOptions.mk_run_only "tag"
             (Some ["wcag2a"; "wcag2aa"; "wcag21a"; "wcag21aa";
                    "best-practice"]))).

Section CommandLine.
Variable P : Platform.t.
Variable E : Env.t.
(** [process.cwd()]. *)
Variable cwd : string.

Local Open Scope run_scope.

(** [new AccessibilityTester(options)]. *)
Definition constructor (options : Options.t) : M World.t Tester.t :=
  now <- new_Date E ;;
  ret (Tester.mk
         (or_default (Options.url options) default_url)
         (or_default (Options.outputDir options)
            (Platform.path_join P cwd "accessibility-reports"))
         (or_default (Options.browser options) "chromium")
         (Options.headed options)
         (match Options.viewport options with
          | Some v => v
          | None => default_viewport
          end)
         (match Options.axeOptions options with
          | Some a => a
          | None => default_axeOptions
          end)
         (dashed (Platform.toISOString P now))
         None).

(** The body of the script once the options are parsed: the exit code is 1
    when the promise is rejected ([process.exit(1)] in [catch]), 0 when the
    script runs to its end. *)
Definition start (options : Options.t) (w : World.t) : World.t * N :=
  match constructor options w with
  | (w1, inl _) => (w1, 1%N)
  | (w1, inr tester) =>
      if Options.allBrowsers options then
        match runMultipleBrowsers P E default_browsers (State.mk tester w1 None) with
        | (s, inr _) => (State.world s, 0%N)
        | (s, inl _) => (State.world s, 1%N)
        end
      else
        match run P E (State.mk tester w1 None) with
        | (s, inr _) => (State.world s, 0%N)
        | (s, inl _) => (State.world s, 1%N)
        end
  end.

(** The script: [node index.mjs args]. *)
Definition main (args : list string) (w : World.t) : World.t * N :=
  match parseArgs args with
  | Exit code => (w, code)
  | Parsed options => start options w
  end.

End CommandLine.

(** The flags of [parseArgs] that read the argument after them. *)
Definition takes_value (arg : string) : bool :=
  (String.eqb arg "--url" || String.eqb arg "-u"
   || (String.eqb arg "--output" || String.eqb arg "-o")
   || (String.eqb arg "--browser" || String.eqb arg "-b"))%bool.

(** The tester as [init] leaves it: its report directory is
    [path.join(this.outputDir, this.timestamp)]. *)
Definition report_directory (P : Platform.t) (t : Tester.t) : string :=
  Platform.path_join P (Tester.outputDir t) (Tester.timestamp t).

Definition initialized (P : Platform.t) (t : Tester.t) : Tester.t :=
  Tester.mk (Tester.url t) (Tester.outputDir t) (Tester.browser t)
    (Tester.headed t) (Tester.viewport t) (Tester.axeOptions t)
    (Tester.timestamp t) (Some (report_directory P t)).


(** A platform whose ISO text of a time value is a fixed date. *)
Definition iso_platform : Platform.t :=
  Platform.mk
    (fun u => if String.eqb u "" then None else Some u)
    (fun s => if String.eqb s "" then None else Some 0%Z)
    (fun d => match d with
              | Some _ => "1/15/2024, 10:30:00 AM"
              | None => "Invalid Date"
              end)
    (fun _ => "2024-01-15T10:30:00.000Z")
    (fun a b => a ++ "/" ++ b)
    "4.10.0".

(** Two options objects that differ at most in [browser]. *)
Definition same_but_browser (o o' : Options.t) : Prop :=
  Options.url o = Options.url o' /\
  Options.outputDir o = Options.outputDir o' /\
  Options.headed o = Options.headed o' /\
  Options.allBrowsers o = Options.allBrowsers o' /\
  Options.help o = Options.help o' /\
  Options.viewport o = Options.viewport o' /\
  Options.axeOptions o = Options.axeOptions o'.



(** An environment whose scan result lacks the [incomplete] sequence. *)
Definition partial_scan_env : Env.t :=
  Env.mk
    (fun _ _ => None)
    (fun _ =>
       ScanResult.mk "https://example.com/" "2024-01-15T10:30:00.000Z"
         (Some "4.10.0") (Some []) (Some [scenario_violation]) None (Some []))
    (fun _ => [scenario_violation])
    (fun n => Z.of_nat n).

(** A string of ASCII characters: on such a string the case mappings of the
    platform change the letters A to Z and a to z only. *)
Definition ascii_only (s : string) : bool :=
  forallb (fun c => Nat.ltb (nat_of_ascii c) 128) (list_ascii_of_string s).

(** A violation that [generateSummary] counts in one of the four buckets or
    skips: its impact is a recognized level, or is absent, null or empty. *)
Definition counted_or_skipped (v : RuleOutcome.t) : bool :=
  (recognized (RuleOutcome.impact v)
   || negb (truthy (RuleOutcome.impact v)))%bool.

(** A value that holds no [NaN]. *)
Fixpoint nan_free (v : Json.value) : bool :=
  match v with
  | Json.VNumber NaN => false
  | Json.VArray xs => forallb nan_free xs
  | Json.VObject ms => forallb (fun m => nan_free (snd m)) ms
  | _ => true
  end.

(** A scan result as the engine reports it, with its [testEngine]. *)
Definition versioned_scenario : ScanResult.t :=
  ScanResult.mk "https://www.deque.com/axe/core-documentation/"
    "2024-01-15T10:30:00.000Z" (Some "4.10.0")
    (Some (repeat (outcome_with_impact ImpactNull) 10))
    (Some [scenario_violation; five_node_violation])
    (Some [])
    (Some (repeat (outcome_with_impact ImpactUndefined) 2)).

(* ================================================================== *)
(** * Properties *)

(** ** Tables *)

Section TableFacts.
Variable V : Type.
Implicit Types (o : JsObject.t V) (k : string) (v : V).

Lemma get_replace_same k v o w :
    JsObject.get k o = Some w -> JsObject.get k (JsObject.replace k v o) = Some v.
  Proof.
    induction o as [|[k' v'] o IH]; simpl; [discriminate|].
    destruct (String.eqb k k') eqn:E; simpl; rewrite E; auto.
  Qed.

Lemma get_replace_other k k' v o :
    k <> k' -> JsObject.get k (JsObject.replace k' v o) = JsObject.get k o.
  Proof.
    intros Hne. induction o as [|[k2 v2] o IH]; simpl; [reflexivity|].
    destruct (String.eqb k' k2) eqn:E; simpl.
    - apply String.eqb_eq in E. subst k2.
      apply String.eqb_neq in Hne. rewrite Hne. reflexivity.
    - rewrite IH. reflexivity.
  Qed.

Lemma get_app k o o' :
    JsObject.get k (o ++ o')%list =
    match JsObject.get k o with Some v => Some v | None => JsObject.get k o' end.
  Proof.
    induction o as [|[k2 v2] o IH]; simpl; [reflexivity|].
    destruct (String.eqb k k2); auto.
  Qed.

Lemma get_insert_index_same n k v o :
    JsObject.get k o = None ->
    JsObject.get k (JsObject.insert_index n k v o) = Some v.
  Proof.
    induction o as [|[k2 v2] o IH]; simpl; intros H.
    - rewrite String.eqb_refl. reflexivity.
    - destruct (String.eqb k k2) eqn:E; [discriminate|].
      destruct (JsObject.array_index k2) as [n'|].
      + destruct (N.ltb n n'); simpl.
        * rewrite String.eqb_refl. reflexivity.
        * rewrite E. auto.
      + simpl. rewrite String.eqb_refl. reflexivity.
  Qed.

Lemma get_insert_index_other n k k' v o :
    k <> k' ->
    JsObject.get k (JsObject.insert_index n k' v o) = JsObject.get k o.
  Proof.
    intros Hne. apply String.eqb_neq in Hne.
    induction o as [|[k2 v2] o IH]; simpl.
    - rewrite Hne. reflexivity.
    - destruct (JsObject.array_index k2) as [n'|].
      + destruct (N.ltb n n'); simpl.
        * rewrite Hne. reflexivity.
        * rewrite IH. reflexivity.
      + simpl. rewrite Hne. reflexivity.
  Qed.

Lemma get_create_same k v o :
    JsObject.get k o = None -> JsObject.get k (JsObject.create k v o) = Some v.
  Proof.
    intros H. unfold JsObject.create.
    destruct (JsObject.array_index k).
    - apply get_insert_index_same; assumption.
    - rewrite get_app, H. simpl. rewrite String.eqb_refl. reflexivity.
  Qed.

Lemma get_create_other k k' v o :
    k <> k' -> JsObject.get k (JsObject.create k' v o) = JsObject.get k o.
  Proof.
    intros Hne. unfold JsObject.create.
    destruct (JsObject.array_index k').
    - apply get_insert_index_other; assumption.
    - rewrite get_app. destruct (JsObject.get k o); [reflexivity|].
      simpl. apply String.eqb_neq in Hne. rewrite Hne. reflexivity.
  Qed.

End TableFacts.

(** ** The impact counters *)

Lemma increment_get_other k k' o :
  k <> k' -> JsObject.get k (increment k' o) = JsObject.get k o.
Proof.
  intros Hne. unfold increment.
  destruct (JsObject.get k' o) as [w|].
  - apply get_replace_other; assumption.
  - destruct (String.eqb k' "__proto__"); [reflexivity|].
    apply get_create_other; assumption.
Qed.

Lemma increment_get_same k o :
  k <> "__proto__" ->
  JsObject.get k (increment k o) = Some (plus_one (JsObject.get k o)).
Proof.
  intros Hk. unfold increment.
  destruct (JsObject.get k o) as [w|] eqn:E.
  - eapply get_replace_same; eassumption.
  - apply String.eqb_neq in Hk. rewrite Hk.
    apply get_create_same; assumption.
Qed.

Lemma count_impact_get k o v :
  k <> "" -> k <> "__proto__" ->
  JsObject.get k (count_impact o v) =
  if has_impact k v then Some (plus_one (JsObject.get k o))
  else JsObject.get k o.
Proof.
  intros Hk1 Hk2. unfold count_impact, has_impact, truthy.
  destruct (RuleOutcome.impact v) as [| |s]; try reflexivity.
  simpl. destruct (String.eqb s k) eqn:E.
  - apply String.eqb_eq in E. subst s.
    apply String.eqb_neq in Hk1. rewrite Hk1. simpl.
    apply increment_get_same; assumption.
  - apply String.eqb_neq in E.
    destruct (negb (String.eqb s "")); [|reflexivity].
    apply increment_get_other. congruence.
Qed.

Lemma count_level_cons k v vs :
  count_level k (v :: vs) =
  ((if has_impact k v then 1 else 0) + count_level k vs)%N.
Proof.
  unfold count_level, len. simpl.
  destruct (has_impact k v); simpl length; lia.
Qed.

Lemma fold_count_impact_num k vs : forall o n,
  k <> "" -> k <> "__proto__" ->
  JsObject.get k o = Some (Num n) ->
  JsObject.get k (fold_left count_impact vs o) =
  Some (Num (n + count_level k vs)).
Proof.
  induction vs as [|v vs IH]; intros o n Hk1 Hk2 Hget; simpl.
  - rewrite Hget. unfold count_level, len. simpl. f_equal. f_equal. lia.
  - rewrite count_level_cons.
    pose proof (count_impact_get k o v Hk1 Hk2) as Hstep.
    rewrite Hget in Hstep. simpl in Hstep.
    destruct (has_impact k v).
    + rewrite (IH _ (n + 1)%N Hk1 Hk2 Hstep). f_equal. f_equal. lia.
    + rewrite (IH _ n Hk1 Hk2 Hstep). f_equal.
Qed.

Lemma fold_count_impact_nan k vs : forall o,
  k <> "" -> k <> "__proto__" ->
  JsObject.get k o = Some NaN ->
  JsObject.get k (fold_left count_impact vs o) = Some NaN.
Proof.
  induction vs as [|v vs IH]; intros o Hk1 Hk2 Hget; simpl; [assumption|].
  apply IH; try assumption.
  rewrite count_impact_get by assumption. rewrite Hget.
  destruct (has_impact k v); reflexivity.
Qed.

Lemma fold_count_impact_new k vs : forall o,
  k <> "" -> k <> "__proto__" ->
  JsObject.get k o = None ->
  JsObject.get k (fold_left count_impact vs o) =
  if existsb (has_impact k) vs then Some NaN else None.
Proof.
  induction vs as [|v vs IH]; intros o Hk1 Hk2 Hget; simpl; [assumption|].
  pose proof (count_impact_get k o v Hk1 Hk2) as Hstep.
  rewrite Hget in Hstep. simpl in Hstep.
  destruct (has_impact k v); simpl.
  - apply fold_count_impact_nan; assumption.
  - apply IH; assumption.
Qed.

Lemma fold_count_impact_falsy vs1 v vs2 o :
  truthy (RuleOutcome.impact v) = false ->
  fold_left count_impact (vs1 ++ v :: vs2)%list o =
  fold_left count_impact (vs1 ++ vs2)%list o.
Proof.
  intros Hf. rewrite !fold_left_app. simpl.
  unfold count_impact at 2. rewrite Hf. reflexivity.
Qed.

Lemma len_filter_le {A : Type} (f : A -> bool) (xs : list A) :
  (len (filter f xs) <= len xs)%N.
Proof.
  unfold len. induction xs as [|x xs IH]; simpl; [lia|].
  destruct (f x); simpl length; lia.
Qed.

Lemma len_filter_eq {A : Type} (f : A -> bool) (xs : list A) :
  len (filter f xs) = len xs <-> forallb f xs = true.
Proof.
  unfold len. induction xs as [|x xs IH]; simpl.
  - tauto.
  - pose proof (len_filter_le f xs) as Hle. unfold len in Hle.
    destruct (f x); simpl length; simpl andb.
    + rewrite <- IH. lia.
    + split; [lia|discriminate].
Qed.

Lemma level_flags v :
  ((if has_impact "critical" v then 1 else 0) +
   (if has_impact "serious" v then 1 else 0) +
   (if has_impact "moderate" v then 1 else 0) +
   (if has_impact "minor" v then 1 else 0))%N =
  (if recognized (RuleOutcome.impact v) then 1 else 0)%N.
Proof.
  unfold has_impact, recognized.
  destruct (RuleOutcome.impact v) as [| |s]; try reflexivity.
  simpl existsb.
  destruct (String.eqb s "critical") eqn:E1;
    [apply String.eqb_eq in E1; subst s; reflexivity|].
  destruct (String.eqb s "serious") eqn:E2;
    [apply String.eqb_eq in E2; subst s; reflexivity|].
  destruct (String.eqb s "moderate") eqn:E3;
    [apply String.eqb_eq in E3; subst s; reflexivity|].
  destruct (String.eqb s "minor") eqn:E4;
    [apply String.eqb_eq in E4; subst s; reflexivity|].
  reflexivity.
Qed.

Lemma count_levels_recognized vs :
  (count_level "critical" vs + count_level "serious" vs +
   count_level "moderate" vs + count_level "minor" vs)%N =
  len (filter (fun v => recognized (RuleOutcome.impact v)) vs).
Proof.
  induction vs as [|v vs IH]; [reflexivity|].
  rewrite !count_level_cons. simpl filter.
  pose proof (level_flags v) as Hv.
  destruct (recognized (RuleOutcome.impact v));
    unfold len in *; simpl length; lia.
Qed.

(** ** [generateSummary] *)

Lemma generateSummary_present b r p v i n :
  ScanResult.passes r = Some p ->
  ScanResult.violations r = Some v ->
  ScanResult.incomplete r = Some i ->
  ScanResult.inapplicable r = Some n ->
  generateSummary b r =
  ok (Summary.mk (ScanResult.url r) (ScanResult.timestamp r) b
        (len p + len v + len i + len n) (len p) (len v) (len i) (len n)
        (fold_left count_impact v violationsByImpact0)).
Proof.
  intros Hp Hv Hi Hn. unfold generateSummary.
  rewrite Hp, Hv, Hi, Hn. reflexivity.
Qed.

Lemma generateSummary_absent b r :
  ScanResult.has_categories r = false ->
  generateSummary b r =
  throw (TypeError "Cannot read properties of undefined (reading 'length')").
Proof.
  unfold ScanResult.has_categories, generateSummary.
  destruct (ScanResult.passes r); [|reflexivity].
  destruct (ScanResult.violations r); [|reflexivity].
  destruct (ScanResult.incomplete r); [|reflexivity].
  destruct (ScanResult.inapplicable r); [discriminate|reflexivity].
Qed.

Lemma generateSummary_ok_inv b r s :
  generateSummary b r = ok s ->
  exists p v i n,
    ScanResult.passes r = Some p /\ ScanResult.violations r = Some v /\
    ScanResult.incomplete r = Some i /\ ScanResult.inapplicable r = Some n.
Proof.
  intros H.
  destruct (ScanResult.has_categories r) eqn:E.
  - unfold ScanResult.has_categories in E.
    destruct (ScanResult.passes r) as [p|]; [|discriminate].
    destruct (ScanResult.violations r) as [v|]; [|discriminate].
    destruct (ScanResult.incomplete r) as [i|]; [|discriminate].
    destruct (ScanResult.inapplicable r) as [n|]; [|discriminate].
    exists p, v, i, n. repeat split.
  - rewrite (generateSummary_absent b r E) in H. discriminate.
Qed.

Lemma recognized_level_plain k :
  In k recognized_levels -> k <> "" /\ k <> "__proto__".
Proof.
  simpl. intros [H|[H|[H|[H|[]]]]]; subst k; split; discriminate.
Qed.

Lemma summary_bucket b r s vs k :
  generateSummary b r = ok s ->
  ScanResult.violations r = Some vs ->
  In k recognized_levels ->
  JsObject.get k (Summary.violationsByImpact s) = Some (Num (count_level k vs)).
Proof.
  intros Hs Hvs Hk.
  destruct (generateSummary_ok_inv _ _ _ Hs) as (p & v & i & n & Hp & Hv & Hi & Hn).
  rewrite (generateSummary_present b r _ _ _ _ Hp Hv Hi Hn) in Hs.
  injection Hs as <-. simpl.
  rewrite Hvs in Hv. injection Hv as <-.
  destruct (recognized_level_plain k Hk) as [Hk1 Hk2].
  assert (JsObject.get k violationsByImpact0 = Some (Num 0)) as H0.
  { simpl in Hk. destruct Hk as [H|[H|[H|[H|[]]]]]; subst k; reflexivity. }
  rewrite (fold_count_impact_num k vs _ _ Hk1 Hk2 H0). reflexivity.
Qed.

(** C1 (as amended).  After [generateSummary], the four recognized buckets of
    [violationsByImpact] hold counts whose sum is at most the number of
    violations, with equality exactly when every violation has a recognized
    impact; every violation is counted in [violations] and in
    [totalElements]; each recognized bucket counts the violations of its own
    level only.  A violation whose impact is absent, null or empty leaves
    [violationsByImpact] untouched, and an unrecognized non-empty impact [k]
    (other than "__proto__") gets a bucket of its own that holds [NaN]. *)
Theorem generateSummary_impact_buckets :
  forall b r s vs,
    generateSummary b r = ok s ->
    ScanResult.violations r = Some vs ->
    (exists n,
        impact_sum s = Num n /\ (n <= len vs)%N /\
        (n = len vs <->
         forallb (fun v => recognized (RuleOutcome.impact v)) vs = true)) /\
    Summary.violations s = len vs /\
    (Summary.violations s <= Summary.totalElements s)%N /\
    (forall k, In k recognized_levels ->
       bucket k (Summary.violationsByImpact s) = Num (count_level k vs)) /\
    (forall vs1 v vs2 s',
       vs = (vs1 ++ v :: vs2)%list ->
       truthy (RuleOutcome.impact v) = false ->
       generateSummary b (with_violations (vs1 ++ vs2)%list r) = ok s' ->
       Summary.violationsByImpact s = Summary.violationsByImpact s') /\
    (forall k,
       k <> "" -> k <> "__proto__" -> recognized (ImpactString k) = false ->
       existsb (has_impact k) vs = true ->
       JsObject.get k (Summary.violationsByImpact s) = Some NaN).
Proof.
  intros b r s vs Hs Hvs.
  assert (forall k, In k recognized_levels ->
            bucket k (Summary.violationsByImpact s) = Num (count_level k vs))
    as Hbucket.
  { intros k Hk. unfold bucket.
    rewrite (summary_bucket b r s vs k Hs Hvs Hk). reflexivity. }
  destruct (generateSummary_ok_inv _ _ _ Hs)
    as (p & v & i & n & Hp & Hv & Hi & Hn).
  pose proof Hs as Hs0.
  rewrite (generateSummary_present b r _ _ _ _ Hp Hv Hi Hn) in Hs0.
  rewrite Hvs in Hv. injection Hv as <-.
  repeat split.
  - exists (count_level "critical" vs + count_level "serious" vs +
            count_level "moderate" vs + count_level "minor" vs)%N.
    split; [|split].
    + unfold impact_sum.
      rewrite !Hbucket by (simpl; tauto). reflexivity.
    + rewrite count_levels_recognized. apply len_filter_le.
    + rewrite count_levels_recognized. apply len_filter_eq.
  - injection Hs0 as <-. reflexivity.
  - injection Hs0 as <-. simpl. lia.
  - exact Hbucket.
  - intros vs1 v vs2 s' Hsplit Hfalsy Hs'.
    rewrite (generateSummary_present b (with_violations (vs1 ++ vs2)%list r)
               p (vs1 ++ vs2)%list i n Hp eq_refl Hi Hn) in Hs'.
    injection Hs0 as <-. injection Hs' as <-. simpl.
    rewrite Hsplit. apply fold_count_impact_falsy. assumption.
  - intros k Hk1 Hk2 Hunrec Hex.
    injection Hs0 as <-. simpl.
    assert (JsObject.get k violationsByImpact0 = None) as H0.
    { simpl in Hunrec. simpl.
      destruct (String.eqb k "critical"); [discriminate|].
      destruct (String.eqb k "serious"); [discriminate|].
      destruct (String.eqb k "moderate"); [discriminate|].
      destruct (String.eqb k "minor"); [discriminate|reflexivity]. }
    rewrite (fold_count_impact_new k vs _ Hk1 Hk2 H0), Hex. reflexivity.
Qed.

Lemma generateSummary_impact_buckets_witness :
  (exists s n,
      generateSummary "chromium" scenario = ok s /\
      impact_sum s = Num n /\ (n <= len [scenario_violation])%N) /\
  (exists s,
      generateSummary "chromium" scenario_with_unknown_impact = ok s /\
      JsObject.get "cosmetic" (Summary.violationsByImpact s) = Some NaN) /\
  (exists s s',
      generateSummary "chromium" scenario_with_missing_impact = ok s /\
      generateSummary "chromium" scenario = ok s' /\
      Summary.violationsByImpact s = Summary.violationsByImpact s').
Proof.
  split; [|split].
  - destruct (generateSummary_impact_buckets "chromium" scenario _
                [scenario_violation] eq_refl eq_refl)
      as [[n [H1 [H2 _]]] _].
    eexists. exists n. split; [reflexivity|]. split; assumption.
  - destruct (generateSummary_impact_buckets "chromium"
                scenario_with_unknown_impact _
                [scenario_violation; outcome_with_impact (ImpactString "cosmetic")]
                eq_refl eq_refl)
      as (_ & _ & _ & _ & _ & H).
    eexists. split; [reflexivity|].
    apply H; [discriminate | discriminate | reflexivity | reflexivity].
  - destruct (generateSummary_impact_buckets "chromium"
                scenario_with_missing_impact _
                [scenario_violation; outcome_with_impact ImpactNull]
                eq_refl eq_refl)
      as (_ & _ & _ & _ & H & _).
    eexists. eexists. split; [reflexivity|]. split; [reflexivity|].
    apply (H [scenario_violation] (outcome_with_impact ImpactNull) []);
      reflexivity.
Defined.

(** C1, the clause that fails: a violation of impact "foo" is reflected in
    the summary by a bucket "foo" holding [NaN]. *)
Lemma unrecognized_impact_is_reflected : ~ unrecognized_impact_not_reflected.
Proof.
  intros H.
  pose (r := ScanResult.mk "u" "t" None (Some [])
               (Some [outcome_with_impact (ImpactString "foo")])
               (Some []) (Some [])).
  specialize (H "chromium" r [] (outcome_with_impact (ImpactString "foo")) []
                _ _ eq_refl eq_refl eq_refl eq_refl).
  discriminate H.
Qed.

(** C2.  For a scan result that has the four category sequences the summary's
    per-category counts are the lengths of the sequences and [totalElements]
    is their sum; on the concrete scenario the summary is 13, 10, 1, 0, 2. *)
Theorem generateSummary_counts :
  (forall b r p v i n,
     ScanResult.passes r = Some p ->
     ScanResult.violations r = Some v ->
     ScanResult.incomplete r = Some i ->
     ScanResult.inapplicable r = Some n ->
     exists s,
       generateSummary b r = ok s /\
       Summary.totalElements s = (len p + len v + len i + len n)%N /\
       Summary.passes s = len p /\
       Summary.violations s = len v /\
       Summary.incomplete s = len i /\
       Summary.inapplicable s = len n /\
       Summary.totalElements s =
       (Summary.passes s + Summary.violations s + Summary.incomplete s +
        Summary.inapplicable s)%N) /\
  (forall b, exists s,
     generateSummary b scenario = ok s /\
     Summary.totalElements s = 13%N /\ Summary.passes s = 10%N /\
     Summary.violations s = 1%N /\ Summary.incomplete s = 0%N /\
     Summary.inapplicable s = 2%N /\
     Summary.violationsByImpact s =
     [("critical", Num 0); ("serious", Num 1); ("moderate", Num 0);
      ("minor", Num 0)]).
Proof.
  split.
  - intros b r p v i n Hp Hv Hi Hn.
    eexists. split; [apply (generateSummary_present b r p v i n Hp Hv Hi Hn)|].
    simpl. repeat split; reflexivity.
  - intros b. eexists. split; [reflexivity|]. repeat split; reflexivity.
Qed.

Lemma generateSummary_counts_witness :
  exists s,
    generateSummary "firefox" scenario = ok s /\
    Summary.totalElements s = 13%N.
Proof.
  destruct (proj1 generateSummary_counts "firefox" scenario
              (repeat (outcome_with_impact ImpactNull) 10)
              [scenario_violation] []
              (repeat (outcome_with_impact ImpactUndefined) 2)
              eq_refl eq_refl eq_refl eq_refl)
    as [s [H1 [H2 _]]].
  exists s. split; [exact H1 | exact H2].
Defined.

(** C3.  [generateSummary] throws (a [TypeError], the input shape error of
    this code) exactly when one of the four category keys is absent; when the
    four keys are present it returns a summary, also when all four sequences
    are empty. *)
Theorem generateSummary_fails_iff_key_absent :
  forall b r,
    ((exists m, generateSummary b r = throw (TypeError m)) <->
     ScanResult.has_categories r = false) /\
    ((exists s, generateSummary b r = ok s) <->
     ScanResult.has_categories r = true) /\
    (exists s,
       generateSummary b
         (ScanResult.mk (ScanResult.url r) (ScanResult.timestamp r)
            (ScanResult.testEngine r) (Some []) (Some []) (Some []) (Some []))
       = ok s /\ Summary.totalElements s = 0%N).
Proof.
  intros b r. split; [|split].
  - split.
    + intros [m Hm]. destruct (ScanResult.has_categories r) eqn:E; [|reflexivity].
      unfold ScanResult.has_categories in E.
      destruct (ScanResult.passes r) as [p|] eqn:Hp; [|discriminate].
      destruct (ScanResult.violations r) as [v|] eqn:Hv; [|discriminate].
      destruct (ScanResult.incomplete r) as [i|] eqn:Hi; [|discriminate].
      destruct (ScanResult.inapplicable r) as [n|] eqn:Hn; [|discriminate].
      rewrite (generateSummary_present b r p v i n Hp Hv Hi Hn) in Hm.
      discriminate.
    + intros E. eexists. apply generateSummary_absent. assumption.
  - split.
    + intros [s Hs]. destruct (ScanResult.has_categories r) eqn:E; [reflexivity|].
      rewrite (generateSummary_absent b r E) in Hs. discriminate.
    + intros E. unfold ScanResult.has_categories in E.
      destruct (ScanResult.passes r) as [p|] eqn:Hp; [|discriminate].
      destruct (ScanResult.violations r) as [v|] eqn:Hv; [|discriminate].
      destruct (ScanResult.incomplete r) as [i|] eqn:Hi; [|discriminate].
      destruct (ScanResult.inapplicable r) as [n|] eqn:Hn; [|discriminate].
      eexists. apply (generateSummary_present b r p v i n Hp Hv Hi Hn).
  - eexists. split; reflexivity.
Qed.

Lemma summary_timestamp b r s :
  generateSummary b r = ok s -> Summary.timestamp s = ScanResult.timestamp r.
Proof.
  intros Hs.
  destruct (generateSummary_ok_inv _ _ _ Hs)
    as (p & v & i & n & Hp & Hv & Hi & Hn).
  rewrite (generateSummary_present b r _ _ _ _ Hp Hv Hi Hn) in Hs.
  injection Hs as <-. reflexivity.
Qed.

(** C10.  The summary of a well-formed scan result carries the result's
    [url] and [timestamp] and the configured browser name. *)
Theorem generateSummary_metadata :
  forall b r s,
    generateSummary b r = ok s ->
    Summary.url s = ScanResult.url r /\
    Summary.timestamp s = ScanResult.timestamp r /\
    Summary.browser s = b.
Proof.
  intros b r s Hs.
  split; [|split; [exact (summary_timestamp b r s Hs)|]];
    destruct (generateSummary_ok_inv _ _ _ Hs)
      as (p & v & i & n & Hp & Hv & Hi & Hn);
    rewrite (generateSummary_present b r _ _ _ _ Hp Hv Hi Hn) in Hs;
    injection Hs as <-; reflexivity.
Qed.

Lemma generateSummary_metadata_witness :
  Summary.url
    (Summary.mk "https://example.com/" "2024-01-15T10:30:00.000Z" "webkit"
       13 10 1 0 2
       [("critical", Num 0); ("serious", Num 1); ("moderate", Num 0);
        ("minor", Num 0)]) = ScanResult.url scenario.
Proof.
  exact (proj1 (generateSummary_metadata "webkit" scenario _ eq_refl)).
Defined.

(** ** Strings *)

Lemma append_assoc (a b c : string) : (a ++ b) ++ c = a ++ b ++ c.
Proof. induction a as [|x a IH]; simpl; [reflexivity|]. rewrite IH. reflexivity. Qed.

Lemma append_nil_r (a : string) : a ++ "" = a.
Proof. induction a as [|x a IH]; simpl; [reflexivity|]. rewrite IH. reflexivity. Qed.

Lemma infix_here (x rest : string) : exists a b, x ++ rest = a ++ x ++ b.
Proof. exists "", rest. reflexivity. Qed.

Lemma infix_later (c t x : string) :
  (exists a b, t = a ++ x ++ b) -> exists a b, c ++ t = a ++ x ++ b.
Proof.
  intros (a & b & ->). exists (c ++ a), b. rewrite append_assoc. reflexivity.
Qed.

(** ** The affected elements of a violation *)

Lemma slice0_length {A : Type} (n : nat) (xs : list A) :
  List.length (slice0 n xs) = Nat.min n (List.length xs).
Proof. unfold slice0. apply length_firstn. Qed.

Lemma shown_targets_length nodes :
  List.length (shown_targets nodes) = Nat.min 3 (List.length nodes).
Proof. unfold shown_targets. rewrite length_map. apply slice0_length. Qed.

Lemma shown_targets_prefix nodes :
  map (fun node => join " " (AffectedNode.target node)) nodes =
  (shown_targets nodes
   ++ map (fun node => join " " (AffectedNode.target node)) (skipn 3 nodes))%list.
Proof.
  unfold shown_targets, slice0. rewrite <- map_app, firstn_skipn. reflexivity.
Qed.

Lemma more_indicator_none nodes :
  (len nodes <= 3)%N -> more_indicator nodes = "".
Proof.
  intros H. unfold more_indicator.
  destruct (N.ltb_spec 3 (len nodes)); [lia|reflexivity].
Qed.

Lemma more_indicator_some nodes :
  (3 < len nodes)%N ->
  more_indicator nodes = "<br>... and " ++ string_of_N (len nodes - 3) ++ " more".
Proof.
  intros H. unfold more_indicator.
  destruct (N.ltb_spec 3 (len nodes)); [reflexivity|lia].
Qed.

Lemma violation_block_shows_affected_elements violation :
  exists a b, violation_block violation = a ++ affected_elements violation ++ b.
Proof.
  unfold violation_block.
  repeat first [ apply infix_here | apply infix_later ].
Qed.

Lemma violations_section_shows_blocks summary violations :
  exists a b,
    violations_section summary violations =
    a ++ join "" (map violation_block violations) ++ b.
Proof.
  unfold violations_section.
  repeat first [ apply infix_here | apply infix_later ].
Qed.

(** C9 (as amended).  The detail block of every violation holds its block
    of affected elements.  That block is empty when the violation has no
    node; otherwise it lists the selectors of the first three nodes at most,
    in order, joined by "<br>", followed by the indicator, which is empty up
    to three nodes and reads "<br>... and N more" with N the number of nodes
    minus 3 beyond; with five nodes: three selectors and
    "<br>... and 2 more". *)
Theorem affected_elements_listing :
  exists opening middle closing : string,
    forall violation : RuleOutcome.t,
      let nodes := RuleOutcome.nodes violation in
      (exists a b,
         violation_block violation = a ++ affected_elements violation ++ b) /\
      (nodes = [] -> affected_elements violation = "") /\
      (nodes <> [] ->
       affected_elements violation =
       opening ++ join "<br>" (shown_targets nodes) ++ middle
       ++ more_indicator nodes ++ closing) /\
      List.length (shown_targets nodes) = Nat.min 3 (List.length nodes) /\
      (exists rest,
         map (fun node => join " " (AffectedNode.target node)) nodes =
         (shown_targets nodes ++ rest)%list) /\
      ((len nodes <= 3)%N -> more_indicator nodes = "") /\
      ((3 < len nodes)%N ->
       more_indicator nodes =
       "<br>... and " ++ string_of_N (len nodes - 3) ++ " more") /\
      (List.length nodes = 5 ->
       List.length (shown_targets nodes) = 3 /\
       more_indicator nodes = "<br>... and 2 more").
Proof.
  exists affected_opening, affected_middle, affected_closing.
  intros violation nodes. subst nodes.
  split; [apply violation_block_shows_affected_elements|].
  split; [|split; [|split; [|split; [|split; [|split]]]]].
  - intros H. unfold affected_elements. rewrite H. reflexivity.
  - intros H. unfold affected_elements.
    destruct (RuleOutcome.nodes violation) as [|n ns]; [congruence|].
    replace (N.ltb 0 (len (n :: ns))) with true
      by (symmetry; apply N.ltb_lt; unfold len; simpl length; lia).
    reflexivity.
  - apply shown_targets_length.
  - eexists. apply shown_targets_prefix.
  - apply more_indicator_none.
  - apply more_indicator_some.
  - intros H. split.
    + rewrite shown_targets_length, H. reflexivity.
    + rewrite more_indicator_some by (unfold len; rewrite H; lia).
      unfold len. rewrite H. reflexivity.
Qed.

Lemma affected_elements_listing_witness :
  (List.length (shown_targets five_nodes) = 3%nat /\
   more_indicator five_nodes = "<br>... and 2 more") /\
  affected_elements (outcome_with_impact ImpactNull) = "" /\
  more_indicator [scenario_node] = "" /\
  more_indicator (RuleOutcome.nodes scenario_violation) = "<br>... and 1 more" /\
  (exists opening middle closing,
      affected_elements five_node_violation =
      opening ++ "#a<br>#b<br>iframe #c" ++ middle ++ "<br>... and 2 more"
      ++ closing).
Proof.
  destruct affected_elements_listing as (opening & middle & closing & H).
  split; [|split; [|split; [|split]]].
  - destruct (H five_node_violation) as (_ & _ & _ & _ & _ & _ & _ & H5).
    exact (H5 eq_refl).
  - destruct (H (outcome_with_impact ImpactNull)) as (_ & H0 & _).
    exact (H0 eq_refl).
  - destruct (H (RuleOutcome.mk "" "" "" "" ImpactNull [] [scenario_node]))
      as (_ & _ & _ & _ & _ & H1 & _).
    apply H1. vm_compute. discriminate.
  - destruct (H scenario_violation) as (_ & _ & _ & _ & _ & _ & H4 & _).
    apply H4. reflexivity.
  - destruct (H five_node_violation) as (_ & _ & Hne & _).
    exists opening, middle, closing. apply Hne. discriminate.
Defined.

(** C9, the wording that fails: with five affected nodes the block holds no
    "+2 more"; the indicator reads "... and 2 more". *)
Lemma plus_more_indicator_not_shown : ~ plus_more_indicator_shown.
Proof.
  intros H. specialize (H five_node_violation).
  assert (3 < len (RuleOutcome.nodes five_node_violation))%N as H5
    by (vm_compute; reflexivity).
  specialize (H H5). vm_compute in H. discriminate H.
Qed.

(** ** The time shown by the HTML reports *)

Lemma html_document_shows_timestamp P this host summary violations :
  exists a b,
    html_document P this host summary violations =
    a ++ Platform.toLocaleString P (Platform.Date P (Summary.timestamp summary))
      ++ b.
Proof.
  unfold html_document.
  repeat first [ apply infix_here | apply infix_later ].
Qed.

Lemma generateHTMLReport_html_inv P this results html :
  generateHTMLReport_html P this results = ok html ->
  exists summary host violations,
    generateSummary (Tester.browser this) results = ok summary /\
    html = html_document P this host summary violations.
Proof.
  unfold generateHTMLReport_html, html_template, hostname_of.
  destruct (generateSummary (Tester.browser this) results) as [e|summary];
    simpl; [discriminate|].
  destruct (Platform.hostname P (Tester.url this)) as [host|]; simpl;
    [|discriminate].
  destruct (N.ltb 0 (Summary.violations summary)).
  - destruct (ScanResult.violations results) as [vs|]; simpl; [|discriminate].
    intros H. injection H as <-. exists summary, host, vs. split; reflexivity.
  - simpl. intros H. injection H as <-. exists summary, host, []. split; reflexivity.
Qed.

Lemma generateHTMLReport_effect P E results s :
  World.clock_reads (State.world (fst (generateHTMLReport P E results s))) =
  World.clock_reads (State.world s) /\
  (snd (generateHTMLReport P E results s) = ok tt ->
   exists dir html,
     Tester.reportDir (State.this s) = Some dir /\
     generateHTMLReport_html P (State.this s) results = ok html /\
     World.files (State.world (fst (generateHTMLReport P E results s))) =
     (Platform.path_join P dir "report.html", html)
       :: World.files (State.world s)).
Proof.
  unfold generateHTMLReport, generateHTMLReport_html, report_path, bind, this_,
    lift, in_world, writeFile, ret, raise.
  destruct s as [this w bv]. simpl.
  destruct (generateSummary (Tester.browser this) results) as [e|summary];
    simpl; [split; [reflexivity|discriminate]|].
  destruct (Tester.reportDir this) as [dir|]; simpl;
    [|split; [reflexivity|discriminate]].
  destruct (html_template P this summary results) as [e|html]; simpl;
    [split; [reflexivity|discriminate]|].
  destruct (Env.fault E (Tester.browser this)
              (fs_writeFile (Platform.path_join P dir "report.html")));
    simpl; [split; [reflexivity|discriminate]|].
  split; [reflexivity|]. intros _. exists dir, html. repeat split.
Qed.

Lemma wdio_generateHTMLReport_cases P results :
  (exists e, forall now, Wdio.generateHTMLReport P now results = throw e) \/
  (exists rest, forall now,
      Wdio.generateHTMLReport P now results =
      ok (Wdio.html_before_clock ++ Platform.toLocaleString P (Some now) ++ rest)).
Proof.
  unfold Wdio.generateHTMLReport, Wdio.map_of, Wdio.testEngine_version, length_of.
  destruct (ScanResult.violations results) as [vs|]; simpl;
    [|left; eexists; reflexivity].
  destruct (ScanResult.testEngine results) as [v|]; simpl;
    [|left; eexists; reflexivity].
  destruct (ScanResult.passes results) as [ps|]; simpl;
    [|left; eexists; reflexivity].
  destruct (ScanResult.incomplete results) as [ic|]; simpl;
    [|left; eexists; reflexivity].
  destruct (ScanResult.inapplicable results) as [ia|]; simpl;
    [|left; eexists; reflexivity].
  right. eexists. intros now. unfold Wdio.html_document. reflexivity.
Qed.

(** C5 (as amended).  The HTML report of the Playwright tool never reads the
    clock: what it writes to report.html is a function of the scan result,
    the tester's configuration and the platform, and the time in its header
    is [results.timestamp] formatted by the platform.  The HTML report of the
    WebdriverIO tool is the same for two clock readings that the platform
    formats alike: the clock enters its text once, in the title, between a
    fixed opening and a rest that does not depend on the clock. *)
Theorem html_reports_and_the_clock :
  (forall P E results s,
     World.clock_reads (State.world (fst (generateHTMLReport P E results s))) =
     World.clock_reads (State.world s) /\
     (snd (generateHTMLReport P E results s) = ok tt ->
      exists dir html,
        Tester.reportDir (State.this s) = Some dir /\
        generateHTMLReport_html P (State.this s) results = ok html /\
        World.files (State.world (fst (generateHTMLReport P E results s))) =
        (Platform.path_join P dir "report.html", html)
          :: World.files (State.world s))) /\
  (forall P this results html,
     generateHTMLReport_html P this results = ok html ->
     exists a b,
       html =
       a ++ Platform.toLocaleString P
              (Platform.Date P (ScanResult.timestamp results)) ++ b) /\
  (forall P results,
     (exists e, forall now, Wdio.generateHTMLReport P now results = throw e) \/
     (exists rest, forall now,
         Wdio.generateHTMLReport P now results =
         ok (Wdio.html_before_clock
             ++ Platform.toLocaleString P (Some now) ++ rest))) /\
  (forall P now now' results,
     Platform.toLocaleString P (Some now) =
     Platform.toLocaleString P (Some now') ->
     Wdio.generateHTMLReport P now results =
     Wdio.generateHTMLReport P now' results).
Proof.
  split; [|split; [|split]].
  - apply generateHTMLReport_effect.
  - intros P this results html H.
    destruct (generateHTMLReport_html_inv P this results html H)
      as (summary & host & violations & Hs & ->).
    rewrite <- (summary_timestamp _ _ _ Hs).
    apply html_document_shows_timestamp.
  - apply wdio_generateHTMLReport_cases.
  - intros P now now' results Heq.
    destruct (wdio_generateHTMLReport_cases P results) as [[e H]|[rest H]].
    + rewrite !H. reflexivity.
    + rewrite !H, Heq. reflexivity.
Qed.

Lemma html_reports_and_the_clock_witness :
  (exists html a b,
      generateHTMLReport_html sample_platform sample_tester scenario = ok html /\
      html = a ++ "24" ++ b) /\
  (exists dir html,
      Tester.reportDir ready_tester = Some dir /\
      generateHTMLReport_html sample_platform ready_tester scenario = ok html /\
      World.files
        (State.world
           (fst (generateHTMLReport sample_platform sample_env scenario
                   ready_state))) =
      [(Platform.path_join sample_platform dir "report.html", html)]) /\
  Wdio.generateHTMLReport
    (Platform.mk (fun u => Some u) (fun _ => None) (fun _ => "today")
       (fun _ => "") (fun a b => a ++ b) "4.10.0") 1 scenario =
  Wdio.generateHTMLReport
    (Platform.mk (fun u => Some u) (fun _ => None) (fun _ => "today")
       (fun _ => "") (fun a b => a ++ b) "4.10.0") 2 scenario.
Proof.
  destruct html_reports_and_the_clock as (H1 & H2 & _ & H4).
  split; [|split].
  - destruct (H2 sample_platform sample_tester scenario _ eq_refl)
      as (a & b & Hab).
    eexists. exists a, b. split; [reflexivity | exact Hab].
  - destruct (H1 sample_platform sample_env scenario ready_state) as (_ & H).
    exact (H eq_refl).
  - apply H4. reflexivity.
Defined.

(** C5, as stated, fails on the renderer of the WebdriverIO tool: its title
    holds the time at which the report is rendered, so two runs on the same
    result at different times differ. *)
Lemma html_rendering_not_deterministic : ~ html_rendering_deterministic.
Proof.
  intros H.
  specialize (H sample_platform 1%Z 2%Z
                (ScanResult.mk "https://example.com/" "2024-01-15T10:30:00.000Z"
                   (Some "4.10.0") (Some []) (Some []) (Some []) (Some []))).
  destruct (wdio_generateHTMLReport_cases sample_platform
              (ScanResult.mk "https://example.com/" "2024-01-15T10:30:00.000Z"
                 (Some "4.10.0") (Some []) (Some []) (Some []) (Some [])))
    as [[e He]|[rest Hr]].
  - specialize (He 1%Z). discriminate He.
  - rewrite !Hr in H. injection H as H.
    assert (String.get 176 (Wdio.html_before_clock ++ "1" ++ rest) =
            String.get 176 (Wdio.html_before_clock ++ "2" ++ rest)) as Hg.
    { change (Platform.toLocaleString sample_platform (Some 1%Z)) with "1" in H.
      change (Platform.toLocaleString sample_platform (Some 2%Z)) with "2" in H.
      rewrite H. reflexivity. }
    discriminate Hg.
Qed.

(** ** Browser sessions *)

Lemma remove_first_head h xs : remove_first h (h :: xs) = xs.
Proof. simpl. rewrite Nat.eqb_refl. reflexivity. Qed.

(** Unfolding of the state-passing combinators. *)
Ltac unfold_run :=
  unfold try_catch, try_finally, bind, ret, raise, lift, this_, in_world,
    update_this, set_browser_var, get_browser_var, external, acquire, release,
    mkdir, writeFile, new_Date in *.

(** One case split on what a collaborator does, or on a value the control
    flow depends on. *)
Ltac split_run :=
  match goal with
  | |- context [match Env.fault ?E ?l ?c with _ => _ end] =>
      destruct (Env.fault E l c) eqn:?; simpl
  | |- context [match Tester.reportDir ?t with _ => _ end] =>
      destruct (Tester.reportDir t) eqn:?; simpl
  | |- context [match length_of ?x with _ => _ end] =>
      destruct (length_of x) eqn:?; simpl
  | |- context [match Wdio.generateHTMLReport ?P ?n ?r with _ => _ end] =>
      destruct (Wdio.generateHTMLReport P n r) eqn:?; simpl
  end.

Lemma runAudit_sessions P E s :
  World.open_sessions (State.world (fst (runAudit P E s))) =
  World.open_sessions (State.world s) /\
  World.launched (State.world (fst (runAudit P E s))) =
  match Env.fault E (Tester.browser (State.this s))
          (engine_launch (engine_of (Tester.browser (State.this s)))) with
  | None => S (World.launched (State.world s))
  | Some _ => World.launched (State.world s)
  end.
Proof.
  destruct s as [this w bv].
  unfold runAudit, close_and_rethrow, open_page, launchBrowser, call_out,
    browser_close, report_path.
  unfold_run. simpl.
  repeat split_run; rewrite ?Nat.eqb_refl; split; reflexivity.
Qed.

Lemma runWithAxePlaywright_sessions P E s :
  World.open_sessions (State.world (fst (runWithAxePlaywright P E s))) =
  World.open_sessions (State.world s) /\
  World.launched (State.world (fst (runWithAxePlaywright P E s))) =
  match Env.fault E (Tester.browser (State.this s))
          (engine_launch (engine_of (Tester.browser (State.this s)))) with
  | None => S (World.launched (State.world s))
  | Some _ => World.launched (State.world s)
  end.
Proof.
  destruct s as [this w bv].
  unfold runWithAxePlaywright, close_and_rethrow, open_page, launchBrowser,
    call_out, browser_close, report_path.
  unfold_run. simpl.
  repeat split_run; rewrite ?Nat.eqb_refl; split; reflexivity.
Qed.

Lemma runAccessibilityTest_sessions P E dirname s :
  World.open_sessions (Wdio.world (fst (Wdio.runAccessibilityTest P E dirname s))) =
  World.open_sessions (Wdio.world s) /\
  World.launched (Wdio.world (fst (Wdio.runAccessibilityTest P E dirname s))) =
  match Env.fault E "chrome" (engine_launch chrome) with
  | None => S (World.launched (Wdio.world s))
  | Some _ => World.launched (Wdio.world s)
  end.
Proof.
  destruct s as [w bv].
  unfold Wdio.runAccessibilityTest, Wdio.delete_session, Wdio.print_counts,
    Wdio.in_world, Wdio.set_browser_var, Wdio.get_browser_var.
  unfold_run. simpl.
  repeat split_run; rewrite ?Nat.eqb_refl; split; reflexivity.
Qed.

(** C8.  Each audit run ([runAudit], [runWithAxePlaywright] and
    [runAccessibilityTest]) asks for one browser session, and whether it
    returns or throws, the sessions open when it ends are those that were
    open when it started: the session it acquired has been closed.  It
    acquires exactly one session when the launch succeeds and none when the
    launch itself fails. *)
Theorem audit_run_releases_its_session :
  (forall P E s,
     World.open_sessions (State.world (fst (runAudit P E s))) =
     World.open_sessions (State.world s) /\
     World.launched (State.world (fst (runAudit P E s))) =
     match Env.fault E (Tester.browser (State.this s))
             (engine_launch (engine_of (Tester.browser (State.this s)))) with
     | None => S (World.launched (State.world s))
     | Some _ => World.launched (State.world s)
     end) /\
  (forall P E s,
     World.open_sessions (State.world (fst (runWithAxePlaywright P E s))) =
     World.open_sessions (State.world s) /\
     World.launched (State.world (fst (runWithAxePlaywright P E s))) =
     match Env.fault E (Tester.browser (State.this s))
             (engine_launch (engine_of (Tester.browser (State.this s)))) with
     | None => S (World.launched (State.world s))
     | Some _ => World.launched (State.world s)
     end) /\
  (forall P E dirname s,
     World.open_sessions
       (Wdio.world (fst (Wdio.runAccessibilityTest P E dirname s))) =
     World.open_sessions (Wdio.world s) /\
     World.launched
       (Wdio.world (fst (Wdio.runAccessibilityTest P E dirname s))) =
     match Env.fault E "chrome" (engine_launch chrome) with
     | None => S (World.launched (Wdio.world s))
     | Some _ => World.launched (Wdio.world s)
     end).
Proof.
  split; [|split].
  - apply runAudit_sessions.
  - apply runWithAxePlaywright_sessions.
  - apply runAccessibilityTest_sessions.
Qed.

(** ** The loop over the engines *)

Ltac unfold_methods :=
  unfold test_browser, run, init, runAudit, runWithAxePlaywright,
    generateJSONReport, generateHTMLReport, printConsoleSummary,
    close_and_rethrow, open_page, launchBrowser, call_out, browser_close,
    report_path, set_browser, set_timestamp, set_reportDir, build_report in *.

Ltac split_method :=
  match goal with
  | |- context [match Env.fault ?E ?l ?c with _ => _ end] =>
      destruct (Env.fault E l c) eqn:?; simpl
  | |- context [generateSummary ?b ?r] =>
      destruct (generateSummary b r) eqn:?; simpl
  | |- context [html_template ?P ?t ?s ?r] =>
      destruct (html_template P t s r) eqn:?; simpl
  end.

(** The body of the loop never throws: it records an outcome for its engine,
    keeps the configuration, and leaves no session open. *)
Lemma test_browser_total P E b results s :
  exists s' o,
    test_browser P E b results s = (s', ok (assign b o results)) /\
    same_config (State.this s) (State.this s') /\
    World.open_sessions (State.world s') = World.open_sessions (State.world s).
Proof.
  destruct s as [this w bv].
  unfold_methods. unfold_run. unfold same_config. simpl.
  repeat split_method; rewrite ?Nat.eqb_refl;
    eexists; eexists; (split; [reflexivity|]); simpl; repeat split.
Qed.

Section ObjectFacts.
Variable V : Type.
Implicit Types (o : JsObject.t V) (k : string) (v : V).

Lemma length_replace k v o :
  List.length (JsObject.replace k v o) = List.length o.
Proof.
  induction o as [|[k' v'] o IH]; simpl; [reflexivity|].
  destruct (String.eqb k k'); simpl; [reflexivity|]. rewrite IH. reflexivity.
Qed.

Lemma length_insert_index n k v o :
  List.length (JsObject.insert_index n k v o) = S (List.length o).
Proof.
  induction o as [|[k' v'] o IH]; simpl; [reflexivity|].
  destruct (JsObject.array_index k') as [n'|]; [|reflexivity].
  destruct (N.ltb n n'); simpl; [reflexivity|]. rewrite IH. reflexivity.
Qed.

Lemma length_create k v o :
  List.length (JsObject.create k v o) = S (List.length o).
Proof.
  unfold JsObject.create. destruct (JsObject.array_index k).
  - apply length_insert_index.
  - rewrite length_app. simpl. lia.
Qed.

Lemma filter_insert_index (p : string * V -> bool) n k v o :
  List.length (filter p (JsObject.insert_index n k v o)) =
  ((if p (k, v) then 1 else 0) + List.length (filter p o))%nat.
Proof.
  induction o as [|[k' v'] o IH]; simpl.
  - destruct (p (k, v)); reflexivity.
  - destruct (JsObject.array_index k') as [n'|].
    + destruct (N.ltb n n'); simpl.
      * destruct (p (k, v)); reflexivity.
      * destruct (p (k', v')); simpl; rewrite IH; lia.
    + simpl. destruct (p (k, v)); reflexivity.
Qed.

Lemma filter_create (p : string * V -> bool) k v o :
  List.length (filter p (JsObject.create k v o)) =
  ((if p (k, v) then 1 else 0) + List.length (filter p o))%nat.
Proof.
  unfold JsObject.create. destruct (JsObject.array_index k).
  - apply filter_insert_index.
  - rewrite filter_app, length_app. simpl.
    destruct (p (k, v)); simpl; lia.
Qed.

Lemma get_assign_same k v o :
  k <> "__proto__" -> JsObject.get k (assign k v o) = Some v.
Proof.
  intros Hk. apply String.eqb_neq in Hk.
  unfold assign, JsObject.set. rewrite Hk.
  destruct (JsObject.get k o) eqn:E.
  - eapply get_replace_same. eassumption.
  - apply get_create_same. assumption.
Qed.

Lemma get_assign_other k k' v o :
  k <> k' -> JsObject.get k (assign k' v o) = JsObject.get k o.
Proof.
  intros Hne. unfold assign, JsObject.set.
  destruct (String.eqb k' "__proto__"); [reflexivity|].
  destruct (JsObject.get k' o).
  - apply get_replace_other. assumption.
  - apply get_create_other. assumption.
Qed.

Lemma length_assign_new k v o :
  k <> "__proto__" -> JsObject.get k o = None ->
  List.length (assign k v o) = S (List.length o).
Proof.
  intros Hk Hget. apply String.eqb_neq in Hk.
  unfold assign, JsObject.set. rewrite Hk, Hget. apply length_create.
Qed.

End ObjectFacts.

Lemma count_outcomes_assign_new p k v o :
  k <> "__proto__" -> JsObject.get k o = None ->
  count_outcomes p (assign k v o) =
  ((if p v then 1 else 0) + count_outcomes p o)%nat.
Proof.
  intros Hk Hget. apply String.eqb_neq in Hk.
  unfold count_outcomes, assign, JsObject.set. rewrite Hk, Hget.
  apply (filter_create outcome (fun m => p (snd m))).
Qed.

Lemma engine_succeeds_config P E t t' b :
  same_config t t' -> engine_succeeds P E t b -> engine_succeeds P E t' b.
Proof.
  intros (Hu & _) (H1 & H2 & H3 & H4 & H5).
  unfold engine_succeeds. rewrite <- Hu. repeat split; assumption.
Qed.

Lemma same_config_trans t1 t2 t3 :
  same_config t1 t2 -> same_config t2 t3 -> same_config t1 t3.
Proof.
  unfold same_config. intros (A1 & A2 & A3 & A4 & A5) (B1 & B2 & B3 & B4 & B5).
  repeat split; congruence.
Qed.

Lemma same_config_refl t : same_config t t.
Proof. unfold same_config. repeat split. Qed.

Lemma engine_summary_ok P E t b :
  engine_succeeds P E t b -> exists summary, engine_summary E b = ok summary.
Proof.
  intros (_ & Hp & Hi & Hn & _). unfold engine_summary.
  destruct (ScanResult.passes (Env.scan E b)) as [p|] eqn:Ep; [|congruence].
  destruct (ScanResult.incomplete (Env.scan E b)) as [i|] eqn:Ei; [|congruence].
  destruct (ScanResult.inapplicable (Env.scan E b)) as [n|] eqn:En; [|congruence].
  eexists.
  apply (generateSummary_present b
           (with_violations (Env.found E b) (Env.scan E b)) p (Env.found E b) i n);
    simpl; auto.
Qed.

(** A run in which nothing fails records a success that holds the summary of
    the engine's own scan and the directory of its reports. *)
Lemma test_browser_success P E b results s :
  engine_succeeds P E (State.this s) b ->
  exists s' summary dir,
    test_browser P E b results s =
    (s', ok (assign b (Success summary (Some dir)) results)) /\
    engine_summary E b = ok summary /\
    same_config (State.this s) (State.this s') /\
    World.open_sessions (State.world s') = World.open_sessions (State.world s).
Proof.
  intros Hgood.
  destruct (engine_summary_ok P E (State.this s) b Hgood) as [summary Hsum].
  destruct Hgood as (Hf & _ & _ & _ & Hh).
  destruct s as [this w bv]. simpl in Hh.
  unfold engine_summary in Hsum.
  assert (exists html,
             html_template P
               (Tester.mk (Tester.url this) (Tester.outputDir this) b
                  (Tester.headed this) (Tester.viewport this)
                  (Tester.axeOptions this)
                  (b ++ "-" ++ dashed (Platform.toISOString P
                                         (Env.clock E (World.clock_reads w))))
                  (Some (Platform.path_join P (Tester.outputDir this)
                           (b ++ "-" ++ dashed (Platform.toISOString P
                              (Env.clock E (World.clock_reads w)))))))
               summary (with_violations (Env.found E b) (Env.scan E b))
             = ok html) as [html Hhtml].
  { unfold html_template, hostname_of. simpl.
    destruct (Platform.hostname P (Tester.url this)); [|congruence]. simpl.
    destruct (N.ltb 0 (Summary.violations summary)); eexists; reflexivity. }
  unfold_methods. unfold_run. unfold same_config. simpl.
  simpl in Hhtml.
  repeat progress (rewrite ?Hf, ?Hsum, ?Hhtml, ?Nat.eqb_refl; simpl).
  eexists. exists summary. eexists. split; [reflexivity|].
  simpl. repeat split. exact Hsum.
Qed.

(** A run whose navigation fails records a failure with the message of the
    error. *)
Lemma test_browser_navigation_error P E b msg results s :
  navigation_fails E (Tester.url (State.this s)) b msg ->
  exists s',
    test_browser P E b results s = (s', ok (assign b (Failure msg) results)) /\
    same_config (State.this s) (State.this s') /\
    World.open_sessions (State.world s') = World.open_sessions (State.world s).
Proof.
  intros (Hmk & Hl & Hc & Hp & Hg).
  destruct s as [this w bv]. simpl in Hg.
  unfold_methods. unfold_run. unfold same_config. simpl.
  rewrite Hmk. simpl. rewrite Hl. simpl. rewrite Hc. simpl. rewrite Hp. simpl.
  rewrite Hg. simpl. rewrite Nat.eqb_refl.
  eexists. split; [reflexivity|]. simpl. repeat split.
Qed.

Lemma navigation_fails_config E t t' b msg :
  same_config t t' ->
  navigation_fails E (Tester.url t) b msg ->
  navigation_fails E (Tester.url t') b msg.
Proof. intros (Hu & _). rewrite Hu. trivial. Qed.

Lemma navigation_fails_not_succeeds P E t b msg :
  navigation_fails E (Tester.url t) b msg -> ~ engine_succeeds P E t b.
Proof.
  intros (_ & _ & _ & _ & Hg) (Hf & _). rewrite Hf in Hg. discriminate.
Qed.

Lemma navigation_fails_message E url b msg msg' :
  navigation_fails E url b msg -> navigation_fails E url b msg' -> msg = msg'.
Proof.
  intros (_ & _ & _ & _ & Hg) (_ & _ & _ & _ & Hg'). congruence.
Qed.

(** The loop, when each engine either works or fails at navigation ([good]
    tells which): it returns an object with one entry per engine, a success
    for each engine that works and a failure for each that does not, and an
    entry, once written, is what the object still holds when the loop ends. *)
Lemma for_each_browser_outcomes P E (good : string -> bool) bs :
  forall results s,
    NoDup bs -> ~ In "__proto__" bs ->
    (forall b, In b bs -> JsObject.get b results = None) ->
    (forall b, In b bs -> good b = true ->
               engine_succeeds P E (State.this s) b) ->
    (forall b, In b bs -> good b = false ->
               exists msg, navigation_fails E (Tester.url (State.this s)) b msg) ->
    exists s' results',
      for_each_browser P E bs results s = (s', ok results') /\
      same_config (State.this s) (State.this s') /\
      World.open_sessions (State.world s') = World.open_sessions (State.world s) /\
      List.length results' = (List.length results + List.length bs)%nat /\
      count_outcomes success results' =
      (count_outcomes success results + List.length (filter good bs))%nat /\
      count_outcomes failure results' =
      (count_outcomes failure results
       + List.length (filter (fun b => negb (good b)) bs))%nat /\
      (forall k, ~ In k bs -> JsObject.get k results' = JsObject.get k results) /\
      (forall b, In b bs -> good b = true ->
         exists summary dir,
           engine_summary E b = ok summary /\
           JsObject.get b results' = Some (Success summary (Some dir))) /\
      (forall b msg, In b bs ->
         navigation_fails E (Tester.url (State.this s)) b msg ->
         JsObject.get b results' = Some (Failure msg)).
Proof.
  induction bs as [|b bs IH]; intros results s Hnd Hproto Hfresh Hgood Hbad.
  - exists s, results. simpl. unfold ret.
    repeat split; auto using same_config_refl; try lia; try contradiction.
  - inversion Hnd as [|? ? Hnotin Hnd']; subst.
    assert (b <> "__proto__") as Hb by (intros ->; apply Hproto; left; reflexivity).
    assert (~ In "__proto__" bs) as Hproto' by (intros H; apply Hproto; right; exact H).
    assert (JsObject.get b results = None) as Hbfresh by (apply Hfresh; left; reflexivity).
    assert (exists s1 o,
               test_browser P E b results s = (s1, ok (assign b o results)) /\
               same_config (State.this s) (State.this s1) /\
               World.open_sessions (State.world s1) =
               World.open_sessions (State.world s) /\
               success o = good b /\
               (good b = true ->
                exists summary dir,
                  engine_summary E b = ok summary /\
                  o = Success summary (Some dir)) /\
               (forall msg,
                   navigation_fails E (Tester.url (State.this s)) b msg ->
                   o = Failure msg))
      as (s1 & o & Hrun & Hcfg & Hopen & Hsucc & Hentry & Hfail).
    { destruct (good b) eqn:Eg.
      - pose proof (Hgood b (or_introl eq_refl) Eg) as Hok.
        destruct (test_browser_success P E b results s Hok)
          as (s1 & summary & dir & Hrun & Hsum & Hcfg & Hopen).
        exists s1, (Success summary (Some dir)).
        split; [exact Hrun|]. split; [exact Hcfg|]. split; [exact Hopen|].
        split; [reflexivity|]. split.
        + intros _. exists summary, dir. split; [assumption|reflexivity].
        + intros msg Hnav.
          exfalso. exact (navigation_fails_not_succeeds P E _ b msg Hnav Hok).
      - destruct (Hbad b (or_introl eq_refl) Eg) as [msg Hnav].
        destruct (test_browser_navigation_error P E b msg results s Hnav)
          as (s1 & Hrun & Hcfg & Hopen).
        exists s1, (Failure msg).
        split; [exact Hrun|]. split; [exact Hcfg|]. split; [exact Hopen|].
        split; [reflexivity|]. split.
        + discriminate.
        + intros msg' Hnav'.
          rewrite (navigation_fails_message E _ b msg msg' Hnav Hnav').
          reflexivity. }
    destruct (IH (assign b o results) s1 Hnd' Hproto') as
      (s' & results' & Hloop & Hcfg' & Hopen' & Hlen & Hcs & Hcf & Hkeep
         & Hsucc' & Hfail').
    { intros b' Hin. rewrite get_assign_other; [apply Hfresh; right; exact Hin|].
      intros ->. contradiction. }
    { intros b' Hin Hg. eapply engine_succeeds_config; [exact Hcfg|].
      apply Hgood; [right; exact Hin|exact Hg]. }
    { intros b' Hin Hg. destruct (Hbad b' (or_intror Hin) Hg) as [msg Hnav].
      exists msg. eapply navigation_fails_config; eassumption. }
    exists s', results'. simpl for_each_browser. unfold bind at 1.
    rewrite Hrun.
    split; [exact Hloop|].
    split; [eapply same_config_trans; eassumption|].
    split; [congruence|].
    split.
    { rewrite Hlen, length_assign_new by assumption. simpl. lia. }
    split.
    { rewrite Hcs, count_outcomes_assign_new by assumption.
      rewrite Hsucc. simpl. destruct (good b); simpl; lia. }
    split.
    { rewrite Hcf, count_outcomes_assign_new by assumption.
      unfold failure. rewrite Hsucc. simpl. destruct (good b); simpl; lia. }
    split.
    { intros k Hk. rewrite Hkeep by (intros H; apply Hk; right; exact H).
      apply get_assign_other. intros ->. apply Hk. left. reflexivity. }
    split.
    { intros b' [->|Hin] Hg.
      - destruct (Hentry Hg) as (summary & dir & Hsum & ->).
        exists summary, dir. split; [assumption|].
        rewrite Hkeep by assumption. apply get_assign_same. assumption.
      - apply Hsucc'; assumption. }
    { intros b' msg [->|Hin] Hnav.
      - rewrite Hkeep by assumption. rewrite (Hfail msg Hnav).
        apply get_assign_same. assumption.
      - apply Hfail'; [assumption|].
        eapply navigation_fails_config; eassumption. }
Qed.

Lemma for_each_browser_total P E bs :
  forall results s,
  exists s' results',
    for_each_browser P E bs results s = (s', ok results') /\
    World.open_sessions (State.world s') = World.open_sessions (State.world s).
Proof.
  induction bs as [|b bs IH]; intros results s.
  - exists s, results. split; reflexivity.
  - destruct (test_browser_total P E b results s) as (s1 & o & Hrun & _ & Hopen).
    destruct (IH (assign b o results) s1) as (s' & results' & Hloop & Hopen').
    exists s', results'. simpl. unfold bind at 1. rewrite Hrun.
    split; [exact Hloop | congruence].
Qed.

Lemma three_engines_one_bad (b1 b2 b3 bf : string) :
  NoDup [b1; b2; b3] -> In bf [b1; b2; b3] ->
  List.length (filter (fun b => negb (String.eqb b bf)) [b1; b2; b3]) = 2%nat /\
  List.length
    (filter (fun b => negb (negb (String.eqb b bf))) [b1; b2; b3]) = 1%nat.
Proof.
  intros Hnd Hin.
  inversion Hnd as [|? ? H1 Hnd1]; subst.
  inversion Hnd1 as [|? ? H2 Hnd2]; subst.
  assert (b1 <> b2) as H12 by (intros ->; apply H1; left; reflexivity).
  assert (b1 <> b3) as H13 by (intros ->; apply H1; right; left; reflexivity).
  assert (b2 <> b3) as H23 by (intros ->; apply H2; left; reflexivity).
  simpl.
  destruct Hin as [<-|[<-|[<-|[]]]];
    rewrite ?String.eqb_refl;
    repeat match goal with
           | |- context [String.eqb ?x ?y] =>
               let Hne := fresh in
               assert (String.eqb x y = false) as Hne
                 by (apply String.eqb_neq; congruence);
               rewrite Hne
           end;
    simpl; split; reflexivity.
Qed.

(** C6.  [runMultipleBrowsers] never throws, whatever fails while an engine
    is tested.  With three engines of distinct names of which one fails at
    navigation and the other two work, it returns an object of three
    entries, two successes and one failure: the failure holds the message of
    the navigation error, and each success holds, when the loop ends, the
    summary of its own engine's scan. *)
Theorem one_failing_engine_of_three :
  (forall P E bs s,
     exists s' results, runMultipleBrowsers P E bs s = (s', ok results)) /\
  (forall P E s b1 b2 b3 bf msg,
     NoDup [b1; b2; b3] -> ~ In "__proto__" [b1; b2; b3] ->
     In bf [b1; b2; b3] ->
     navigation_fails E (Tester.url (State.this s)) bf msg ->
     (forall b, In b [b1; b2; b3] -> b <> bf ->
                engine_succeeds P E (State.this s) b) ->
     exists s' results,
       runMultipleBrowsers P E [b1; b2; b3] s = (s', ok results) /\
       List.length results = 3%nat /\
       count_outcomes success results = 2%nat /\
       count_outcomes failure results = 1%nat /\
       JsObject.get bf results = Some (Failure msg) /\
       (forall b, In b [b1; b2; b3] -> b <> bf ->
          exists summary dir,
            engine_summary E b = ok summary /\
            JsObject.get b results = Some (Success summary (Some dir))) /\
       World.open_sessions (State.world s') =
       World.open_sessions (State.world s)).
Proof.
  split.
  - intros P E bs s. unfold runMultipleBrowsers.
    destruct (for_each_browser_total P E bs [] s) as (s' & results & H & _).
    exists s', results. exact H.
  - intros P E s b1 b2 b3 bf msg Hnd Hproto Hin Hnav Hok.
    destruct (for_each_browser_outcomes P E
                (fun b => negb (String.eqb b bf)) [b1; b2; b3] [] s Hnd Hproto)
      as (s' & results & Hrun & _ & Hopen & Hlen & Hcs & Hcf & _ & Hsucc & Hfail).
    + reflexivity.
    + intros b Hb Hg. apply Hok; [exact Hb|].
      intros ->. rewrite String.eqb_refl in Hg. discriminate.
    + intros b Hb Hg. exists msg.
      destruct (String.eqb_spec b bf) as [->|]; [exact Hnav|discriminate].
    + destruct (three_engines_one_bad b1 b2 b3 bf Hnd Hin) as [H2 H1].
      exists s', results. unfold runMultipleBrowsers.
      split; [exact Hrun|].
      split; [rewrite Hlen; reflexivity|].
      split; [rewrite Hcs, H2; reflexivity|].
      split; [rewrite Hcf, H1; reflexivity|].
      split; [apply Hfail; assumption|].
      split; [|exact Hopen].
      intros b Hb Hne. apply Hsucc; [exact Hb|].
      apply Bool.negb_true_iff. apply String.eqb_neq. exact Hne.
Qed.

Lemma one_failing_engine_of_three_witness :
  exists s' results,
    runMultipleBrowsers sample_platform sample_env default_browsers
      sample_state = (s', ok results) /\
    count_outcomes success results = 2%nat /\
    count_outcomes failure results = 1%nat /\
    JsObject.get "firefox" results =
    Some (Failure "net::ERR_NAME_NOT_RESOLVED").
Proof.
  destruct (proj2 one_failing_engine_of_three sample_platform sample_env
              sample_state "chromium" "firefox" "webkit" "firefox"
              "net::ERR_NAME_NOT_RESOLVED")
    as (s' & results & Hrun & _ & Hs & Hf & Hget & _).
  - repeat constructor; simpl; intuition discriminate.
  - simpl. intuition discriminate.
  - simpl. tauto.
  - repeat split.
  - intros b [<-|[<-|[<-|[]]]] Hne; try congruence;
      (split; [intros c; reflexivity|]);
      repeat split; simpl; discriminate.
  - exists s', results. repeat split; assumption.
Defined.

(** ** The tester object across the runs of the loop *)

(** The test of an engine writes the engine's name into [this.browser]. *)
Lemma test_browser_writes_browser P E b results s :
  Tester.browser (State.this (fst (test_browser P E b results s))) = b.
Proof.
  destruct s as [this w bv].
  unfold_methods. unfold_run. simpl.
  repeat split_method; reflexivity.
Qed.

(** It writes the time stamp of the run into [this.timestamp], and the
    directory of the run into [this.reportDir] once [init] has created it. *)
Lemma test_browser_writes_timestamp P E b results s :
  Tester.timestamp (State.this (fst (test_browser P E b results s))) =
  b ++ "-"
  ++ dashed (Platform.toISOString P
               (Env.clock E (World.clock_reads (State.world s)))).
Proof.
  destruct s as [this w bv].
  unfold_methods. unfold_run. simpl.
  repeat split_method; reflexivity.
Qed.

Lemma test_browser_writes_reportDir P E b results s :
  Env.fault E b
    (fs_mkdir
       (Platform.path_join P (Tester.outputDir (State.this s))
          (b ++ "-"
           ++ dashed (Platform.toISOString P
                        (Env.clock E (World.clock_reads (State.world s)))))))
  = None ->
  Tester.reportDir (State.this (fst (test_browser P E b results s))) =
  Some (Platform.path_join P (Tester.outputDir (State.this s))
          (b ++ "-"
           ++ dashed (Platform.toISOString P
                        (Env.clock E (World.clock_reads (State.world s)))))).
Proof.
  destruct s as [this w bv]. simpl. intros Hmk.
  unfold_methods. unfold_run. simpl. rewrite Hmk. simpl.
  repeat split_method; reflexivity.
Qed.

(** The test of an engine reads of the tester only its configuration: from
    two testers of the same configuration, in the same world, it has the
    same outcome and the same effects and leaves the same name and time
    stamp. *)
Lemma test_browser_reads_config P E b results w bv bv' t t' :
  same_config t t' ->
  snd (test_browser P E b results (State.mk t w bv)) =
  snd (test_browser P E b results (State.mk t' w bv')) /\
  State.world (fst (test_browser P E b results (State.mk t w bv))) =
  State.world (fst (test_browser P E b results (State.mk t' w bv'))) /\
  Tester.browser (State.this (fst (test_browser P E b results (State.mk t w bv)))) =
  Tester.browser (State.this (fst (test_browser P E b results (State.mk t' w bv')))) /\
  Tester.timestamp (State.this (fst (test_browser P E b results (State.mk t w bv)))) =
  Tester.timestamp (State.this (fst (test_browser P E b results (State.mk t' w bv')))) /\
  same_config (State.this (fst (test_browser P E b results (State.mk t w bv))))
    (State.this (fst (test_browser P E b results (State.mk t' w bv')))).
Proof.
  intros (Hu & Ho & Hh & Hv & Ha).
  destruct t as [u o br h v a ts rd]. destruct t' as [u' o' br' h' v' a' ts' rd'].
  simpl in Hu, Ho, Hh, Hv, Ha. subst u' o' h' v' a'.
  unfold_methods. unfold_run. unfold same_config. simpl.
  repeat split_method; repeat split; reflexivity.
Qed.

Lemma for_each_browser_cons P E b bs results s :
  for_each_browser P E (b :: bs) results s =
  match test_browser P E b results s with
  | (s1, inr results1) => for_each_browser P E bs results1 s1
  | (s1, inl e) => (s1, inl e)
  end.
Proof. reflexivity. Qed.

Lemma for_each_browser_reads_config P E bs :
  forall results w bv bv' t t',
    same_config t t' ->
    snd (for_each_browser P E bs results (State.mk t w bv)) =
    snd (for_each_browser P E bs results (State.mk t' w bv')) /\
    State.world (fst (for_each_browser P E bs results (State.mk t w bv))) =
    State.world (fst (for_each_browser P E bs results (State.mk t' w bv'))).
Proof.
  induction bs as [|b bs IH]; intros results w bv bv' t t' Hcfg.
  - split; reflexivity.
  - destruct (test_browser_reads_config P E b results w bv bv' t t' Hcfg)
      as (Hres & Hworld & _ & _ & Hcfg1).
    destruct (test_browser_total P E b results (State.mk t w bv))
      as (s1 & o & Hrun & _).
    destruct (test_browser_total P E b results (State.mk t' w bv'))
      as (s1' & o' & Hrun' & _).
    rewrite Hrun, Hrun' in Hres, Hworld, Hcfg1. simpl in Hres, Hworld, Hcfg1.
    rewrite !for_each_browser_cons, Hrun, Hrun'. unfold ok.
    injection Hres as Hres. rewrite <- Hres.
    destruct s1 as [t1 w1 bv1]. destruct s1' as [t1' w1' bv1'].
    simpl in Hworld, Hcfg1. subst w1'.
    apply IH. exact Hcfg1.
Qed.

(** C7 (as amended).  The runs of the loop share the tester object: each run
    overwrites [this.browser] and [this.timestamp] (and [this.reportDir] once
    its directory exists) and never assigns the configuration ([url],
    [outputDir], [headed], [viewport], [axeOptions]).  What a run reads of
    the tester is that configuration and what it has itself written: from two
    testers of the same configuration, in the same world, a run, and so the
    whole loop, has the same outcome and the same effects on the world. *)
Theorem engine_runs_read_only_the_configuration :
  (forall P E b results w bv bv' t t',
     same_config t t' ->
     snd (test_browser P E b results (State.mk t w bv)) =
     snd (test_browser P E b results (State.mk t' w bv')) /\
     State.world (fst (test_browser P E b results (State.mk t w bv))) =
     State.world (fst (test_browser P E b results (State.mk t' w bv'))) /\
     Tester.timestamp
       (State.this (fst (test_browser P E b results (State.mk t w bv)))) =
     Tester.timestamp
       (State.this (fst (test_browser P E b results (State.mk t' w bv'))))) /\
  (forall P E bs w bv bv' t t',
     same_config t t' ->
     snd (runMultipleBrowsers P E bs (State.mk t w bv)) =
     snd (runMultipleBrowsers P E bs (State.mk t' w bv')) /\
     State.world (fst (runMultipleBrowsers P E bs (State.mk t w bv))) =
     State.world (fst (runMultipleBrowsers P E bs (State.mk t' w bv')))) /\
  (forall P E b results s,
     same_config (State.this s)
       (State.this (fst (test_browser P E b results s))) /\
     Tester.browser (State.this (fst (test_browser P E b results s))) = b /\
     Tester.timestamp (State.this (fst (test_browser P E b results s))) =
     b ++ "-"
     ++ dashed (Platform.toISOString P
                  (Env.clock E (World.clock_reads (State.world s)))) /\
     (Env.fault E b
        (fs_mkdir
           (Platform.path_join P (Tester.outputDir (State.this s))
              (b ++ "-"
               ++ dashed (Platform.toISOString P
                            (Env.clock E (World.clock_reads (State.world s)))))))
      = None ->
      Tester.reportDir (State.this (fst (test_browser P E b results s))) =
      Some (Platform.path_join P (Tester.outputDir (State.this s))
              (b ++ "-"
               ++ dashed (Platform.toISOString P
                            (Env.clock E
                               (World.clock_reads (State.world s)))))))).
Proof.
  split; [|split].
  - intros P E b results w bv bv' t t' Hcfg.
    destruct (test_browser_reads_config P E b results w bv bv' t t' Hcfg)
      as (H1 & H2 & _ & H4 & _).
    repeat split; assumption.
  - intros P E bs w bv bv' t t' Hcfg. unfold runMultipleBrowsers.
    apply for_each_browser_reads_config. exact Hcfg.
  - intros P E b results s. split; [|split; [|split]].
    + destruct (test_browser_total P E b results s) as (s' & o & Hrun & Hcfg & _).
      rewrite Hrun. exact Hcfg.
    + apply test_browser_writes_browser.
    + apply test_browser_writes_timestamp.
    + apply test_browser_writes_reportDir.
Qed.

Lemma engine_runs_read_only_the_configuration_witness :
  snd (runMultipleBrowsers sample_platform sample_env default_browsers
         (State.mk sample_tester World.initial None)) =
  snd (runMultipleBrowsers sample_platform sample_env default_browsers
         (State.mk
            (Tester.mk "https://playwright.dev/" "accessibility-reports"
               "webkit" false (Viewport.mk 1920 1080)
               (Tester.axeOptions sample_tester) "webkit-earlier"
               (Some "accessibility-reports/webkit-earlier"))
            World.initial (Some 7%nat))) /\
  snd (test_browser sample_platform sample_env "firefox" []
         (State.mk sample_tester World.initial None)) =
  snd (test_browser sample_platform sample_env "firefox" []
         (State.mk ready_tester World.initial None)) /\
  Tester.reportDir
    (State.this
       (fst (test_browser sample_platform sample_env "firefox" [] ready_state)))
  = Some "accessibility-reports/firefox-0".
Proof.
  destruct engine_runs_read_only_the_configuration as (H1 & H2 & H3).
  split; [|split].
  - refine (proj1 (H2 sample_platform sample_env default_browsers World.initial
                     None (Some 7%nat) sample_tester _ _)).
    unfold same_config. repeat split.
  - refine (proj1 (H1 sample_platform sample_env "firefox" [] World.initial
                     None None sample_tester ready_tester _)).
    unfold same_config. repeat split.
  - destruct (H3 sample_platform sample_env "firefox" [] ready_state)
      as (_ & _ & _ & H).
    exact (H eq_refl).
Defined.

(** C7, as stated, fails: the second run of the loop assigns [this.browser],
    which the first run assigned. *)
Lemma runs_share_the_tester : ~ runs_share_no_tester_state.
Proof.
  intros H.
  specialize (H sample_platform sample_env "chromium" "firefox" [] sample_state).
  rewrite !test_browser_writes_browser in H. discriminate H.
Qed.

(** ** Reading back the text of a value *)

Lemma N_of_string_of_N n : N_of_string (string_of_N n) = Some n.
Proof.
  unfold N_of_string, string_of_N.
  pose proof (DecimalN.Unsigned.of_to n) as Hn.
  destruct (N.to_uint n) eqn:E;
    try (rewrite NilZero.usu by discriminate; rewrite Hn; reflexivity).
  simpl in Hn. subst n. reflexivity.
Qed.

Lemma all_digits_uint d : all_digits (NilEmpty.string_of_uint d) = true.
Proof. induction d; simpl; auto. Qed.

Lemma all_digits_string_of_N n : all_digits (string_of_N n) = true.
Proof.
  unfold string_of_N, NilZero.string_of_uint.
  destruct (N.to_uint n) eqn:E; try reflexivity;
    rewrite <- E; apply all_digits_uint.
Qed.

Lemma string_of_N_nonempty n : string_of_N n <> "".
Proof.
  unfold string_of_N, NilZero.string_of_uint.
  destruct (N.to_uint n); simpl; discriminate.
Qed.

Lemma delimited_not_digit rest :
  delimited rest = true ->
  match rest with
  | EmptyString => True
  | String c _ => Json.is_digit c = false
  end.
Proof.
  destruct rest as [|c rest]; [trivial|]. unfold delimited, Json.is_digit.
  intros H. apply Bool.orb_true_iff in H.
  destruct H as [H|H]; apply Nat.eqb_eq in H; rewrite H; reflexivity.
Qed.

Lemma delimited_not_number rest :
  delimited rest = true -> Json.continues_number rest = false.
Proof.
  destruct rest as [|c rest]; [reflexivity|].
  unfold delimited, Json.continues_number.
  intros H. apply Bool.orb_true_iff in H.
  destruct H as [H|H]; apply Nat.eqb_eq in H; rewrite H; reflexivity.
Qed.

Lemma span_digits_app ds rest :
  all_digits ds = true ->
  match rest with
  | EmptyString => True
  | String c _ => Json.is_digit c = false
  end ->
  Json.span_digits (ds ++ rest) = (ds, rest).
Proof.
  intros Hds Hrest. induction ds as [|c ds IH]; simpl.
  - destruct rest as [|c rest]; [reflexivity|]. simpl. rewrite Hrest. reflexivity.
  - simpl in Hds. apply Bool.andb_true_iff in Hds. destruct Hds as [Hc Hds].
    rewrite Hc, (IH Hds). reflexivity.
Qed.

Lemma parse_number_string_of_N n rest :
  delimited rest = true ->
  Json.parse_number (string_of_N n ++ rest) = Some (Json.VNumber (Num n), rest).
Proof.
  intros Hd. unfold Json.parse_number.
  rewrite (span_digits_app (string_of_N n) rest (all_digits_string_of_N n)
             (delimited_not_digit rest Hd)).
  simpl. rewrite N_of_string_of_N, String.eqb_refl.
  rewrite (delimited_not_number rest Hd). reflexivity.
Qed.

Lemma string_of_N_head n :
  exists c s, string_of_N n = String c s /\ Json.is_digit c = true.
Proof.
  pose proof (all_digits_string_of_N n) as H.
  pose proof (string_of_N_nonempty n) as Hne.
  destruct (string_of_N n) as [|c s]; [congruence|].
  simpl in H. apply Bool.andb_true_iff in H. exists c, s. tauto.
Qed.

Lemma parse_chars_escape_char c t :
  Json.parse_chars (Json.escape_char c ++ t) =
  Json.cons_char c (Json.parse_chars t).
Proof.
  destruct c as [[] [] [] [] [] [] [] []]; reflexivity.
Qed.

Lemma parse_chars_escape s rest :
  Json.parse_chars (Json.escape s ++ dq ++ rest) = Some (s, rest).
Proof.
  induction s as [|c s IH].
  - reflexivity.
  - cbn [Json.escape].
    rewrite append_assoc, parse_chars_escape_char, IH. reflexivity.
Qed.

Lemma parse_chars_quote s rest :
  Json.parse_chars (Json.escape s ++ dq) = Some (s, "") /\
  Json.quote s ++ rest = dq ++ Json.escape s ++ dq ++ rest.
Proof.
  split.
  - rewrite <- (append_nil_r dq) at 1. apply parse_chars_escape.
  - unfold Json.quote. rewrite !append_assoc. reflexivity.
Qed.

Lemma skip_whitespace_spaces n s :
  Json.skip_whitespace (Json.spaces n ++ s) = Json.skip_whitespace s.
Proof. induction n as [|n IH]; simpl; [reflexivity|exact IH]. Qed.

Lemma skip_whitespace_indent n s :
  Json.skip_whitespace (nl ++ Json.spaces n ++ s) = Json.skip_whitespace s.
Proof. simpl. apply skip_whitespace_spaces. Qed.

Lemma skip_whitespace_idem s :
  Json.skip_whitespace (Json.skip_whitespace s) = Json.skip_whitespace s.
Proof.
  induction s as [|c s IH]; simpl; [reflexivity|].
  destruct (Json.is_whitespace c) eqn:E; [exact IH|].
  simpl. rewrite E. reflexivity.
Qed.

Lemma parse_value_skip fuel s :
  Json.parse_value fuel (Json.skip_whitespace s) = Json.parse_value fuel s.
Proof.
  destruct fuel as [|fuel]; simpl; [reflexivity|].
  rewrite skip_whitespace_idem. reflexivity.
Qed.

Lemma parse_elements_skip fuel s :
  Json.parse_elements fuel (Json.skip_whitespace s) = Json.parse_elements fuel s.
Proof.
  destruct fuel as [|fuel]; simpl; [reflexivity|].
  rewrite parse_value_skip. reflexivity.
Qed.

Lemma parse_members_skip fuel s :
  Json.parse_members fuel (Json.skip_whitespace s) = Json.parse_members fuel s.
Proof.
  destruct fuel as [|fuel]; simpl; [reflexivity|].
  rewrite skip_whitespace_idem. reflexivity.
Qed.

Lemma value_induction (Q : Json.value -> Prop) :
  Q Json.VNull ->
  (forall b, Q (Json.VBool b)) ->
  (forall x, Q (Json.VNumber x)) ->
  (forall s, Q (Json.VString s)) ->
  (forall xs, Forall Q xs -> Q (Json.VArray xs)) ->
  (forall ms, Forall (fun m => Q (snd m)) ms -> Q (Json.VObject ms)) ->
  forall v, Q v.
Proof.
  intros Hnull Hbool Hnum Hstr Harr Hobj.
  fix IH 1. intros [| b | x | s | xs | ms].
  - exact Hnull.
  - apply Hbool.
  - apply Hnum.
  - apply Hstr.
  - apply Harr. induction xs as [|x xs IHxs]; constructor; [apply IH|exact IHxs].
  - apply Hobj. induction ms as [|[k x] ms IHms]; constructor;
      [apply IH|exact IHms].
Qed.

Lemma starts_value_skip s :
  starts_value s = true ->
  Json.skip_whitespace s = s /\
  Json.strip_prefix "]" s = None /\ Json.strip_prefix "}" s = None.
Proof.
  destruct s as [|c s]; [discriminate|].
  destruct c as [[] [] [] [] [] [] [] []]; intros H; try discriminate H;
    repeat split; reflexivity.
Qed.

Lemma digit_starts_value c s :
  Json.is_digit c = true -> starts_value (String c s) = true.
Proof.
  destruct c as [[] [] [] [] [] [] [] []]; intros H; try discriminate H;
    reflexivity.
Qed.

Lemma starts_value_serialize indent v rest :
  starts_value (Json.serialize indent v ++ rest) = true.
Proof.
  destruct v as [| [|] | [n|] | s | [|x xs] | [|m ms]]; try reflexivity.
  destruct (string_of_N_head n) as (c & s & Hs & Hc).
  simpl. rewrite Hs. apply digit_starts_value. exact Hc.
Qed.

Lemma parse_value_digit fuel c s :
  Json.is_digit c = true ->
  Json.parse_value (S fuel) (String c s) = Json.parse_number (String c s).
Proof.
  destruct c as [[] [] [] [] [] [] [] []]; intros H; try discriminate H;
    reflexivity.
Qed.

Lemma parse_value_quote fuel t :
  Json.parse_value (S fuel) (dq ++ t) =
  match Json.parse_chars t with
  | Some (x, rest) => Some (Json.VString x, rest)
  | None => None
  end.
Proof. reflexivity. Qed.

Lemma parse_value_bracket fuel t :
  Json.parse_value (S fuel) ("[" ++ t) =
  match Json.strip_prefix "]" (Json.skip_whitespace t) with
  | Some rest => Some (Json.VArray [], rest)
  | None =>
      match Json.parse_elements fuel t with
      | Some (xs, rest) => Some (Json.VArray xs, rest)
      | None => None
      end
  end.
Proof. reflexivity. Qed.

Lemma parse_value_brace fuel t :
  Json.parse_value (S fuel) ("{" ++ t) =
  match Json.strip_prefix "}" (Json.skip_whitespace t) with
  | Some rest => Some (Json.VObject [], rest)
  | None =>
      match Json.parse_members fuel t with
      | Some (ms, rest) => Some (Json.VObject (Json.rebuild ms), rest)
      | None => None
      end
  end.
Proof. reflexivity. Qed.

Lemma parse_elements_S fuel s :
  Json.parse_elements (S fuel) s =
  match Json.parse_value fuel s with
  | Some (x, rest) =>
      match Json.skip_whitespace rest with
      | String c rest' =>
          if Nat.eqb (nat_of_ascii c) 44 then
            match Json.parse_elements fuel rest' with
            | Some (xs, rest'') => Some (x :: xs, rest'')
            | None => None
            end
          else if Nat.eqb (nat_of_ascii c) 93 then Some ([x], rest')
          else None
      | EmptyString => None
      end
  | None => None
  end.
Proof. reflexivity. Qed.

Lemma parse_members_S fuel s :
  Json.parse_members (S fuel) s =
  match Json.strip_prefix dq (Json.skip_whitespace s) with
  | Some s1 =>
      match Json.parse_chars s1 with
      | Some (k, s2) =>
          match Json.strip_prefix ":" (Json.skip_whitespace s2) with
          | Some s3 =>
              match Json.parse_value fuel s3 with
              | Some (x, rest) =>
                  match Json.skip_whitespace rest with
                  | String c rest' =>
                      if Nat.eqb (nat_of_ascii c) 44 then
                        match Json.parse_members fuel rest' with
                        | Some (ms, rest'') => Some ((k, x) :: ms, rest'')
                        | None => None
                        end
                      else if Nat.eqb (nat_of_ascii c) 125
                           then Some ([(k, x)], rest')
                           else None
                  | EmptyString => None
                  end
              | None => None
              end
          | None => None
          end
      | None => None
      end
  | None => None
  end.
Proof. reflexivity. Qed.
Lemma separator_app j t :
  Json.separator j ++ t = String ","%char (nl ++ Json.spaces j ++ t).
Proof.
  unfold Json.separator. rewrite !append_assoc. reflexivity.
Qed.

Lemma skip_whitespace_comma t :
  Json.skip_whitespace (String ","%char t) = String ","%char t.
Proof. reflexivity. Qed.

Lemma join_cons2 sep (a b : string) l :
  join sep (a :: b :: l) = a ++ sep ++ join sep (b :: l).
Proof. reflexivity. Qed.

Lemma parse_elements_join xs :
  xs <> [] -> Forall reads_back xs ->
  forall i j fuel rest,
    (List.length xs + list_sum (map Json.size xs) <= fuel)%nat ->
    Json.parse_elements fuel
      (join (Json.separator j) (map (Json.serialize j) xs)
       ++ nl ++ Json.spaces i ++ "]" ++ rest) =
    Some (map Json.normalize xs, rest).
Proof.
  induction xs as [|x xs IH]; [congruence|].
  intros _ HF i j fuel rest Hfuel.
  inversion HF as [|? ? Hx Hxs]; subst.
  destruct fuel as [|f]; [simpl in Hfuel; lia|].
  rewrite parse_elements_S.
  destruct xs as [|x2 xs'].
  - cbn [map join String.concat].
    rewrite (Hx j f) by (simpl in Hfuel; try reflexivity; lia).
    rewrite skip_whitespace_indent. reflexivity.
  - cbn [map]. rewrite join_cons2, !append_assoc.
    rewrite (Hx j f) by (simpl in Hfuel; rewrite ?separator_app; try reflexivity; lia).
    rewrite separator_app, skip_whitespace_comma.
    cbv beta iota.
    change (Nat.eqb (nat_of_ascii ","%char) 44) with true. cbv iota.
    rewrite <- parse_elements_skip, skip_whitespace_indent, parse_elements_skip.
    change (Json.serialize j x2 :: map (Json.serialize j) xs')
      with (map (Json.serialize j) (x2 :: xs')).
    rewrite (IH ltac:(discriminate) Hxs i j f rest)
      by (simpl in Hfuel |- *; lia).
    reflexivity.
Qed.
Lemma strip_quote t :
  Json.strip_prefix dq (Json.skip_whitespace (dq ++ t)) = Some t.
Proof. reflexivity. Qed.

Lemma strip_colon t :
  Json.strip_prefix ":" (Json.skip_whitespace (": " ++ t)) = Some (" " ++ t).
Proof. reflexivity. Qed.

Lemma parse_value_space fuel t :
  Json.parse_value fuel (" " ++ t) = Json.parse_value fuel t.
Proof.
  rewrite <- (parse_value_skip fuel (" " ++ t)).
  change (Json.skip_whitespace (" " ++ t)) with (Json.skip_whitespace t).
  apply parse_value_skip.
Qed.

Lemma member_text k (text rest : string) :
  (Json.quote k ++ ": " ++ text) ++ rest =
  dq ++ Json.escape k ++ dq ++ ": " ++ text ++ rest.
Proof. unfold Json.quote. rewrite !append_assoc. reflexivity. Qed.

Lemma parse_members_join ms :
  ms <> [] -> Forall (fun m => reads_back (snd m)) ms ->
  forall i j fuel rest,
    (List.length ms + list_sum (map (fun m => Json.size (snd m)) ms) <= fuel)%nat ->
    Json.parse_members fuel
      (join (Json.separator j)
         (map (fun m => Json.quote (fst m) ++ ": " ++ Json.serialize j (snd m))
            ms)
       ++ nl ++ Json.spaces i ++ "}" ++ rest) =
    Some (map (fun m => (fst m, Json.normalize (snd m))) ms, rest).
Proof.
  induction ms as [|[k x] ms IH]; [congruence|].
  intros _ HF i j fuel rest Hfuel.
  inversion HF as [|? ? Hx Hxs]; subst. simpl in Hx.
  destruct fuel as [|f]; [simpl in Hfuel; lia|].
  rewrite parse_members_S.
  destruct ms as [|m2 ms'].
  - cbn [map join String.concat fst snd].
    rewrite member_text, strip_quote, parse_chars_escape, strip_colon,
      parse_value_space.
    rewrite (Hx j f) by (simpl in Hfuel; try reflexivity; lia).
    rewrite skip_whitespace_indent. reflexivity.
  - cbn [map fst snd]. rewrite join_cons2, append_assoc.
    rewrite member_text, strip_quote, parse_chars_escape, strip_colon,
      parse_value_space, append_assoc.
    rewrite (Hx j f)
      by (simpl in Hfuel; rewrite ?separator_app; try reflexivity; lia).
    rewrite separator_app, skip_whitespace_comma.
    cbv beta iota.
    change (Nat.eqb (nat_of_ascii ","%char) 44) with true. cbv iota.
    rewrite <- parse_members_skip, skip_whitespace_indent, parse_members_skip.
    change ((Json.quote (fst m2) ++ ": " ++ Json.serialize j (snd m2))
            :: map (fun m => Json.quote (fst m) ++ ": " ++ Json.serialize j (snd m))
                 ms')
      with (map (fun m => Json.quote (fst m) ++ ": " ++ Json.serialize j (snd m))
              (m2 :: ms')).
    rewrite (IH ltac:(discriminate) Hxs i j f rest)
      by (simpl in Hfuel |- *; lia).
    reflexivity.
Qed.

Lemma serialize_array indent x xs rest :
  Json.serialize indent (Json.VArray (x :: xs)) ++ rest =
  "[" ++ nl ++ Json.spaces (indent + 2)
  ++ (join (Json.separator (indent + 2))
        (map (Json.serialize (indent + 2)) (x :: xs))
      ++ nl ++ Json.spaces indent ++ "]" ++ rest).
Proof. cbn [Json.serialize]. rewrite !append_assoc. reflexivity. Qed.

Lemma serialize_object indent m ms rest :
  Json.serialize indent (Json.VObject (m :: ms)) ++ rest =
  "{" ++ nl ++ Json.spaces (indent + 2)
  ++ (join (Json.separator (indent + 2))
        (map (fun m => Json.quote (fst m) ++ ": "
                       ++ Json.serialize (indent + 2) (snd m)) (m :: ms))
      ++ nl ++ Json.spaces indent ++ "}" ++ rest).
Proof. cbn [Json.serialize]. rewrite !append_assoc. reflexivity. Qed.

Lemma starts_value_join_elements j x xs rest :
  starts_value
    (join (Json.separator j) (map (Json.serialize j) (x :: xs)) ++ rest) = true.
Proof.
  destruct xs as [|x2 xs].
  - apply starts_value_serialize.
  - cbn [map]. rewrite join_cons2, append_assoc. apply starts_value_serialize.
Qed.

Lemma starts_value_join_members j m ms rest :
  starts_value
    (join (Json.separator j)
       (map (fun m => Json.quote (fst m) ++ ": " ++ Json.serialize j (snd m))
          (m :: ms)) ++ rest) = true.
Proof.
  destruct ms as [|m2 ms]; cbn [map]; [|rewrite join_cons2, append_assoc];
    cbn [join String.concat]; rewrite member_text; reflexivity.
Qed.

(** Reading the text of a value gives the value back. *)
Lemma parse_value_serialize v : reads_back v.
Proof.
  induction v using value_induction; intros indent fuel rest Hfuel Hrest;
    (destruct fuel as [|f]; [simpl in Hfuel; lia|]).
  - reflexivity.
  - destruct b; reflexivity.
  - destruct x as [n|]; [|reflexivity].
    cbn [Json.serialize Json.normalize].
    destruct (string_of_N_head n) as (c & s & Hs & Hc).
    pose proof (parse_number_string_of_N n rest Hrest) as Hnum.
    rewrite Hs in *. cbn [append]. rewrite parse_value_digit by exact Hc.
    exact Hnum.
  - cbn [Json.serialize Json.normalize].
    rewrite (proj2 (parse_chars_quote s rest)), parse_value_quote,
      parse_chars_escape.
    reflexivity.
  - destruct xs as [|x xs]; [reflexivity|].
    rewrite serialize_array, parse_value_bracket, skip_whitespace_indent.
    destruct (starts_value_skip _
                (starts_value_join_elements (indent + 2) x xs
                   (nl ++ Json.spaces indent ++ "]" ++ rest)))
      as (Hskip & Hclose & _).
    rewrite Hskip, Hclose.
    rewrite <- parse_elements_skip, skip_whitespace_indent, parse_elements_skip.
    rewrite (parse_elements_join (x :: xs) ltac:(discriminate) H indent
               (indent + 2)%nat f rest)
      by (cbn [Json.size] in Hfuel; lia).
    reflexivity.
  - destruct ms as [|m ms]; [reflexivity|].
    rewrite serialize_object, parse_value_brace, skip_whitespace_indent.
    destruct (starts_value_skip _
                (starts_value_join_members (indent + 2) m ms
                   (nl ++ Json.spaces indent ++ "}" ++ rest)))
      as (Hskip & _ & Hclose).
    rewrite Hskip, Hclose.
    rewrite <- parse_members_skip, skip_whitespace_indent, parse_members_skip.
    rewrite (parse_members_join (m :: ms) ltac:(discriminate) H indent
               (indent + 2)%nat f rest)
      by (cbn [Json.size] in Hfuel; lia).
    reflexivity.
Qed.
(** *** Enough fuel *)

Lemma length_append (a b : string) :
  String.length (a ++ b) = (String.length a + String.length b)%nat.
Proof. induction a as [|c a IH]; simpl; [reflexivity|]. rewrite IH. reflexivity. Qed.

Lemma length_separator j : (1 <= String.length (Json.separator j))%nat.
Proof. unfold Json.separator. simpl. lia. Qed.

Lemma length_join_bound (A : Type) (sz : A -> nat) (text : A -> string)
  (sep : string) (xs : list A) :
  (1 <= String.length sep)%nat ->
  Forall (fun x => (sz x <= String.length (text x))%nat) xs ->
  (List.length xs + list_sum (map sz xs)
   <= String.length (join sep (map text xs)) + 1)%nat.
Proof.
  intros Hsep HF. induction HF as [|x xs Hx Hxs IH]; [simpl; lia|].
  destruct xs as [|x2 xs'].
  - simpl. lia.
  - cbn [map]. rewrite join_cons2, !length_append.
    cbn [map List.length list_sum fold_right] in IH |- *. lia.
Qed.

Lemma size_le_length v :
  forall indent, (Json.size v <= String.length (Json.serialize indent v))%nat.
Proof.
  induction v using value_induction; intros indent.
  - simpl. lia.
  - destruct b; simpl; lia.
  - destruct x as [n|]; [|simpl; lia].
    cbn [Json.size Json.serialize].
    pose proof (string_of_N_nonempty n) as Hn.
    destruct (string_of_N n); [congruence|simpl; lia].
  - cbn [Json.size Json.serialize]. unfold Json.quote.
    rewrite length_append. simpl. lia.
  - destruct xs as [|x xs]; [simpl; lia|].
    cbn [Json.size Json.serialize]. rewrite !length_append.
    pose proof (length_join_bound Json.value Json.size
                  (Json.serialize (indent + 2))
                  (Json.separator (indent + 2)) (x :: xs)
                  (length_separator _)) as Hb.
    assert (Forall (fun x => (Json.size x
              <= String.length (Json.serialize (indent + 2) x))%nat) (x :: xs))
      as HF by (eapply Forall_impl; [|exact H]; intros a Ha; apply Ha).
    specialize (Hb HF).
    set (J := String.length (join _ _)) in *.
    simpl String.length. lia.
  - destruct ms as [|m ms]; [simpl; lia|].
    cbn [Json.size Json.serialize]. rewrite !length_append.
    pose proof (length_join_bound (string * Json.value)
                  (fun m => Json.size (snd m))
                  (fun m => Json.quote (fst m) ++ ": "
                            ++ Json.serialize (indent + 2) (snd m))
                  (Json.separator (indent + 2)) (m :: ms)
                  (length_separator _)) as Hb.
    assert (Forall (fun m => (Json.size (snd m)
              <= String.length (Json.quote (fst m) ++ ": "
                                ++ Json.serialize (indent + 2) (snd m)))%nat)
              (m :: ms)) as HF.
    { eapply Forall_impl; [|exact H]. intros a Ha.
      rewrite !length_append. specialize (Ha (indent + 2)%nat). lia. }
    specialize (Hb HF).
    set (J := String.length (join _ _)) in *.
    simpl String.length. lia.
Qed.

(** [JSON.parse(JSON.stringify(v, null, 2))] is [v] as [Json.normalize]
    describes it. *)
Lemma parse_stringify v : Json.parse (Json.stringify v) = Some (Json.normalize v).
Proof.
  unfold Json.parse, Json.stringify.
  pose proof (parse_value_serialize v 0
                (String.length (Json.serialize 0 v)) ""
                (size_le_length v 0) eq_refl) as H.
  rewrite append_nil_r in H. rewrite H. reflexivity.
Qed.

(** *** Objects listed in key order are built again as they were *)

Lemma key_before_irrefl k : Json.key_before k k = false.
Proof.
  unfold Json.key_before. destruct (JsObject.array_index k).
  - apply N.ltb_irrefl.
  - rewrite String.eqb_refl. reflexivity.
Qed.

Lemma get_none_of_before (V : Type) k (acc : JsObject.t V) :
  forallb (fun m => Json.key_before (fst m) k) acc = true ->
  JsObject.get k acc = None.
Proof.
  induction acc as [|[k' v'] acc IH]; simpl; [reflexivity|].
  intros H. apply Bool.andb_true_iff in H. destruct H as [Hk Hacc].
  destruct (String.eqb_spec k k') as [<-|].
  - rewrite key_before_irrefl in Hk. discriminate.
  - apply IH. exact Hacc.
Qed.

Lemma insert_index_end (V : Type) n k (v : V) (acc : JsObject.t V) :
  JsObject.array_index k = Some n ->
  forallb (fun m => Json.key_before (fst m) k) acc = true ->
  JsObject.insert_index n k v acc = (acc ++ [(k, v)])%list.
Proof.
  intros Hk. induction acc as [|[k' v'] acc IH]; simpl; [reflexivity|].
  intros H. apply Bool.andb_true_iff in H. destruct H as [Hb Hacc].
  unfold Json.key_before in Hb. rewrite Hk in Hb.
  destruct (JsObject.array_index k') as [n'|]; [|discriminate].
  apply N.ltb_lt in Hb.
  destruct (N.ltb_spec n n'); [lia|]. rewrite (IH Hacc). reflexivity.
Qed.

Lemma set_end (V : Type) k (v : V) (acc : JsObject.t V) :
  forallb (fun m => Json.key_before (fst m) k) acc = true ->
  JsObject.set k v acc = (acc ++ [(k, v)])%list.
Proof.
  intros H. unfold JsObject.set, JsObject.create.
  rewrite (get_none_of_before V k acc H).
  destruct (JsObject.array_index k) eqn:E; [|reflexivity].
  apply insert_index_end; assumption.
Qed.

Lemma ordered_app_before l1 k l2 :
  Json.ordered (l1 ++ k :: l2) = true ->
  forallb (fun k' => Json.key_before k' k) l1 = true.
Proof.
  induction l1 as [|a l1 IH]; simpl; [reflexivity|].
  intros H. apply Bool.andb_true_iff in H. destruct H as [Ha Hl].
  rewrite forallb_app in Ha. apply Bool.andb_true_iff in Ha.
  destruct Ha as [_ Ha]. simpl in Ha. apply Bool.andb_true_iff in Ha.
  destruct Ha as [Ha _]. rewrite Ha. simpl. apply IH. exact Hl.
Qed.

Lemma forallb_map_fst (V : Type) (p : string -> bool) (l : list (string * V)) :
  forallb p (map fst l) = forallb (fun m => p (fst m)) l.
Proof. induction l as [|a l IH]; simpl; [reflexivity|]. rewrite IH. reflexivity. Qed.

Lemma rebuild_from (V : Type) (ms acc : list (string * V)) :
  Json.ordered (map fst (acc ++ ms)) = true ->
  fold_left (fun o m => JsObject.set (fst m) (snd m) o) ms acc = (acc ++ ms)%list.
Proof.
  revert acc. induction ms as [|[k v] ms IH]; intros acc H; simpl.
  - rewrite List.app_nil_r. reflexivity.
  - rewrite map_app in H. simpl in H.
    pose proof (ordered_app_before _ _ _ H) as Hb.
    rewrite forallb_map_fst in Hb.
    rewrite (set_end V k v acc Hb).
    rewrite IH; rewrite <- List.app_assoc; simpl; [reflexivity|].
    rewrite map_app. exact H.
Qed.

Lemma rebuild_ordered ms :
  Json.ordered (map fst ms) = true -> Json.rebuild ms = ms.
Proof. intros H. unfold Json.rebuild. apply (rebuild_from Json.value ms []). exact H. Qed.

Lemma map_fst_normalize (ms : list (string * Json.value)) :
  map fst (map (fun m => (fst m, Json.normalize (snd m))) ms) = map fst ms.
Proof. rewrite map_map. reflexivity. Qed.

Lemma serialize_array_ext indent xs ys :
  map (Json.serialize (indent + 2)) xs = map (Json.serialize (indent + 2)) ys ->
  Json.serialize indent (Json.VArray xs) = Json.serialize indent (Json.VArray ys).
Proof.
  intros H. destruct xs as [|x xs], ys as [|y ys]; try discriminate H;
    [reflexivity|].
  cbn [Json.serialize]. rewrite H. reflexivity.
Qed.

Lemma serialize_object_ext indent ms ns :
  map (fun m => Json.quote (fst m) ++ ": " ++ Json.serialize (indent + 2) (snd m))
    ms =
  map (fun m => Json.quote (fst m) ++ ": " ++ Json.serialize (indent + 2) (snd m))
    ns ->
  Json.serialize indent (Json.VObject ms) = Json.serialize indent (Json.VObject ns).
Proof.
  intros H. destruct ms as [|m ms], ns as [|n ns]; try discriminate H;
    [reflexivity|].
  cbn [Json.serialize]. rewrite H. reflexivity.
Qed.

(** Writing, reading and writing again gives the text of the first writing. *)
Lemma serialize_normalize v :
  Json.well_formed v = true ->
  forall indent,
    Json.serialize indent (Json.normalize v) = Json.serialize indent v.
Proof.
  induction v using value_induction; intros Hwf indent; try reflexivity.
  - destruct x; reflexivity.
  - cbn [Json.normalize]. cbn [Json.well_formed] in Hwf.
    apply serialize_array_ext.
    rewrite map_map. apply map_ext_in. intros a Ha.
    rewrite Forall_forall in H. apply H; [exact Ha|].
    rewrite forallb_forall in Hwf. apply Hwf. exact Ha.
  - cbn [Json.normalize]. cbn [Json.well_formed] in Hwf.
    apply Bool.andb_true_iff in Hwf. destruct Hwf as [Hord Hwf].
    rewrite rebuild_ordered by (rewrite map_fst_normalize; exact Hord).
    apply serialize_object_ext.
    rewrite map_map. apply map_ext_in. intros a Ha. cbn [fst snd].
    rewrite Forall_forall in H. rewrite (H a Ha); [reflexivity|].
    rewrite forallb_forall in Hwf. apply Hwf. exact Ha.
Qed.

Lemma stringify_parse_stringify v :
  Json.well_formed v = true ->
  exists v',
    Json.parse (Json.stringify v) = Some v' /\
    Json.stringify v' = Json.stringify v.
Proof.
  intros Hwf. exists (Json.normalize v). split.
  - apply parse_stringify.
  - apply serialize_normalize. exact Hwf.
Qed.
(** *** The key order of the impact counters *)

Lemma array_index_text k n :
  JsObject.array_index k = Some n -> string_of_N n = k.
Proof.
  unfold JsObject.array_index.
  destruct (N_of_string k) as [m|]; [|discriminate].
  destruct (String.eqb (string_of_N m) k && N.ltb m 4294967295)%bool eqn:E;
    [|discriminate].
  intros H. injection H as <-.
  apply Bool.andb_true_iff in E. destruct E as [E _].
  apply String.eqb_eq. exact E.
Qed.

Lemma array_index_inj k1 k2 n :
  JsObject.array_index k1 = Some n -> JsObject.array_index k2 = Some n ->
  k1 = k2.
Proof.
  intros H1 H2. rewrite <- (array_index_text k1 n H1).
  apply array_index_text. exact H2.
Qed.

Lemma keys_replace (V : Type) k (v : V) (o : JsObject.t V) :
  map fst (JsObject.replace k v o) = map fst o.
Proof.
  induction o as [|[k' v'] o IH]; simpl; [reflexivity|].
  destruct (String.eqb k k'); simpl; [reflexivity|]. rewrite IH. reflexivity.
Qed.

Lemma forallb_keys_insert_index (V : Type) (q : string -> bool) n k (v : V)
  (o : JsObject.t V) :
  forallb q (map fst (JsObject.insert_index n k v o)) =
  (q k && forallb q (map fst o))%bool.
Proof.
  induction o as [|[k' v'] o IH]; simpl; [reflexivity|].
  destruct (JsObject.array_index k') as [n'|]; [|reflexivity].
  destruct (N.ltb n n'); simpl; [reflexivity|].
  rewrite IH. destruct (q k), (q k'); reflexivity.
Qed.

Lemma forallb_impl (A : Type) (p q : A -> bool) (l : list A) :
  (forall a, p a = true -> q a = true) ->
  forallb p l = true -> forallb q l = true.
Proof.
  intros Hpq. induction l as [|a l IH]; simpl; [reflexivity|].
  intros H. apply Bool.andb_true_iff in H. destruct H as [Ha Hl].
  rewrite (Hpq a Ha), (IH Hl). reflexivity.
Qed.

Lemma ordered_insert_index (V : Type) n k (v : V) (o : JsObject.t V) :
  JsObject.array_index k = Some n ->
  JsObject.get k o = None ->
  Json.ordered (map fst o) = true ->
  Json.ordered (map fst (JsObject.insert_index n k v o)) = true.
Proof.
  intros Hk. induction o as [|[k' v'] o IH]; simpl; intros Hget Hord;
    [reflexivity|].
  destruct (String.eqb k k') eqn:Ekk; [discriminate|].
  apply String.eqb_neq in Ekk.
  apply Bool.andb_true_iff in Hord. destruct Hord as [Hk' Hord].
  destruct (JsObject.array_index k') as [n'|] eqn:Ek'.
  - destruct (N.ltb_spec n n') as [Hlt|Hge]; simpl.
    + assert (Json.key_before k k' = true) as Hkk'.
      { unfold Json.key_before. rewrite Hk, Ek'. apply N.ltb_lt. exact Hlt. }
      rewrite Hkk', Hk', Hord. simpl.
      rewrite (forallb_impl _ (Json.key_before k') (Json.key_before k) _);
        [reflexivity| |exact Hk'].
      intros k3. unfold Json.key_before. rewrite Hk, Ek'.
      destruct (JsObject.array_index k3) as [n3|]; [|reflexivity].
      intros H3. apply N.ltb_lt in H3. apply N.ltb_lt. lia.
    + rewrite forallb_keys_insert_index, Hk', (IH Hget Hord).
      assert (Json.key_before k' k = true) as Hk'k.
      { unfold Json.key_before. rewrite Hk, Ek'. apply N.ltb_lt.
        assert (n' <> n) as Hne
          by (intros ->; apply Ekk; eapply array_index_inj; eassumption).
        lia. }
      rewrite Hk'k. reflexivity.
  - simpl.
    assert (Json.key_before k k' = true) as Hkk'.
    { unfold Json.key_before. rewrite Hk, Ek'. reflexivity. }
    rewrite Hkk', Hk', Hord. simpl.
    rewrite (forallb_impl _ (Json.key_before k') (Json.key_before k) _);
      [reflexivity| |exact Hk'].
    intros k3. unfold Json.key_before. rewrite Hk, Ek'.
    destruct (JsObject.array_index k3) as [n3|]; [discriminate|reflexivity].
Qed.

Lemma ordered_snoc ks k :
  Json.ordered ks = true ->
  forallb (fun k' => Json.key_before k' k) ks = true ->
  Json.ordered (ks ++ [k]) = true.
Proof.
  induction ks as [|a ks IH]; simpl; [reflexivity|].
  intros Hord Hb.
  apply Bool.andb_true_iff in Hord. destruct Hord as [Ha Hord].
  apply Bool.andb_true_iff in Hb. destruct Hb as [Hak Hb].
  rewrite forallb_app, Ha, (IH Hord Hb). simpl. rewrite Hak. reflexivity.
Qed.

Lemma get_none_keys (V : Type) k (o : JsObject.t V) :
  JsObject.get k o = None ->
  forallb (fun k' => negb (String.eqb k' k)) (map fst o) = true.
Proof.
  induction o as [|[k' v'] o IH]; simpl; [reflexivity|].
  destruct (String.eqb k k') eqn:E; [discriminate|].
  intros H. rewrite String.eqb_sym, E, (IH H). reflexivity.
Qed.

Lemma ordered_create (V : Type) k (v : V) (o : JsObject.t V) :
  JsObject.get k o = None ->
  Json.ordered (map fst o) = true ->
  Json.ordered (map fst (JsObject.create k v o)) = true.
Proof.
  intros Hget Hord. unfold JsObject.create.
  destruct (JsObject.array_index k) as [n|] eqn:Ek.
  - apply ordered_insert_index; assumption.
  - rewrite map_app. cbn [map fst]. apply ordered_snoc; [exact Hord|].
    generalize (get_none_keys V k o Hget). apply forallb_impl.
    intros k'. unfold Json.key_before. rewrite Ek.
    destruct (JsObject.array_index k'); auto.
Qed.

Lemma ordered_increment k o :
  Json.ordered (map fst o) = true ->
  Json.ordered (map fst (increment k o)) = true.
Proof.
  intros Hord. unfold increment.
  destruct (JsObject.get k o) eqn:E.
  - rewrite keys_replace. exact Hord.
  - destruct (String.eqb k "__proto__"); [exact Hord|].
    apply ordered_create; assumption.
Qed.

Lemma ordered_fold_count_impact vs : forall o,
  Json.ordered (map fst o) = true ->
  Json.ordered (map fst (fold_left count_impact vs o)) = true.
Proof.
  induction vs as [|v vs IH]; intros o Hord; simpl; [exact Hord|].
  apply IH. unfold count_impact.
  destruct (truthy (RuleOutcome.impact v)); [|exact Hord].
  apply ordered_increment. exact Hord.
Qed.

(** *** The values of a report are well formed *)

Lemma forallb_map_true (A B : Type) (p : B -> bool) (f : A -> B) (l : list A) :
  (forall a, p (f a) = true) -> forallb p (map f l) = true.
Proof.
  intros H. induction l as [|a l IH]; simpl; [reflexivity|].
  rewrite H, IH. reflexivity.
Qed.

Lemma well_formed_strings xs : Json.well_formed (value_of_strings xs) = true.
Proof.
  unfold value_of_strings. cbn [Json.well_formed].
  apply forallb_map_true. reflexivity.
Qed.

Lemma well_formed_node n : Json.well_formed (value_of_node n) = true.
Proof.
  unfold value_of_node.
  destruct (AffectedNode.html n); cbn [option_map optional_member app];
    cbn [Json.well_formed map fst snd forallb];
    rewrite well_formed_strings; reflexivity.
Qed.

Lemma well_formed_outcome o : Json.well_formed (value_of_outcome o) = true.
Proof.
  unfold value_of_outcome.
  assert (forallb Json.well_formed (map value_of_node (RuleOutcome.nodes o))
          = true) as Hn by (apply forallb_map_true; apply well_formed_node).
  destruct (RuleOutcome.impact o); cbn [value_of_impact optional_member app];
    cbn [Json.well_formed map fst snd forallb];
    rewrite well_formed_strings, Hn; reflexivity.
Qed.

Lemma well_formed_outcomes l :
  forallb Json.well_formed (map value_of_outcome l) = true.
Proof. apply forallb_map_true. apply well_formed_outcome. Qed.

Lemma well_formed_results r : Json.well_formed (value_of_results r) = true.
Proof.
  unfold value_of_results, value_of_outcomes, value_of_testEngine.
  destruct (ScanResult.testEngine r), (ScanResult.passes r),
    (ScanResult.violations r), (ScanResult.incomplete r),
    (ScanResult.inapplicable r);
    cbn [option_map optional_member app];
    cbn [Json.well_formed map fst snd forallb];
    rewrite ?well_formed_outcomes; reflexivity.
Qed.

Lemma keys_map_values (A B : Type) (f : A -> B) (o : list (string * A)) :
  map fst (map (fun m => (fst m, f (snd m))) o) = map fst o.
Proof. induction o as [|a o IH]; simpl; [reflexivity|]. rewrite IH. reflexivity. Qed.

Lemma well_formed_counters o :
  Json.ordered (map fst o) = true ->
  Json.well_formed (value_of_counters o) = true.
Proof.
  intros Hord. unfold value_of_counters. cbn [Json.well_formed].
  rewrite keys_map_values, Hord. simpl.
  apply forallb_map_true. reflexivity.
Qed.

Lemma well_formed_summary s :
  Json.ordered (map fst (Summary.violationsByImpact s)) = true ->
  Json.well_formed (value_of_summary s) = true.
Proof.
  intros Hord. unfold value_of_summary.
  cbn [Json.well_formed map fst snd forallb].
  rewrite (well_formed_counters _ Hord). reflexivity.
Qed.

Lemma build_report_inv b results report :
  build_report b results = ok report ->
  exists summary,
    generateSummary b results = ok summary /\
    report = Report.mk summary results.
Proof.
  unfold build_report.
  destruct (generateSummary b results) as [e|summary]; simpl; [discriminate|].
  intros H. injection H as <-. exists summary. split; reflexivity.
Qed.

Lemma generateSummary_ordered b results summary :
  generateSummary b results = ok summary ->
  Json.ordered (map fst (Summary.violationsByImpact summary)) = true.
Proof.
  intros Hs.
  destruct (generateSummary_ok_inv _ _ _ Hs)
    as (p & v & i & n & Hp & Hv & Hi & Hn).
  rewrite (generateSummary_present b results _ _ _ _ Hp Hv Hi Hn) in Hs.
  injection Hs as <-. simpl.
  apply ordered_fold_count_impact. reflexivity.
Qed.

Lemma well_formed_report b results report :
  build_report b results = ok report ->
  Json.well_formed (value_of_report report) = true.
Proof.
  intros H. destruct (build_report_inv b results report H) as (s & Hs & ->).
  unfold value_of_report. cbn [Report.summary Report.results].
  cbn [Json.well_formed map fst snd forallb].
  rewrite (well_formed_summary s (generateSummary_ordered b results s Hs)).
  rewrite well_formed_results. reflexivity.
Qed.
(** ** The JSON report *)

Lemma generateJSONReport_effect P E results s report :
  snd (generateJSONReport P E results s) = ok report ->
  build_report (Tester.browser (State.this s)) results = ok report /\
  exists dir,
    Tester.reportDir (State.this s) = Some dir /\
    World.files (State.world (fst (generateJSONReport P E results s))) =
    (Platform.path_join P dir "report.json", report_text report)
      :: World.files (State.world s).
Proof.
  unfold generateJSONReport, report_path, bind, this_, lift, in_world,
    writeFile, ret, raise.
  destruct s as [this w bv]. simpl.
  destruct (Tester.reportDir this) as [dir|]; simpl; [|discriminate].
  destruct (build_report (Tester.browser this) results) as [e|r]; simpl;
    [discriminate|].
  destruct (Env.fault E (Tester.browser this)
              (fs_writeFile (Platform.path_join P dir "report.json")));
    simpl; [discriminate|].
  intros H. injection H as <-. split; [reflexivity|].
  exists dir. split; reflexivity.
Qed.

(** C4.  The report that [generateJSONReport] builds from a scan result is
    the object [{ summary, results }] whose [summary] is the summary of the
    result and whose [results] is the result itself, and the method writes
    its text to report.json.  Decoding that text succeeds, and encoding the
    decoded value again gives the same text, byte for byte. *)
Theorem json_report_round_trip :
  (forall b results report,
     build_report b results = ok report ->
     (exists summary,
        generateSummary b results = ok summary /\
        report = Report.mk summary results) /\
     Report.results report = results /\
     value_of_report report =
     Json.VObject [("summary", value_of_summary (Report.summary report));
                   ("results", value_of_results results)] /\
     exists decoded,
       Json.parse (report_text report) = Some decoded /\
       decoded = Json.normalize (value_of_report report) /\
       Json.stringify decoded = report_text report) /\
  (forall P E results s report,
     snd (generateJSONReport P E results s) = ok report ->
     build_report (Tester.browser (State.this s)) results = ok report /\
     exists dir,
       Tester.reportDir (State.this s) = Some dir /\
       World.files (State.world (fst (generateJSONReport P E results s))) =
       (Platform.path_join P dir "report.json", report_text report)
         :: World.files (State.world s)).
Proof.
  split.
  - intros b results report H.
    destruct (build_report_inv b results report H) as (summary & Hs & Hr).
    split; [exists summary; split; assumption|].
    split; [rewrite Hr; reflexivity|].
    split; [rewrite Hr; reflexivity|].
    exists (Json.normalize (value_of_report report)).
    split; [apply parse_stringify|].
    split; [reflexivity|].
    apply serialize_normalize. eapply well_formed_report. exact H.
  - apply generateJSONReport_effect.
Qed.

Lemma json_report_round_trip_witness :
  (exists report decoded,
      build_report "chromium" scenario = ok report /\
      Json.parse (report_text report) = Some decoded /\
      Json.stringify decoded = report_text report) /\
  (exists report,
      build_report "chromium" scenario = ok report /\
      World.files
        (State.world
           (fst (generateJSONReport sample_platform sample_env scenario
                   ready_state))) =
      [("accessibility-reports/2024-01-15T10-30-00-000Z/report.json",
        report_text report)]).
Proof.
  split.
  - destruct (proj1 json_report_round_trip "chromium" scenario _ eq_refl)
      as (_ & _ & _ & decoded & Hp & _ & Hs).
    eexists. exists decoded. split; [reflexivity|]. split; [exact Hp|exact Hs].
  - destruct (proj2 json_report_round_trip sample_platform sample_env scenario
                ready_state _ eq_refl) as (Hb & dir & Hd & Hf).
    eexists. split; [exact Hb|].
    injection Hd as <-. exact Hf.
Defined.

(** ** The script and its arguments *)

Lemma parse_loop_invariant (Q : Options.t -> Prop) :
  (forall v o, Q o -> Q (Options.with_url v o)) ->
  (forall v o, Q o -> Q (Options.with_outputDir v o)) ->
  (forall v o, Q o -> Q (Options.with_browser v o)) ->
  (forall o, Q o -> Q (Options.with_headed o)) ->
  (forall o, Q o -> Q (Options.with_allBrowsers o)) ->
  (forall o, Q o -> Q (Options.with_help o)) ->
  forall args o, Q o -> Q (parse_loop args o).
Proof.
  intros Hu Ho Hb Hh Ha Hp args.
  assert (forall n args o, (List.length args <= n)%nat -> Q o ->
                           Q (parse_loop args o)) as H.
  { induction n as [|n IH]; intros [|a rest] o Hlen HQ; simpl in Hlen;
      try exact HQ; try lia.
    simpl.
    destruct (String.eqb a "--url" || String.eqb a "-u")%bool.
    { destruct rest as [|v rest']; [apply Hu; exact HQ|].
      apply IH; [simpl in Hlen; lia | apply Hu; exact HQ]. }
    destruct (String.eqb a "--output" || String.eqb a "-o")%bool.
    { destruct rest as [|v rest']; [apply Ho; exact HQ|].
      apply IH; [simpl in Hlen; lia | apply Ho; exact HQ]. }
    destruct (String.eqb a "--browser" || String.eqb a "-b")%bool.
    { destruct rest as [|v rest']; [apply Hb; exact HQ|].
      apply IH; [simpl in Hlen; lia | apply Hb; exact HQ]. }
    destruct (String.eqb a "--headed");
      [apply IH; [lia | apply Hh; exact HQ]|].
    destruct (String.eqb a "--all-browsers");
      [apply IH; [lia | apply Ha; exact HQ]|].
    destruct (String.eqb a "--help" || String.eqb a "-h")%bool;
      [apply IH; [lia | apply Hp; exact HQ]|].
    apply IH; [lia | exact HQ]. }
  intros o. apply (H (List.length args)). lia.
Qed.

Lemma parse_loop_help_kept args o :
  Options.help o = true -> Options.help (parse_loop args o) = true.
Proof.
  apply (parse_loop_invariant (fun o => Options.help o = true)); auto.
Qed.

Lemma parse_loop_plain_prefix pre :
  forall rest o,
    forallb (fun a => negb (takes_value a)) pre = true ->
    exists o', parse_loop (pre ++ rest) o = parse_loop rest o'.
Proof.
  induction pre as [|a pre IH]; intros rest o Hpre; simpl.
  - exists o. reflexivity.
  - simpl in Hpre. apply Bool.andb_true_iff in Hpre. destruct Hpre as [Ha Hpre].
    unfold takes_value in Ha. apply Bool.negb_true_iff in Ha.
    apply Bool.orb_false_iff in Ha. destruct Ha as [Ha Hb].
    apply Bool.orb_false_iff in Ha. destruct Ha as [Hu Ho].
    rewrite Hu, Ho, Hb.
    destruct (String.eqb a "--headed"); [apply IH; exact Hpre|].
    destruct (String.eqb a "--all-browsers"); [apply IH; exact Hpre|].
    destruct (String.eqb a "--help" || String.eqb a "-h")%bool;
      apply IH; exact Hpre.
Qed.

(** X1.  A help flag that stands where a flag is expected (after arguments
    none of which takes a value) ends the script with exit code 0 before
    anything is constructed or run: the world is untouched, whatever
    follows the flag. *)
Theorem help_exits_before_running :
  forall P E cwd pre flag rest w,
    forallb (fun a => negb (takes_value a)) pre = true ->
    flag = "--help" \/ flag = "-h" ->
    main P E cwd (pre ++ flag :: rest) w = (w, 0%N).
Proof.
  intros P E cwd pre flag rest w Hpre Hflag.
  unfold main, parseArgs.
  destruct (parse_loop_plain_prefix pre (flag :: rest) initial_options Hpre)
    as [o' ->].
  assert (Options.help (parse_loop (flag :: rest) o') = true) as Hhelp.
  { destruct Hflag as [-> | ->]; simpl; apply parse_loop_help_kept; reflexivity. }
  rewrite Hhelp. reflexivity.
Qed.

Lemma help_exits_before_running_witness :
  main sample_platform sample_env "/home/user"
    (["--headed"; "--all-browsers"] ++ "-h" :: ["--url"; "https://example.com"])
    World.initial = (World.initial, 0%N).
Proof.
  apply help_exits_before_running; [reflexivity | right; reflexivity].
Defined.

Lemma or_default_nonempty x d : d <> "" -> or_default x d <> "".
Proof.
  intros Hd. unfold or_default. destruct x as [s|]; [|exact Hd].
  destruct (String.eqb_spec s ""); [exact Hd|assumption].
Qed.

Lemma dashed_length s : String.length (dashed s) = String.length s.
Proof. induction s as [|c s IH]; simpl; [reflexivity|]. rewrite IH. reflexivity. Qed.

Lemma dashed_char c :
  (if (Ascii.eqb c ":" || Ascii.eqb c ".")%bool then "-"%char else c) <> ":"%char /\
  (if (Ascii.eqb c ":" || Ascii.eqb c ".")%bool then "-"%char else c) <> "."%char.
Proof.
  destruct (Ascii.eqb_spec c ":") as [->|H1]; simpl; [split; discriminate|].
  destruct (Ascii.eqb_spec c ".") as [->|H2]; simpl; [split; discriminate|].
  split; assumption.
Qed.

Lemma dashed_clean s c :
  In c (list_ascii_of_string (dashed s)) -> c <> ":"%char /\ c <> "."%char.
Proof.
  induction s as [|a s IH]; simpl; [contradiction|].
  intros [<-|H]; [apply dashed_char | apply IH; exact H].
Qed.

Lemma dashed_kept s c :
  c <> ":"%char -> c <> "."%char ->
  forall n, String.get n s = Some c -> String.get n (dashed s) = Some c.
Proof.
  intros H1 H2. induction s as [|a s IH]; intros n; simpl; [discriminate|].
  destruct n as [|n].
  - intros H. injection H as ->.
    apply Ascii.eqb_neq in H1, H2. rewrite H1, H2. reflexivity.
  - apply IH.
Qed.

(** X2.  The time stamp that names the report directory is the ISO text of
    the clock reading with every colon and every dot replaced by a dash: it
    has the length of the ISO text, holds no colon and no dot, and keeps every
    other character in its place. *)
Theorem timestamp_has_no_colon_or_dot :
  forall P E cwd options w,
    exists t,
      constructor P E cwd options w =
      (World.mk (S (World.clock_reads w)) (World.launched w)
         (World.open_sessions w) (World.directories w) (World.files w),
       ok t) /\
      Tester.timestamp t =
      dashed (Platform.toISOString P (Env.clock E (World.clock_reads w))) /\
      String.length (Tester.timestamp t) =
      String.length (Platform.toISOString P (Env.clock E (World.clock_reads w))) /\
      (forall c, In c (list_ascii_of_string (Tester.timestamp t)) ->
                 c <> ":"%char /\ c <> "."%char) /\
      (forall n c, c <> ":"%char -> c <> "."%char ->
         String.get n (Platform.toISOString P (Env.clock E (World.clock_reads w)))
         = Some c ->
         String.get n (Tester.timestamp t) = Some c).
Proof.
  intros P E cwd options w. eexists. split; [reflexivity|].
  cbn [Tester.timestamp].
  split; [reflexivity|]. split; [apply dashed_length|].
  split; [intros c; apply dashed_clean|].
  intros n c H1 H2. apply dashed_kept; assumption.
Qed.

Lemma timestamp_has_no_colon_or_dot_witness :
  exists t,
    snd (constructor iso_platform sample_env "/home/user" initial_options
           World.initial) = ok t /\
    String.get 0 (Tester.timestamp t) = Some "2"%char /\
    ~ In ":"%char (list_ascii_of_string (Tester.timestamp t)).
Proof.
  destruct (timestamp_has_no_colon_or_dot iso_platform sample_env "/home/user"
              initial_options World.initial)
    as (t & Hc & _ & _ & Hclean & Hkept).
  exists t. split; [rewrite Hc; reflexivity|]. split.
  - apply Hkept; [discriminate | discriminate | reflexivity].
  - intros Hin. destruct (Hclean _ Hin) as [H _]. apply H. reflexivity.
Defined.

(** ** A single run *)


Lemma run_navigation_error P E msg s :
  navigation_fails E (Tester.url (State.this s)) (Tester.browser (State.this s))
    msg ->
  run P E s =
  (State.mk (initialized P (State.this s))
     (World.mk (World.clock_reads (State.world s))
        (S (World.launched (State.world s)))
        (World.open_sessions (State.world s))
        (report_directory P (State.this s) :: World.directories (State.world s))
        (World.files (State.world s)))
     (Some (World.launched (State.world s))),
   throw (ExternalError msg)).
Proof.
  intros (Hmk & Hl & Hc & Hp & Hg).
  destruct s as [this w bv]. cbn [State.this State.world] in *.
  unfold initialized, report_directory.
  unfold_methods. unfold_run. simpl.
  rewrite Hmk. simpl. rewrite Hl. simpl. rewrite Hc. simpl. rewrite Hp. simpl.
  rewrite Hg. simpl. rewrite Nat.eqb_refl. reflexivity.
Qed.

Lemma parse_loop_keeps_defaults args :
  Options.viewport (parse_loop args initial_options) = None /\
  Options.axeOptions (parse_loop args initial_options) = None.
Proof.
  apply (parse_loop_invariant
           (fun o => Options.viewport o = None /\ Options.axeOptions o = None));
    auto.
Qed.

(** X3.  Whatever the arguments, the tester the script constructs has a
    non-empty address and a non-empty browser name (an absent or empty value
    gives the default), the default viewport and rule tags, and no report
    directory yet; constructing it only reads the clock. *)
Theorem tester_from_arguments :
  forall P E cwd args options w,
    parseArgs args = Parsed options ->
    exists t w',
      constructor P E cwd options w = (w', ok t) /\
      Tester.url t <> "" /\
      Tester.browser t <> "" /\
      ((Options.url options = None \/ Options.url options = Some "") ->
       Tester.url t = default_url) /\
      Tester.viewport t = default_viewport /\
      Tester.axeOptions t = default_axeOptions /\
      Tester.reportDir t = None /\
      World.launched w' = World.launched w /\
      World.directories w' = World.directories w /\
      World.files w' = World.files w.
Proof.
  intros P E cwd args options w Hparse.
  unfold parseArgs in Hparse.
  destruct (parse_loop_keeps_defaults args) as [Hv Ha].
  destruct (Options.help (parse_loop args initial_options)); [discriminate|].
  injection Hparse as <-.
  eexists. eexists. split; [reflexivity|].
  cbn [Tester.url Tester.browser Tester.viewport Tester.axeOptions
       Tester.reportDir World.launched World.directories World.files].
  rewrite Hv, Ha.
  split; [apply or_default_nonempty; discriminate|].
  split; [apply or_default_nonempty; discriminate|].
  split; [intros [-> | ->]; reflexivity|].
  repeat split; reflexivity.
Qed.

Lemma tester_from_arguments_witness :
  exists t w',
    constructor sample_platform sample_env "/home/user"
      (parse_loop ["--url"; ""; "--headed"; "-b"] initial_options)
      World.initial = (w', ok t) /\
    Tester.url t = default_url /\
    Tester.browser t <> "".
Proof.
  destruct (tester_from_arguments sample_platform sample_env "/home/user"
              ["--url"; ""; "--headed"; "-b"] _ World.initial eq_refl)
    as (t & w' & Hc & _ & Hb & Hu & _).
  exists t, w'. split; [exact Hc|]. split; [|exact Hb].
  apply Hu. right. reflexivity.
Defined.

Lemma run_sessions P E s :
  World.open_sessions (State.world (fst (run P E s))) =
  World.open_sessions (State.world s).
Proof.
  destruct s as [this w bv].
  unfold_methods. unfold_run. simpl.
  repeat split_method; rewrite ?Nat.eqb_refl; reflexivity.
Qed.

Lemma constructor_world P E cwd options w :
  exists t,
    constructor P E cwd options w =
    (World.mk (S (World.clock_reads w)) (World.launched w)
       (World.open_sessions w) (World.directories w) (World.files w),
     ok t).
Proof. eexists. reflexivity. Qed.

(** X4.  The script leaves no browser session open, in either mode and
    whatever fails: the sessions open when it ends are those that were open
    when it started. *)
Theorem script_leaves_no_session_open :
  forall P E cwd args w,
    World.open_sessions (fst (main P E cwd args w)) = World.open_sessions w.
Proof.
  intros P E cwd args w. unfold main.
  destruct (parseArgs args) as [code|options]; [reflexivity|].
  unfold start.
  destruct (constructor_world P E cwd options w) as [t ->].
  unfold ok; cbv beta iota.
  set (w1 := World.mk _ _ _ _ _).
  destruct (Options.allBrowsers options).
  - unfold runMultipleBrowsers.
    destruct (for_each_browser_total P E default_browsers []
                (State.mk t w1 None)) as (s' & results & -> & Hopen).
    exact Hopen.
  - pose proof (run_sessions P E (State.mk t w1 None)) as Hopen.
    destruct (run P E (State.mk t w1 None)) as [s' [e|report]]; exact Hopen.
Qed.


(** X6.  In single mode, when navigation to the address fails, the script
    ends with exit code 1: the report directory has been created and one
    browser launched and closed again, and no file has been written. *)
Theorem failed_navigation_exits_with_one :
  forall P E cwd args options w w1 t msg,
    parseArgs args = Parsed options ->
    Options.allBrowsers options = false ->
    constructor P E cwd options w = (w1, ok t) ->
    navigation_fails E (Tester.url t) (Tester.browser t) msg ->
    main P E cwd args w =
    (World.mk (World.clock_reads w1) (S (World.launched w1))
       (World.open_sessions w1)
       (report_directory P t :: World.directories w1)
       (World.files w1),
     1%N).
Proof.
  intros P E cwd args options w w1 t msg Hparse Hall Hc Hnav.
  unfold main. rewrite Hparse. unfold start. rewrite Hc.
  unfold ok; cbv beta iota. rewrite Hall.
  rewrite (run_navigation_error P E msg (State.mk t w1 None) Hnav).
  reflexivity.
Qed.

(** X7.  With [--all-browsers] the script ends with exit code 0 whatever
    fails, even when every engine fails. *)
Theorem all_browsers_exits_with_zero :
  forall P E cwd args options w,
    parseArgs args = Parsed options ->
    Options.allBrowsers options = true ->
    snd (main P E cwd args w) = 0%N.
Proof.
  intros P E cwd args options w Hparse Hall.
  unfold main. rewrite Hparse. unfold start.
  destruct (constructor_world P E cwd options w) as [t ->].
  unfold ok; cbv beta iota. rewrite Hall. unfold runMultipleBrowsers.
  destruct (for_each_browser_total P E default_browsers []
              (State.mk t (World.mk (S (World.clock_reads w)) (World.launched w)
                 (World.open_sessions w) (World.directories w) (World.files w))
                 None))
    as (s' & results & -> & _).
  reflexivity.
Qed.


Lemma failed_navigation_exits_with_one_witness :
  snd (main sample_platform sample_env "/home/user" ["-b"; "firefox"]
         World.initial) = 1%N.
Proof.
  rewrite (failed_navigation_exits_with_one sample_platform sample_env
             "/home/user" ["-b"; "firefox"] _ World.initial _ _
             "net::ERR_NAME_NOT_RESOLVED" eq_refl eq_refl eq_refl).
  - reflexivity.
  - repeat split; reflexivity.
Defined.

Lemma all_browsers_exits_with_zero_witness :
  snd (main sample_platform sample_env "/home/user" ["--all-browsers"]
         World.initial) = 0%N.
Proof.
  apply (all_browsers_exits_with_zero sample_platform sample_env "/home/user"
           ["--all-browsers"] _ World.initial eq_refl eq_refl).
Defined.

Lemma parse_loop_same_but_browser args :
  forall o o',
    same_but_browser o o' ->
    same_but_browser (parse_loop args o) (parse_loop args o').
Proof.
  assert (forall n args o o', (List.length args <= n)%nat ->
            same_but_browser o o' ->
            same_but_browser (parse_loop args o) (parse_loop args o')) as H.
  { induction n as [|n IH]; intros [|a rest] o o' Hlen HQ; simpl in Hlen;
      try exact HQ; try lia.
    assert (forall v, same_but_browser (Options.with_url v o)
                        (Options.with_url v o')) as Hu
      by (intros v; unfold same_but_browser in *; simpl; intuition congruence).
    assert (forall v, same_but_browser (Options.with_outputDir v o)
                        (Options.with_outputDir v o')) as Ho
      by (intros v; unfold same_but_browser in *; simpl; intuition congruence).
    assert (forall v v', same_but_browser (Options.with_browser v o)
                           (Options.with_browser v' o')) as Hb
      by (intros v v'; unfold same_but_browser in *; simpl; intuition congruence).
    assert (same_but_browser (Options.with_headed o) (Options.with_headed o'))
      as Hh by (unfold same_but_browser in *; simpl; intuition congruence).
    assert (same_but_browser (Options.with_allBrowsers o)
              (Options.with_allBrowsers o'))
      as Ha by (unfold same_but_browser in *; simpl; intuition congruence).
    assert (same_but_browser (Options.with_help o) (Options.with_help o'))
      as Hp by (unfold same_but_browser in *; simpl; intuition congruence).
    simpl.
    destruct (String.eqb a "--url" || String.eqb a "-u")%bool.
    { destruct rest as [|v rest']; [apply Hu|].
      apply IH; [simpl in Hlen; lia | apply Hu]. }
    destruct (String.eqb a "--output" || String.eqb a "-o")%bool.
    { destruct rest as [|v rest']; [apply Ho|].
      apply IH; [simpl in Hlen; lia | apply Ho]. }
    destruct (String.eqb a "--browser" || String.eqb a "-b")%bool.
    { destruct rest as [|v rest']; [apply Hb|].
      apply IH; [simpl in Hlen; lia | apply Hb]. }
    destruct (String.eqb a "--headed"); [apply IH; [lia | exact Hh]|].
    destruct (String.eqb a "--all-browsers"); [apply IH; [lia | exact Ha]|].
    destruct (String.eqb a "--help" || String.eqb a "-h")%bool;
      [apply IH; [lia | exact Hp]|].
    apply IH; [lia | exact HQ]. }
  intros o o'. apply (H (List.length args)). lia.
Qed.

Lemma multiple_browsers_same_config P E bs t t' w :
  same_config t t' ->
  match runMultipleBrowsers P E bs (State.mk t w None) with
  | (s, inr _) => (State.world s, 0%N)
  | (s, inl _) => (State.world s, 1%N)
  end =
  match runMultipleBrowsers P E bs (State.mk t' w None) with
  | (s, inr _) => (State.world s, 0%N)
  | (s, inl _) => (State.world s, 1%N)
  end.
Proof.
  intros Hcfg. unfold runMultipleBrowsers.
  destruct (for_each_browser_reads_config P E bs [] w None None t t' Hcfg)
    as [Hres Hworld].
  destruct (for_each_browser P E bs [] (State.mk t w None)) as [s1 r1].
  destruct (for_each_browser P E bs [] (State.mk t' w None)) as [s2 r2].
  simpl in Hres, Hworld. subst r2. rewrite Hworld. reflexivity.
Qed.

Lemma start_same_but_browser P E cwd o o' w :
  same_but_browser o o' -> Options.allBrowsers o = true ->
  start P E cwd o w = start P E cwd o' w.
Proof.
  intros (Hu & Ho & Hh & Ha & _ & Hv & Hx) Hall.
  unfold start, constructor, new_Date, bind, ret, ok. cbv beta iota.
  rewrite <- Ha, Hall.
  apply multiple_browsers_same_config.
  unfold same_config. simpl. rewrite Hu, Ho, Hh, Hv, Hx.
  repeat split; reflexivity.
Qed.

(** X8.  With [--all-browsers] the [--browser] option has no effect: the
    script given [--browser name] before its other arguments does what it
    does without it, and ends with the same exit code. *)
Theorem browser_option_ignored_with_all_browsers :
  forall P E cwd args name w,
    Options.allBrowsers (parse_loop args initial_options) = true ->
    main P E cwd ("--browser" :: name :: args) w = main P E cwd args w.
Proof.
  intros P E cwd args name w Hall.
  assert (same_but_browser
            (parse_loop args (Options.with_browser (Some name) initial_options))
            (parse_loop args initial_options)) as Hsame.
  { apply parse_loop_same_but_browser.
    unfold same_but_browser. simpl. repeat split; reflexivity. }
  unfold main, parseArgs.
  change (parse_loop ("--browser" :: name :: args) initial_options)
    with (parse_loop args (Options.with_browser (Some name) initial_options)).
  pose proof Hsame as (_ & _ & _ & Ha & Hp & _).
  rewrite Hp.
  destruct (Options.help (parse_loop args initial_options)); [reflexivity|].
  apply start_same_but_browser; [exact Hsame|].
  rewrite Ha. exact Hall.
Qed.

Lemma browser_option_ignored_with_all_browsers_witness :
  main sample_platform sample_env "/home/user"
    ["--browser"; "firefox"; "--all-browsers"] World.initial =
  main sample_platform sample_env "/home/user" ["--all-browsers"]
    World.initial.
Proof.
  apply browser_option_ignored_with_all_browsers. reflexivity.
Defined.

(** ** The choice of the engine *)

Lemma lower_upper_ascii c : lower_ascii (upper_ascii c) = lower_ascii c.
Proof.
  destruct c as [[] [] [] [] [] [] [] []]; reflexivity.
Qed.

Lemma toLowerCase_toUpperCase s : toLowerCase (toUpperCase s) = toLowerCase s.
Proof.
  induction s as [|c s IH]; simpl; [reflexivity|].
  rewrite lower_upper_ascii, IH. reflexivity.
Qed.

(** X9.  For a browser name of ASCII characters, [launchBrowser] matches the
    name without regard to the case of its letters: it launches firefox
    exactly for the name "firefox", webkit exactly for "webkit" and "safari",
    and chromium for every other name, whatever it is; it never asks for the
    engine of the WebdriverIO tool. *)
Theorem launch_engine_of_browser_name :
  forall b,
    ascii_only b = true ->
    engine_of (toUpperCase b) = engine_of b /\
    (engine_of b = firefox <-> toLowerCase b = "firefox") /\
    (engine_of b = webkit <->
     toLowerCase b = "webkit" \/ toLowerCase b = "safari") /\
    (engine_of b = chromium <->
     toLowerCase b <> "firefox" /\ toLowerCase b <> "webkit" /\
     toLowerCase b <> "safari") /\
    engine_of b <> chrome.
Proof.
  intros b _. split.
  { unfold engine_of. rewrite toLowerCase_toUpperCase. reflexivity. }
  unfold engine_of.
  destruct (String.eqb_spec (toLowerCase b) "firefox") as [Hf|Hf].
  { rewrite Hf.
    split; [split; reflexivity|].
    split; [split; [discriminate | intros [H|H]; discriminate]|].
    split; [split; [discriminate | intros (H & _); contradiction H; reflexivity]|].
    discriminate. }
  destruct (String.eqb_spec (toLowerCase b) "webkit") as [Hw|Hw].
  { rewrite Hw. simpl.
    split; [split; discriminate|].
    split; [split; [left; reflexivity | reflexivity]|].
    split; [split; [discriminate
                   | intros (_ & H & _); contradiction H; reflexivity]|].
    discriminate. }
  destruct (String.eqb_spec (toLowerCase b) "safari") as [Hs|Hs].
  { rewrite Hs. simpl.
    split; [split; discriminate|].
    split; [split; [right; reflexivity | reflexivity]|].
    split; [split; [discriminate
                   | intros (_ & _ & H); contradiction H; reflexivity]|].
    discriminate. }
  simpl.
  split; [split; [discriminate | intros H; contradiction]|].
  split; [split; [discriminate | intros [H|H]; contradiction]|].
  split; [split; [intros _; repeat split; assumption | reflexivity]|].
  discriminate.
Qed.

Lemma launch_engine_of_browser_name_witness :
  engine_of "FIREFOX" = engine_of "FireFox" /\ engine_of "FireFox" = firefox.
Proof.
  destruct (launch_engine_of_browser_name "FireFox" eq_refl)
    as (Hup & Hfirefox & _).
  split; [exact Hup|]. apply Hfirefox. reflexivity.
Defined.

(** ** The methods before [init] *)

(** X10.  On a tester whose [init] has not run ([reportDir] is undefined)
    neither audit method and neither report method can succeed: each throws.
    When the launch and the navigation work, an audit throws the TypeError of
    [path.join] at the screenshot path, having launched a browser and closed
    it again. *)
Theorem methods_need_init :
  forall P E s,
    Tester.reportDir (State.this s) = None ->
    (exists e, snd (runAudit P E s) = throw e) /\
    (exists e, snd (runWithAxePlaywright P E s) = throw e) /\
    (forall results, exists e, snd (generateJSONReport P E results s) = throw e) /\
    (forall results, exists e, snd (generateHTMLReport P E results s) = throw e) /\
    ((forall c, Env.fault E (Tester.browser (State.this s)) c = None) ->
     exists msg,
       runAudit P E s =
       (State.mk (State.this s)
          (World.mk (World.clock_reads (State.world s))
             (S (World.launched (State.world s)))
             (World.open_sessions (State.world s))
             (World.directories (State.world s))
             (World.files (State.world s)))
          (Some (World.launched (State.world s))),
        throw (TypeError msg)) /\
       runWithAxePlaywright P E s = runAudit P E s).
Proof.
  intros P E [this w bv] Hdir. cbn [State.this State.world] in *.
  destruct this as [u o b h v a ts rd]. simpl in Hdir. subst rd.
  split; [|split; [|split; [|split]]].
  - unfold_methods. unfold_run. simpl.
    repeat split_method; rewrite ?Nat.eqb_refl; eexists; reflexivity.
  - unfold_methods. unfold_run. simpl.
    repeat split_method; rewrite ?Nat.eqb_refl; eexists; reflexivity.
  - intros results. unfold_methods. unfold_run. simpl.
    eexists; reflexivity.
  - intros results. unfold_methods. unfold_run. simpl.
    repeat split_method; eexists; reflexivity.
  - intros Hf. simpl in Hf. eexists. unfold_methods. unfold_run. simpl.
    repeat (rewrite Hf; simpl). rewrite Nat.eqb_refl. split; reflexivity.
Qed.

Lemma methods_need_init_witness :
  exists e, snd (runWithAxePlaywright sample_platform sample_env sample_state)
            = throw e.
Proof.
  destruct (methods_need_init sample_platform sample_env sample_state eq_refl)
    as (_ & H & _).
  exact H.
Defined.

(** ** What a run writes *)





(** ** What the loop over the engines does to the world *)




Lemma get_assign k b (o : outcome) results :
  JsObject.get k (assign b o results) <> None <->
  JsObject.get k results <> None \/ (k = b /\ k <> "__proto__").
Proof.
  destruct (String.eqb_spec k b) as [->|Hne].
  - destruct (String.eqb_spec b "__proto__") as [Hp|Hp].
    + unfold assign. rewrite Hp. simpl. tauto.
    + rewrite get_assign_same by assumption.
      split; [intros _; right; split; [reflexivity|assumption] | discriminate].
  - rewrite get_assign_other by assumption. tauto.
Qed.

Lemma length_assign b (o : outcome) results :
  (List.length (assign b o results) <= S (List.length results))%nat.
Proof.
  unfold assign, JsObject.set.
  destruct (String.eqb b "__proto__"); [lia|].
  destruct (JsObject.get b results).
  - rewrite length_replace. lia.
  - rewrite length_create. lia.
Qed.

Lemma for_each_browser_keys P E bs :
  forall results s,
  exists s' results',
    for_each_browser P E bs results s = (s', ok results') /\
    (forall k, JsObject.get k results' <> None <->
               JsObject.get k results <> None \/
               (In k bs /\ k <> "__proto__")) /\
    (List.length results' <= List.length results + List.length bs)%nat.
Proof.
  induction bs as [|b bs IH]; intros results s.
  - exists s, results. split; [reflexivity|]. split; [|simpl; lia].
    intros k. simpl. tauto.
  - destruct (test_browser_total P E b results s) as (s1 & o & Hrun & _).
    destruct (IH (assign b o results) s1) as (s' & results' & Hloop & Hkeys & Hlen).
    exists s', results'. rewrite for_each_browser_cons, Hrun. unfold ok.
    split; [exact Hloop|]. split.
    + intros k. rewrite Hkeys, get_assign. simpl.
      split.
      * intros [[H|[-> H]]|[H1 H2]]; auto.
      * intros [H|[[<-|H1] H2]]; auto.
    + pose proof (length_assign b o results). simpl. lia.
Qed.

(** X14.  The object [runMultipleBrowsers] returns has an entry for exactly
    the listed names, whatever happened while each was tested; the one
    exception is the name "__proto__", which is tested but gets no entry.  A
    name listed more than once has one entry, so the object never has more
    entries than names were listed. *)
Theorem multiple_browsers_result_keys :
  forall P E bs s,
  exists s' results,
    runMultipleBrowsers P E bs s = (s', ok results) /\
    (forall k, JsObject.get k results <> None <->
               In k bs /\ k <> "__proto__") /\
    (List.length results <= List.length bs)%nat.
Proof.
  intros P E bs s. unfold runMultipleBrowsers.
  destruct (for_each_browser_keys P E bs [] s)
    as (s' & results & Hrun & Hkeys & Hlen).
  exists s', results. split; [exact Hrun|]. split; [|exact Hlen].
  intros k. rewrite Hkeys. simpl. tauto.
Qed.

(** ** When the HTML reports can be rendered *)

(** X15.  The HTML report of the Playwright tool is rendered exactly when the
    scan result has its four category sequences and the tester's address is a
    valid URL.  A missing sequence gives the TypeError of reading [length],
    also when the address is invalid; with the sequences present an invalid
    address gives the TypeError of [new URL]. *)
Theorem html_report_failure_conditions :
  forall P this results,
    (ScanResult.has_categories results = true ->
     Platform.hostname P (Tester.url this) <> None ->
     exists html, generateHTMLReport_html P this results = ok html) /\
    (ScanResult.has_categories results = false ->
     generateHTMLReport_html P this results =
     throw (TypeError "Cannot read properties of undefined (reading 'length')")) /\
    (ScanResult.has_categories results = true ->
     Platform.hostname P (Tester.url this) = None ->
     generateHTMLReport_html P this results = throw (TypeError "Invalid URL")).
Proof.
  intros P this results. unfold generateHTMLReport_html.
  split; [|split].
  - intros Hcat Hhost.
    unfold ScanResult.has_categories in Hcat.
    destruct (ScanResult.passes results) as [p|] eqn:Hp; [|discriminate].
    destruct (ScanResult.violations results) as [v|] eqn:Hv; [|discriminate].
    destruct (ScanResult.incomplete results) as [i|] eqn:Hi; [|discriminate].
    destruct (ScanResult.inapplicable results) as [n|] eqn:Hn; [|discriminate].
    rewrite (generateSummary_present _ results p v i n Hp Hv Hi Hn). simpl.
    unfold html_template, hostname_of.
    destruct (Platform.hostname P (Tester.url this)); [|congruence]. simpl.
    rewrite Hv. simpl.
    destruct (N.ltb 0 (len v)); eexists; reflexivity.
  - intros Hcat. rewrite (generateSummary_absent _ results Hcat). reflexivity.
  - intros Hcat Hhost.
    unfold ScanResult.has_categories in Hcat.
    destruct (ScanResult.passes results) as [p|] eqn:Hp; [|discriminate].
    destruct (ScanResult.violations results) as [v|] eqn:Hv; [|discriminate].
    destruct (ScanResult.incomplete results) as [i|] eqn:Hi; [|discriminate].
    destruct (ScanResult.inapplicable results) as [n|] eqn:Hn; [|discriminate].
    rewrite (generateSummary_present _ results p v i n Hp Hv Hi Hn). simpl.
    unfold html_template, hostname_of. rewrite Hhost. reflexivity.
Qed.

Lemma html_report_failure_conditions_witness :
  (exists html,
     generateHTMLReport_html sample_platform sample_tester scenario = ok html) /\
  generateHTMLReport_html sample_platform sample_tester
    (Env.scan partial_scan_env "chromium") =
  throw (TypeError "Cannot read properties of undefined (reading 'length')").
Proof.
  split.
  - apply (html_report_failure_conditions sample_platform sample_tester
             scenario); [reflexivity | discriminate].
  - apply (html_report_failure_conditions sample_platform sample_tester
             (Env.scan partial_scan_env "chromium")).
    reflexivity.
Defined.

(** X16.  The HTML report of the WebdriverIO tool is rendered exactly when
    the scan result has its four category sequences and its [testEngine].
    Without [violations] it throws at [map]; otherwise without [testEngine]
    it throws at [version]; otherwise without another sequence it throws at
    [length]. *)
Theorem wdio_html_report_failure_conditions :
  forall P now results,
    (ScanResult.has_categories results = true ->
     ScanResult.testEngine results <> None ->
     exists html, Wdio.generateHTMLReport P now results = ok html) /\
    (ScanResult.violations results = None ->
     Wdio.generateHTMLReport P now results =
     throw (TypeError "Cannot read properties of undefined (reading 'map')")) /\
    (ScanResult.violations results <> None ->
     ScanResult.testEngine results = None ->
     Wdio.generateHTMLReport P now results =
     throw (TypeError
              "Cannot read properties of undefined (reading 'version')")) /\
    (ScanResult.violations results <> None ->
     ScanResult.testEngine results <> None ->
     ScanResult.has_categories results = false ->
     Wdio.generateHTMLReport P now results =
     throw (TypeError
              "Cannot read properties of undefined (reading 'length')")).
Proof.
  intros P now results.
  unfold Wdio.generateHTMLReport, Wdio.map_of, Wdio.testEngine_version,
    length_of, ScanResult.has_categories.
  destruct (ScanResult.violations results) as [vs|];
    destruct (ScanResult.testEngine results) as [ver|];
    destruct (ScanResult.passes results) as [ps|];
    destruct (ScanResult.incomplete results) as [ic|];
    destruct (ScanResult.inapplicable results) as [ia|]; simpl;
    (split; [intros H1 H2; try discriminate; try congruence;
             eexists; reflexivity|]);
    (split; [intros H1; try discriminate; reflexivity|]);
    (split; [intros H1 H2; try discriminate; try congruence; reflexivity|]);
    intros H1 H2 H3; try discriminate; try congruence; reflexivity.
Qed.

Lemma wdio_html_report_failure_conditions_witness :
  Wdio.generateHTMLReport sample_platform 0 scenario =
  throw (TypeError "Cannot read properties of undefined (reading 'version')").
Proof.
  apply (wdio_html_report_failure_conditions sample_platform 0 scenario);
    [discriminate | reflexivity].
Defined.

(** ** What the WebdriverIO run writes *)

(** X17.  [runAccessibilityTest] writes at most two files, the JSON report
    first, into [__dirname/reports]: both names carry the stamp of the first
    clock reading, the JSON file holds the text of the scan result, and the
    HTML file is rendered at the second reading.  When the run throws it has
    written nothing or the JSON report alone; it returns exactly when both
    files are written. *)
Theorem wdio_run_writes_json_before_html :
  forall P E dirname s,
    let w := Wdio.world s in
    let w' := Wdio.world (fst (Wdio.runAccessibilityTest P E dirname s)) in
    let dir := Platform.path_join P dirname "reports" in
    let stamp :=
      dashed (Platform.toISOString P (Env.clock E (World.clock_reads w))) in
    let json :=
      (Platform.path_join P dir ("accessibility-report-" ++ stamp ++ ".json"),
       Json.stringify (value_of_results (Env.scan E "chrome"))) in
    (exists e,
       snd (Wdio.runAccessibilityTest P E dirname s) = throw e /\
       World.files w' = World.files w) \/
    (exists e,
       snd (Wdio.runAccessibilityTest P E dirname s) = throw e /\
       World.files w' = json :: World.files w) \/
    (exists html,
       snd (Wdio.runAccessibilityTest P E dirname s) = ok tt /\
       Wdio.generateHTMLReport P (Env.clock E (S (World.clock_reads w)))
         (Env.scan E "chrome") = ok html /\
       World.files w' =
       (Platform.path_join P dir ("accessibility-report-" ++ stamp ++ ".html"),
        html) :: json :: World.files w).
Proof.
  intros P E dirname [w bv]. cbn [Wdio.world].
  unfold Wdio.runAccessibilityTest, Wdio.delete_session, Wdio.print_counts,
    Wdio.in_world, Wdio.set_browser_var, Wdio.get_browser_var.
  unfold_run. simpl.
  repeat split_run; rewrite ?Nat.eqb_refl; simpl;
    first [ left; eexists; split; reflexivity
          | right; left; eexists; split; reflexivity
          | right; right; eexists; split; [reflexivity|];
            split; reflexivity ].
Qed.

(** X18.  When the scan result lacks one of its four category sequences,
    [runAccessibilityTest] throws before it touches the file system or reads
    the clock, whatever else happens: no directory is created and no file
    written, and the session is closed. *)
Theorem wdio_run_without_categories :
  forall P E dirname s,
    ScanResult.has_categories (Env.scan E "chrome") = false ->
    let w := Wdio.world s in
    let w' := Wdio.world (fst (Wdio.runAccessibilityTest P E dirname s)) in
    (exists e, snd (Wdio.runAccessibilityTest P E dirname s) = throw e) /\
    World.clock_reads w' = World.clock_reads w /\
    World.directories w' = World.directories w /\
    World.files w' = World.files w /\
    World.open_sessions w' = World.open_sessions w.
Proof.
  intros P E dirname [w bv] Hcat. cbn [Wdio.world].
  unfold ScanResult.has_categories in Hcat.
  unfold Wdio.runAccessibilityTest, Wdio.delete_session, Wdio.print_counts,
    Wdio.in_world, Wdio.set_browser_var, Wdio.get_browser_var.
  unfold_run. unfold length_of. simpl.
  destruct (Env.fault E "chrome" (engine_launch chrome)); simpl;
    [repeat split; eexists; reflexivity|].
  destruct (Env.fault E "chrome" (browser_url Wdio.testUrl)); simpl;
    [rewrite Nat.eqb_refl; repeat split; eexists; reflexivity|].
  destruct (Env.fault E "chrome" axeBuilder_analyze); simpl;
    [rewrite Nat.eqb_refl; repeat split; eexists; reflexivity|].
  destruct (ScanResult.violations (Env.scan E "chrome")); simpl;
    [|rewrite Nat.eqb_refl; repeat split; eexists; reflexivity].
  destruct (ScanResult.passes (Env.scan E "chrome")); simpl;
    [|rewrite Nat.eqb_refl; repeat split; eexists; reflexivity].
  destruct (ScanResult.incomplete (Env.scan E "chrome")); simpl;
    [|rewrite Nat.eqb_refl; repeat split; eexists; reflexivity].
  destruct (ScanResult.inapplicable (Env.scan E "chrome")); simpl;
    [discriminate|rewrite Nat.eqb_refl; repeat split; eexists; reflexivity].
Qed.

Lemma wdio_run_without_categories_witness :
  World.files
    (Wdio.world
       (fst (Wdio.runAccessibilityTest sample_platform partial_scan_env
               "/home/user/axe-webdriverio"
               (Wdio.mk_state World.initial None)))) = [].
Proof.
  destruct (wdio_run_without_categories sample_platform partial_scan_env
              "/home/user/axe-webdriverio" (Wdio.mk_state World.initial None)
              eq_refl) as (_ & _ & _ & H & _).
  exact H.
Defined.

(** ** The shape of [violationsByImpact] *)

Lemma fold_count_impact_four vs :
  forall a b c d,
    forallb counted_or_skipped vs = true ->
    fold_left count_impact vs
      [("critical", Num a); ("serious", Num b); ("moderate", Num c);
       ("minor", Num d)] =
    [("critical", Num (a + count_level "critical" vs));
     ("serious", Num (b + count_level "serious" vs));
     ("moderate", Num (c + count_level "moderate" vs));
     ("minor", Num (d + count_level "minor" vs))].
Proof.
  induction vs as [|v vs IH]; intros a b c d Hall.
  - unfold count_level, len. simpl. rewrite !N.add_0_r. reflexivity.
  - simpl in Hall. apply Bool.andb_true_iff in Hall. destruct Hall as [Hv Hall].
    rewrite !count_level_cons. cbn [fold_left].
    unfold counted_or_skipped, recognized, truthy in Hv.
    unfold has_impact.
    destruct (RuleOutcome.impact v) as [| |s] eqn:Himp.
    + replace (count_impact _ v)
        with [("critical", Num a); ("serious", Num b); ("moderate", Num c);
              ("minor", Num d)]
        by (unfold count_impact; rewrite Himp; reflexivity).
      rewrite (IH a b c d Hall). reflexivity.
    + replace (count_impact _ v)
        with [("critical", Num a); ("serious", Num b); ("moderate", Num c);
              ("minor", Num d)]
        by (unfold count_impact; rewrite Himp; reflexivity).
      rewrite (IH a b c d Hall). reflexivity.
    + destruct (String.eqb_spec s "critical") as [->|H1].
      { replace (count_impact _ v)
          with [("critical", Num (a + 1)); ("serious", Num b);
                ("moderate", Num c); ("minor", Num d)]
          by (unfold count_impact; rewrite Himp; reflexivity).
        rewrite (IH (a + 1)%N b c d Hall). cbn.
        rewrite <- !N.add_assoc. reflexivity. }
      destruct (String.eqb_spec s "serious") as [->|H2].
      { replace (count_impact _ v)
          with [("critical", Num a); ("serious", Num (b + 1));
                ("moderate", Num c); ("minor", Num d)]
          by (unfold count_impact; rewrite Himp; reflexivity).
        rewrite (IH a (b + 1)%N c d Hall). cbn.
        rewrite <- !N.add_assoc. reflexivity. }
      destruct (String.eqb_spec s "moderate") as [->|H3].
      { replace (count_impact _ v)
          with [("critical", Num a); ("serious", Num b);
                ("moderate", Num (c + 1)); ("minor", Num d)]
          by (unfold count_impact; rewrite Himp; reflexivity).
        rewrite (IH a b (c + 1)%N d Hall). cbn.
        rewrite <- !N.add_assoc. reflexivity. }
      destruct (String.eqb_spec s "minor") as [->|H4].
      { replace (count_impact _ v)
          with [("critical", Num a); ("serious", Num b);
                ("moderate", Num c); ("minor", Num (d + 1))]
          by (unfold count_impact; rewrite Himp; reflexivity).
        rewrite (IH a b c (d + 1)%N Hall). cbn.
        rewrite <- !N.add_assoc. reflexivity. }
      simpl in Hv.
      apply String.eqb_neq in H1, H2, H3, H4. rewrite H1, H2, H3, H4 in Hv.
      simpl in Hv. apply Bool.negb_true_iff in Hv.
      apply Bool.negb_false_iff in Hv. apply String.eqb_eq in Hv. subst s.
      replace (count_impact _ v)
        with [("critical", Num a); ("serious", Num b); ("moderate", Num c);
              ("minor", Num d)]
        by (unfold count_impact; rewrite Himp; reflexivity).
      rewrite (IH a b c d Hall). reflexivity.
Qed.

Lemma summary_four_keys b r s vs :
  generateSummary b r = ok s ->
  ScanResult.violations r = Some vs ->
  forallb counted_or_skipped vs = true ->
  Summary.violationsByImpact s =
  [("critical", Num (count_level "critical" vs));
   ("serious", Num (count_level "serious" vs));
   ("moderate", Num (count_level "moderate" vs));
   ("minor", Num (count_level "minor" vs))].
Proof.
  intros Hs Hvs Hall.
  destruct (generateSummary_ok_inv _ _ _ Hs) as (p & v & i & n & Hp & Hv & Hi & Hn).
  rewrite (generateSummary_present b r _ _ _ _ Hp Hv Hi Hn) in Hs.
  injection Hs as <-. cbn [Summary.violationsByImpact].
  rewrite Hvs in Hv. injection Hv as <-.
  unfold violationsByImpact0.
  rewrite (fold_count_impact_four vs 0 0 0 0 Hall).
  rewrite !N.add_0_l. reflexivity.
Qed.

(** X19.  When every violation's impact is one of the four recognized
    levels, or is absent, null or empty, [violationsByImpact] is exactly the
    object of the four keys critical, serious, moderate and minor, in that
    order, each holding the number of violations of its level. *)
Theorem violationsByImpact_has_four_keys :
  forall b r s vs,
    generateSummary b r = ok s ->
    ScanResult.violations r = Some vs ->
    forallb counted_or_skipped vs = true ->
    Summary.violationsByImpact s =
    [("critical", Num (count_level "critical" vs));
     ("serious", Num (count_level "serious" vs));
     ("moderate", Num (count_level "moderate" vs));
     ("minor", Num (count_level "minor" vs))].
Proof.
  intros b r s vs. apply summary_four_keys.
Qed.

Lemma violationsByImpact_has_four_keys_witness :
  exists s,
    generateSummary "chromium" scenario_with_missing_impact = ok s /\
    Summary.violationsByImpact s =
    [("critical", Num 0); ("serious", Num 1); ("moderate", Num 0);
     ("minor", Num 0)].
Proof.
  eexists. split; [reflexivity|].
  apply (violationsByImpact_has_four_keys "chromium"
           scenario_with_missing_impact _ _ eq_refl eq_refl eq_refl).
Defined.

(** ** Reading the JSON reports back *)

Lemma normalize_fixed v :
  Json.well_formed v = true -> nan_free v = true -> Json.normalize v = v.
Proof.
  induction v using value_induction; intros Hwf Hnan; try reflexivity.
  - destruct x; [reflexivity | discriminate].
  - cbn [Json.normalize]. cbn [Json.well_formed] in Hwf. cbn [nan_free] in Hnan.
    f_equal. rewrite <- (map_id xs) at 2. apply map_ext_in. intros a Ha.
    rewrite Forall_forall in H. rewrite forallb_forall in Hwf, Hnan.
    apply H; auto.
  - cbn [Json.normalize]. cbn [Json.well_formed] in Hwf. cbn [nan_free] in Hnan.
    apply Bool.andb_true_iff in Hwf. destruct Hwf as [Hord Hwf].
    rewrite rebuild_ordered by (rewrite map_fst_normalize; exact Hord).
    f_equal. rewrite <- (map_id ms) at 2. apply map_ext_in. intros [k a] Ha.
    cbn [fst snd]. f_equal.
    rewrite Forall_forall in H. rewrite forallb_forall in Hwf, Hnan.
    apply (H (k, a) Ha); [apply (Hwf (k, a) Ha) | apply (Hnan (k, a) Ha)].
Qed.

Lemma normalize_nan_free v :
  Json.well_formed v = true -> nan_free (Json.normalize v) = true.
Proof.
  induction v using value_induction; intros Hwf; try reflexivity.
  - destruct x; reflexivity.
  - cbn [Json.normalize nan_free]. cbn [Json.well_formed] in Hwf.
    apply forallb_forall. intros a Ha. apply in_map_iff in Ha.
    destruct Ha as (a0 & <- & Ha0).
    rewrite Forall_forall in H. rewrite forallb_forall in Hwf. auto.
  - cbn [Json.normalize]. cbn [Json.well_formed] in Hwf.
    apply Bool.andb_true_iff in Hwf. destruct Hwf as [Hord Hwf].
    rewrite rebuild_ordered by (rewrite map_fst_normalize; exact Hord).
    cbn [nan_free]. apply forallb_forall. intros a Ha. apply in_map_iff in Ha.
    destruct Ha as ([k a0] & <- & Ha0). cbn [fst snd].
    rewrite Forall_forall in H. rewrite forallb_forall in Hwf.
    apply (H (k, a0) Ha0). apply (Hwf (k, a0) Ha0).
Qed.

Lemma parse_stringify_exact v :
  Json.well_formed v = true ->
  (Json.parse (Json.stringify v) = Some v <-> nan_free v = true).
Proof.
  intros Hwf. rewrite parse_stringify. split.
  - intros H. injection H as H. rewrite <- H. apply normalize_nan_free. exact Hwf.
  - intros H. rewrite normalize_fixed by assumption. reflexivity.
Qed.

Lemma nan_free_strings xs : nan_free (value_of_strings xs) = true.
Proof.
  unfold value_of_strings. cbn [nan_free]. apply forallb_map_true. reflexivity.
Qed.

Lemma nan_free_node n : nan_free (value_of_node n) = true.
Proof.
  unfold value_of_node.
  destruct (AffectedNode.html n); cbn [option_map optional_member app];
    cbn [nan_free map fst snd forallb];
    rewrite nan_free_strings; reflexivity.
Qed.

Lemma nan_free_outcome o : nan_free (value_of_outcome o) = true.
Proof.
  unfold value_of_outcome.
  assert (forallb nan_free (map value_of_node (RuleOutcome.nodes o)) = true)
    as Hn by (apply forallb_map_true; apply nan_free_node).
  destruct (RuleOutcome.impact o); cbn [value_of_impact optional_member app];
    cbn [nan_free map fst snd forallb];
    rewrite nan_free_strings, Hn; reflexivity.
Qed.

Lemma nan_free_results r : nan_free (value_of_results r) = true.
Proof.
  assert (forall l, forallb nan_free (map value_of_outcome l) = true) as Ho
    by (intros l; apply forallb_map_true; apply nan_free_outcome).
  unfold value_of_results, value_of_outcomes, value_of_testEngine.
  destruct (ScanResult.testEngine r), (ScanResult.passes r),
    (ScanResult.violations r), (ScanResult.incomplete r),
    (ScanResult.inapplicable r);
    cbn [option_map optional_member app];
    cbn [nan_free map fst snd forallb];
    rewrite ?Ho; reflexivity.
Qed.

(** X20.  The JSON text of a scan result, which the WebdriverIO tool writes
    as its JSON report and which is the [results] member of the Playwright
    report, decodes to exactly that result: every key and value is read back
    as it was written, in the same order. *)
Theorem scan_result_json_decodes_exactly :
  forall r,
    Json.parse (Json.stringify (value_of_results r)) = Some (value_of_results r).
Proof.
  intros r. apply parse_stringify_exact.
  - apply well_formed_results.
  - apply nan_free_results.
Qed.

Lemma nan_free_counters_get k (o : JsObject.t jsnum) :
  JsObject.get k o = Some NaN -> nan_free (value_of_counters o) = false.
Proof.
  unfold value_of_counters. cbn [nan_free].
  induction o as [|[k' x] o IH]; simpl; [discriminate|].
  destruct (String.eqb k k').
  - intros H. injection H as ->. reflexivity.
  - intros H. rewrite (IH H). apply Bool.andb_false_r.
Qed.

(** X21.  The JSON report of the Playwright tool decodes to exactly the
    report when every violation's impact is a recognized level or is absent,
    null or empty.  When a violation has another impact, the report read back
    from report.json is not the report that was built: the bucket of that
    impact, which holds [NaN], is written as [null]. *)
Theorem json_report_decodes_exactly_without_nan :
  forall b r report vs,
    build_report b r = ok report ->
    ScanResult.violations r = Some vs ->
    (forallb counted_or_skipped vs = true ->
     Json.parse (report_text report) = Some (value_of_report report)) /\
    (forall k,
       k <> "" -> k <> "__proto__" -> recognized (ImpactString k) = false ->
       existsb (has_impact k) vs = true ->
       Json.parse (report_text report) <> Some (value_of_report report) /\
       Json.parse (report_text report) =
       Some (Json.normalize (value_of_report report))).
Proof.
  intros b r report vs Hrep Hvs.
  pose proof (well_formed_report b r report Hrep) as Hwf.
  destruct (build_report_inv b r report Hrep) as (s & Hs & ->).
  unfold report_text. split.
  - intros Hall. apply parse_stringify_exact; [exact Hwf|].
    unfold value_of_report, value_of_summary.
    cbn [Report.summary Report.results nan_free map fst snd forallb].
    rewrite nan_free_results.
    rewrite (summary_four_keys b r s vs Hs Hvs Hall).
    reflexivity.
  - intros k Hk1 Hk2 Hunrec Hex. split; [|apply parse_stringify].
    intros Hparse. apply parse_stringify_exact in Hparse; [|exact Hwf].
    assert (JsObject.get k (Summary.violationsByImpact s) = Some NaN) as Hnan.
    { destruct (generateSummary_ok_inv _ _ _ Hs)
        as (p & v & i & n & Hp & Hv & Hi & Hn).
      rewrite (generateSummary_present b r _ _ _ _ Hp Hv Hi Hn) in Hs.
      injection Hs as <-. cbn [Summary.violationsByImpact].
      rewrite Hvs in Hv. injection Hv as <-.
      assert (JsObject.get k violationsByImpact0 = None) as H0.
      { simpl in Hunrec. simpl.
        destruct (String.eqb k "critical"); [discriminate|].
        destruct (String.eqb k "serious"); [discriminate|].
        destruct (String.eqb k "moderate"); [discriminate|].
        destruct (String.eqb k "minor"); [discriminate|reflexivity]. }
      rewrite (fold_count_impact_new k vs _ Hk1 Hk2 H0), Hex. reflexivity. }
    unfold value_of_report, value_of_summary in Hparse.
    cbn [Report.summary Report.results nan_free map fst snd forallb] in Hparse.
    rewrite (nan_free_counters_get k _ Hnan) in Hparse.
    rewrite !Bool.andb_false_r in Hparse. simpl in Hparse.
    rewrite ?Bool.andb_false_r in Hparse. discriminate.
Qed.

Lemma json_report_decodes_exactly_without_nan_witness :
  exists report,
    build_report "chromium" scenario = ok report /\
    Json.parse (report_text report) = Some (value_of_report report).
Proof.
  eexists. split; [reflexivity|].
  apply (json_report_decodes_exactly_without_nan "chromium" scenario _
           [scenario_violation] eq_refl eq_refl).
  reflexivity.
Defined.

(** ** Every violation is listed *)

Lemma infix_trans (t x y : string) :
  (exists a b, t = a ++ x ++ b) -> (exists a b, x = a ++ y ++ b) ->
  exists a b, t = a ++ y ++ b.
Proof.
  intros (a & b & ->) (a' & b' & ->).
  exists (a ++ a'), (b' ++ b). rewrite !append_assoc. reflexivity.
Qed.

Lemma join_map_shows {A : Type} (f : A -> string) (v : A) (vs : list A) :
  In v vs -> exists a b, join "" (map f vs) = a ++ f v ++ b.
Proof.
  unfold join. induction vs as [|x vs IH]; [contradiction|].
  intros Hin. destruct vs as [|y vs].
  - destruct Hin as [->|[]]. exists "", "". simpl. rewrite append_nil_r.
    reflexivity.
  - cbn [map] in *.
    change (String.concat "" (f x :: f y :: map f vs))
      with (f x ++ String.concat "" (f y :: map f vs)).
    destruct Hin as [->|Hin].
    + eexists "", _. reflexivity.
    + destruct (IH Hin) as (a & b & Hab). rewrite Hab.
      exists (f x ++ a), b. rewrite append_assoc. reflexivity.
Qed.

Lemma html_document_shows_violations P this host summary violations :
  exists a b,
    html_document P this host summary violations =
    a ++ (if N.ltb 0 (Summary.violations summary)
          then violations_section summary violations
          else no_violations_notice) ++ b.
Proof.
  unfold html_document.
  repeat first [ apply infix_here | apply infix_later ].
Qed.

Lemma len_positive {A : Type} (xs : list A) :
  N.ltb 0 (len xs) = match xs with [] => false | _ => true end.
Proof.
  unfold len. destruct xs; [reflexivity|].
  apply N.ltb_lt. simpl List.length. lia.
Qed.

(** X22.  The HTML report of the Playwright tool lists every violation: with
    no violation it holds the notice that none was found; otherwise it holds
    the detail blocks of all the violations, joined in the order of the scan
    result, so that the block of each violation, with its texts as the scan
    gave them, is part of the document. *)
Theorem html_report_lists_every_violation :
  forall P this results html vs,
    generateHTMLReport_html P this results = ok html ->
    ScanResult.violations results = Some vs ->
    (vs = [] -> exists a b, html = a ++ no_violations_notice ++ b) /\
    (vs <> [] ->
     (exists a b, html = a ++ join "" (map violation_block vs) ++ b) /\
     (forall v, In v vs -> exists a b, html = a ++ violation_block v ++ b)).
Proof.
  intros P this results html vs Hhtml Hvs.
  unfold generateHTMLReport_html in Hhtml.
  destruct (generateSummary (Tester.browser this) results) as [e|summary] eqn:Hs;
    simpl in Hhtml; [discriminate|].
  destruct (generateSummary_ok_inv _ _ _ Hs) as (p & v & i & n & Hp & Hv & Hi & Hn).
  rewrite (generateSummary_present _ results _ _ _ _ Hp Hv Hi Hn) in Hs.
  injection Hs as <-.
  rewrite Hvs in Hv. injection Hv as <-.
  unfold html_template, hostname_of in Hhtml.
  destruct (Platform.hostname P (Tester.url this)) as [host|]; simpl in Hhtml;
    [|discriminate].
  rewrite len_positive, Hvs in Hhtml.
  match type of Hhtml with
  | context [html_document P this host ?s _] =>
      pose proof (fun l => html_document_shows_violations P this host s l)
        as Hdoc
  end.
  cbn [Summary.violations] in Hdoc. rewrite len_positive in Hdoc.
  destruct vs as [|v0 vs]; simpl in Hhtml; injection Hhtml as <-.
  - split; [intros _; apply Hdoc | intros H; contradiction H; reflexivity].
  - split; [discriminate|]. intros _.
    assert (exists a b,
               html_document P this host
                 (Summary.mk (ScanResult.url results)
                    (ScanResult.timestamp results) (Tester.browser this)
                    (len p + len (v0 :: vs) + len i + len n) (len p)
                    (len (v0 :: vs)) (len i) (len n)
                    (fold_left count_impact (v0 :: vs) violationsByImpact0))
                 (v0 :: vs) =
               a ++ join "" (map violation_block (v0 :: vs)) ++ b) as Hall.
    { eapply infix_trans; [apply Hdoc|].
      apply violations_section_shows_blocks. }
    split; [exact Hall|].
    intros v Hin. eapply infix_trans; [exact Hall|].
    apply join_map_shows. exact Hin.
Qed.

Lemma html_report_lists_every_violation_witness :
  exists html a b,
    generateHTMLReport_html sample_platform sample_tester scenario = ok html /\
    html = a ++ violation_block scenario_violation ++ b.
Proof.
  destruct (generateHTMLReport_html sample_platform sample_tester scenario)
    as [e|html] eqn:Hhtml; [discriminate|].
  destruct (html_report_lists_every_violation sample_platform sample_tester
              scenario html [scenario_violation] Hhtml eq_refl)
    as (_ & Hsome).
  destruct Hsome as (_ & Heach); [discriminate|].
  destruct (Heach scenario_violation (or_introl eq_refl)) as (a & b & Hab).
  exists html, a, b. split; [reflexivity | exact Hab].
Defined.

Lemma wdio_html_document_shows_table P now results version violations passes
    incomplete inapplicable violationRows :
  exists a b,
    Wdio.html_document P now results version violations passes incomplete
      inapplicable violationRows =
    a ++ (if N.ltb 0 violations
          then Wdio.violations_table violationRows
          else "<h2>✓ No Violations Found</h2>") ++ b.
Proof.
  unfold Wdio.html_document, Wdio.html_after_clock.
  repeat first [ apply infix_here | apply infix_later ].
Qed.

Lemma wdio_violations_table_shows_rows rows :
  exists a b, Wdio.violations_table rows = a ++ rows ++ b.
Proof.
  unfold Wdio.violations_table.
  repeat first [ apply infix_here | apply infix_later ].
Qed.

(** X23.  The HTML report of the WebdriverIO tool lists every violation: with
    no violation it holds the heading that none was found; otherwise it holds
    the table rows of all the violations, joined in the order of the scan
    result, so that the row of each violation is part of the document. *)
Theorem wdio_html_report_lists_every_violation :
  forall P now results html vs,
    Wdio.generateHTMLReport P now results = ok html ->
    ScanResult.violations results = Some vs ->
    (vs = [] ->
     exists a b, html = a ++ "<h2>✓ No Violations Found</h2>" ++ b) /\
    (vs <> [] ->
     (exists a b, html = a ++ join "" (map Wdio.violation_row vs) ++ b) /\
     (forall v, In v vs ->
        exists a b, html = a ++ Wdio.violation_row v ++ b)).
Proof.
  intros P now results html vs Hhtml Hvs.
  unfold Wdio.generateHTMLReport, Wdio.map_of, Wdio.testEngine_version,
    length_of in Hhtml.
  rewrite Hvs in Hhtml. simpl in Hhtml.
  destruct (ScanResult.testEngine results) as [ver|]; simpl in Hhtml;
    [|discriminate].
  destruct (ScanResult.passes results) as [ps|]; simpl in Hhtml;
    [|discriminate].
  destruct (ScanResult.incomplete results) as [ic|]; simpl in Hhtml;
    [|discriminate].
  destruct (ScanResult.inapplicable results) as [ia|]; simpl in Hhtml;
    [|discriminate].
  injection Hhtml as <-.
  pose proof (wdio_html_document_shows_table P now results ver (len vs)
                (len ps) (len ic) (len ia)
                (join "" (map Wdio.violation_row vs))) as Hdoc.
  rewrite len_positive in Hdoc.
  destruct vs as [|v0 vs].
  - split; [intros _; exact Hdoc | intros H; contradiction H; reflexivity].
  - split; [discriminate|]. intros _.
    assert (exists a b,
               Wdio.html_document P now results ver (len (v0 :: vs)) (len ps)
                 (len ic) (len ia)
                 (join "" (map Wdio.violation_row (v0 :: vs))) =
               a ++ join "" (map Wdio.violation_row (v0 :: vs)) ++ b) as Hall.
    { eapply infix_trans; [exact Hdoc|].
      apply wdio_violations_table_shows_rows. }
    split; [exact Hall|].
    intros v Hin. eapply infix_trans; [exact Hall|].
    apply join_map_shows. exact Hin.
Qed.

Lemma wdio_html_report_lists_every_violation_witness :
  exists html a b,
    Wdio.generateHTMLReport sample_platform 0 versioned_scenario = ok html /\
    html = a ++ Wdio.violation_row five_node_violation ++ b.
Proof.
  destruct (Wdio.generateHTMLReport sample_platform 0 versioned_scenario)
    as [e|html] eqn:Hhtml; [discriminate|].
  destruct (wdio_html_report_lists_every_violation sample_platform 0
              versioned_scenario html
              [scenario_violation; five_node_violation] Hhtml eq_refl)
    as (_ & Hsome).
  destruct Hsome as (_ & Heach); [discriminate|].
  destruct (Heach five_node_violation (or_intror (or_introl eq_refl)))
    as (a & b & Hab).
  exists html, a, b. split; [reflexivity | exact Hab].
Defined.

(** ** What the audit methods return *)


